(** * Knowledge graph index: document store, keyword ranking, synthesis

    A shallow embedding of [backend/knowledge_graph.py]: the [Document] and
    [SynthesisResult] dataclasses, the [KnowledgeGraphIndex] store, the
    [QueryEngine] and the [DocumentIngestor], followed by the properties of
    the retrieval-and-synthesis engine.

    Conventions of the embedding.
    - A Python [str] is a Rocq [string] whose characters are the code points
      U+0000..U+00FF (the one-byte kind of CPython's flexible string
      representation).  On that range [str.lower] is character-wise and
      [str.split] / [str.strip] use the twelve white-space code points
      listed in [isspace].
    - A Python [int] is a [Z]; a [dict] is an association list in insertion
      order with pairwise distinct keys; a [float] is a primitive binary64
      float.
    - Methods that take [self] run in a state-and-exception monad over the
      store; the clock read by [datetime.utcnow] is an explicit argument. *)

From Stdlib Require Import List String Ascii ZArith Lia Bool Arith.
From Stdlib Require Import Permutation Sorted DecimalString.
From Stdlib Require Import Floats Uint63.
Import ListNotations.

Local Open Scope string_scope.
Local Open Scope list_scope.

(** ** Strings *)

Module Str.

(** [str.lower] on one code point below U+0100: [A]..[Z] and the accented
    capitals U+00C0..U+00DE (the multiplication sign U+00D7 apart) move up
    by 32, everything else stays. *)
Definition lower_char (c : ascii) : ascii :=
  let n := nat_of_ascii c in
  if (((65 <=? n) && (n <=? 90)) ||
      ((192 <=? n) && (n <=? 222) && negb (n =? 215)))%nat
  then ascii_of_nat (n + 32)
  else c.

Fixpoint lower (s : string) : string :=
  match s with
  | EmptyString => EmptyString
  | String c s' => String (lower_char c) (lower s')
  end.

(** [str.isspace] on one code point below U+0100. *)
Definition isspace (c : ascii) : bool :=
  let n := nat_of_ascii c in
  (((9 <=? n) && (n <=? 13)) || ((28 <=? n) && (n <=? 32)) ||
   (n =? 133) || (n =? 160))%nat.

(** [s.split()] with no separator: the maximal runs of characters that are
    not white space, left to right.  [cur] is the run being read. *)
Fixpoint split_from (cur s : string) : list string :=
  match s with
  | EmptyString =>
      match cur with EmptyString => [] | _ => [cur] end
  | String c s' =>
      if isspace c then
        match cur with
        | EmptyString => split_from EmptyString s'
        | _ => cur :: split_from EmptyString s'
        end
      else split_from (cur ++ String c EmptyString) s'
  end.

Definition split (s : string) : list string := split_from EmptyString s.

Fixpoint lstrip (s : string) : string :=
  match s with
  | EmptyString => EmptyString
  | String c s' => if isspace c then lstrip s' else s
  end.

Fixpoint rstrip (s : string) : string :=
  match s with
  | EmptyString => EmptyString
  | String c s' =>
      match rstrip s' with
      | EmptyString => if isspace c then EmptyString else String c EmptyString
      | r => String c r
      end
  end.

(** [s.strip()] with no argument. *)
Definition strip (s : string) : string := rstrip (lstrip s).

(** Truth value of a string: [not s] holds of the empty string only. *)
Definition falsy (s : string) : bool :=
  match s with EmptyString => true | _ => false end.

(** [sub in s]: [sub] occurs in [s] as a contiguous block. *)
Fixpoint contains (sub s : string) : bool :=
  prefix sub s ||
  match s with
  | EmptyString => false
  | String _ s' => contains sub s'
  end.

(** [s[:n]] for a non-negative literal bound. *)
Fixpoint take (n : nat) (s : string) : string :=
  match n, s with
  | O, _ => EmptyString
  | _, EmptyString => EmptyString
  | S n', String c s' => String c (take n' s')
  end.

(** Every character is white space. *)
Fixpoint all_space (s : string) : bool :=
  match s with
  | EmptyString => true
  | String c s' => isspace c && all_space s'
  end.

(** [str(n)] for a non-negative [int]. *)
Definition of_nat (n : nat) : string :=
  NilEmpty.string_of_uint (Nat.to_uint n).

(** ["\n".join(parts)] and the general [sep.join]. *)
Fixpoint join (sep : string) (parts : list string) : string :=
  match parts with
  | [] => EmptyString
  | [p] => p
  | p :: rest => p ++ sep ++ join sep rest
  end.

End Str.

(** ** Content hashing

    [hashlib.md5(content.encode()).hexdigest()]: the UTF-8 bytes of the
    content, the MD5 message digest of RFC 1321 over 32-bit words written
    as [Z] with the wrap-around spelt out, and its 32 lower-case hexadecimal
    digits. *)

Module MD5.

Local Open Scope Z_scope.

Definition mask32 : Z := 4294967295.

Definition add32 (a b : Z) : Z := Z.land (a + b) mask32.

Definition not32 (a : Z) : Z := Z.lxor a mask32.

Definition rotl32 (x c : Z) : Z :=
  Z.land (Z.lor (Z.shiftl x c) (Z.shiftr x (32 - c))) mask32.

(** [floor(2^32 * abs(sin(i + 1)))] for [i] from 0 to 63. *)
Definition K : list Z :=
  [ 3614090360; 3905402710; 606105819; 3250441966;
    4118548399; 1200080426; 2821735955; 4249261313;
    1770035416; 2336552879; 4294925233; 2304563134;
    1804603682; 4254626195; 2792965006; 1236535329;
    4129170786; 3225465664; 643717713; 3921069994;
    3593408605; 38016083; 3634488961; 3889429448;
    568446438; 3275163606; 4107603335; 1163531501;
    2850285829; 4243563512; 1735328473; 2368359562;
    4294588738; 2272392833; 1839030562; 4259657740;
    2763975236; 1272893353; 4139469664; 3200236656;
    681279174; 3936430074; 3572445317; 76029189;
    3654602809; 3873151461; 530742520; 3299628645;
    4096336452; 1126891415; 2878612391; 4237533241;
    1700485571; 2399980690; 4293915773; 2240044497;
    1873313359; 4264355552; 2734768916; 1309151649;
    4149444226; 3174756917; 718787259; 3951481745 ].

(** Per-step left rotation amounts. *)
Definition shifts : list Z :=
  [ 7; 12; 17; 22; 7; 12; 17; 22; 7; 12; 17; 22; 7; 12; 17; 22;
    5;  9; 14; 20; 5;  9; 14; 20; 5;  9; 14; 20; 5;  9; 14; 20;
    4; 11; 16; 23; 4; 11; 16; 23; 4; 11; 16; 23; 4; 11; 16; 23;
    6; 10; 15; 21; 6; 10; 15; 21; 6; 10; 15; 21; 6; 10; 15; 21 ].

(** UTF-8 of one code point below U+0100: one byte below U+0080, two
    bytes from there on. *)
Definition utf8_char (c : ascii) : list Z :=
  let n := Z.of_nat (nat_of_ascii c) in
  if n <? 128 then [n] else [192 + n / 64; 128 + n mod 64].

(** [s.encode()] with the default encoding. *)
Fixpoint encode (s : string) : list Z :=
  match s with
  | EmptyString => []
  | String c s' => utf8_char c ++ encode s'
  end.

(** The [n] low bytes of [x], least significant first. *)
Fixpoint le_bytes (n : nat) (x : Z) : list Z :=
  match n with
  | O => []
  | S n' => x mod 256 :: le_bytes n' (x / 256)
  end.

Fixpoint le_word (bs : list Z) : Z :=
  match bs with
  | [] => 0
  | b :: r => b + 256 * le_word r
  end.

(** A one bit, zero bits up to 56 bytes modulo 64, then the bit length of
    the message on 64 bits. *)
Definition pad (msg : list Z) : list Z :=
  let len := Z.of_nat (List.length msg) in
  msg ++ [128] ++ repeat 0 (Z.to_nat ((55 - len) mod 64))
      ++ le_bytes 8 ((8 * len) mod 2 ^ 64).

Fixpoint words (n : nat) (bs : list Z) : list Z :=
  match n with
  | O => []
  | S n' => le_word (firstn 4 bs) :: words n' (skipn 4 bs)
  end.

Definition state : Type := (Z * Z * Z * Z)%type.

Definition init : state := (1732584193, 4023233417, 2562383102, 271733878).

Definition step (M : list Z) (st : state) (i : nat) : state :=
  let '(a, b, c, d) := st in
  let iz := Z.of_nat i in
  let '(f, g) :=
    if iz <? 16 then
      (Z.lor (Z.land b c) (Z.land (not32 b) d), iz)
    else if iz <? 32 then
      (Z.lor (Z.land d b) (Z.land (not32 d) c), (5 * iz + 1) mod 16)
    else if iz <? 48 then
      (Z.lxor (Z.lxor b c) d, (3 * iz + 5) mod 16)
    else
      (Z.lxor c (Z.lor b (not32 d)), (7 * iz) mod 16) in
  let f' := add32 (add32 (add32 f a) (nth i K 0)) (nth (Z.to_nat g) M 0) in
  (d, add32 b (rotl32 f' (nth i shifts 0)), b, c).

Definition block (st : state) (M : list Z) : state :=
  let '(a0, b0, c0, d0) := st in
  let '(a, b, c, d) := fold_left (step M) (seq 0 64) st in
  (add32 a0 a, add32 b0 b, add32 c0 c, add32 d0 d).

Fixpoint blocks (n : nat) (bs : list Z) (st : state) : state :=
  match n with
  | O => st
  | S n' => blocks n' (skipn 64 bs) (block st (words 16 (firstn 64 bs)))
  end.

Definition digest (msg : list Z) : list Z :=
  let p := pad msg in
  let '(a, b, c, d) := blocks (List.length p / 64) p init in
  le_bytes 4 a ++ le_bytes 4 b ++ le_bytes 4 c ++ le_bytes 4 d.

Definition hex_digit (n : Z) : ascii :=
  match get (Z.to_nat n) "0123456789abcdef" with
  | Some c => c
  | None => "0"%char
  end.

Fixpoint hex (bs : list Z) : string :=
  match bs with
  | [] => EmptyString
  | b :: r => String (hex_digit (b / 16)) (String (hex_digit (b mod 16)) (hex r))
  end.

(** [hashlib.md5(s.encode()).hexdigest()]. *)
Definition hexdigest (s : string) : string := hex (digest (encode s)).

End MD5.

(** ** Dictionaries

    A [dict] keeps its keys in insertion order; assigning to a key that is
    present replaces the value where it stands, assigning to a new key
    appends it. *)

Module Dict.

Section Ops.

Context {V : Type}.

Definition t : Type := list (string * V).

Definition empty : t := [].

(** [d.get(k)] *)
Fixpoint get (k : string) (d : t) : option V :=
  match d with
  | [] => None
  | (k', v) :: d' => if String.eqb k' k then Some v else get k d'
  end.

(** [d[k] = v] *)
Fixpoint set (k : string) (v : V) (d : t) : t :=
  match d with
  | [] => [(k, v)]
  | (k', v') :: d' =>
      if String.eqb k' k then (k', v) :: d' else (k', v') :: set k v d'
  end.

(** [del d[k]] when [k] is present. *)
Fixpoint remove (k : string) (d : t) : t :=
  match d with
  | [] => []
  | (k', v') :: d' =>
      if String.eqb k' k then d' else (k', v') :: remove k d'
  end.

(** [d.keys()] and [d.values()], in iteration order. *)
Definition keys (d : t) : list string := map fst d.

Definition values (d : t) : list V := map snd d.

(** [len(d)] *)
Definition len (d : t) : Z := Z.of_nat (List.length d).

(** The keys of a dictionary are pairwise distinct. *)
Definition wf (d : t) : Prop := NoDup (keys d).

(** The entries stored under [k]. *)
Definition entries_at (k : string) (d : t) : t :=
  filter (fun kv => String.eqb (fst kv) k) d.

End Ops.

Arguments t : clear implicits.

End Dict.

(** ** Values of type [Any] carried by metadata *)

#[local] Set Warnings "-register-all".

Inductive pyval : Type :=
| VNone
| VBool (b : bool)
| VInt (n : Z)
| VStr (s : string)
| VList (l : list pyval)
| VDict (d : list (string * pyval)).

(** ** Points in time

    A [datetime] is its calendar fields; [isoformat] writes
    [YYYY-MM-DDTHH:MM:SS], followed by [.ffffff] when the microsecond field
    is not zero. *)

Module Datetime.

Record t : Type := mk {
  year : Z; month : Z; day : Z;
  hour : Z; minute : Z; second : Z; microsecond : Z
}.

Fixpoint zeros (n : nat) : string :=
  match n with
  | O => EmptyString
  | S n' => String "0"%char (zeros n')
  end.

(** [%0wd] of a non-negative field. *)
Definition zfill (w : nat) (x : Z) : string :=
  let s := Str.of_nat (Z.to_nat x) in
  zeros (w - String.length s) ++ s.

Definition isoformat (d : t) : string :=
  zfill 4 (year d) ++ "-" ++ zfill 2 (month d) ++ "-" ++ zfill 2 (day d)
  ++ "T" ++ zfill 2 (hour d) ++ ":" ++ zfill 2 (minute d) ++ ":"
  ++ zfill 2 (second d)
  ++ (if (microsecond d =? 0)%Z then EmptyString
      else "." ++ zfill 6 (microsecond d)).

End Datetime.

(** ** The state-and-exception monad of the methods

    A method of an object whose state has type [St] maps the state before
    the call to the outcome of the call and the state after it. *)

Inductive exn : Type :=
| KeyError (key : string)
| HTTPException (status_code : Z) (detail : string).

Inductive outcome (A : Type) : Type :=
| Return (a : A)
| Raise (e : exn).

Arguments Return {A} a.
Arguments Raise {A} e.

Module Py.

Section Monad.

Context {St : Type}.

Definition m (A : Type) : Type := St -> outcome A * St.

Definition ret {A} (a : A) : m A := fun st => (Return a, st).

Definition bind {A B} (c : m A) (k : A -> m B) : m B :=
  fun st =>
    match c st with
    | (Return a, st') => k a st'
    | (Raise e, st') => (Raise e, st')
    end.

Definition raise {A} (e : exn) : m A := fun st => (Raise e, st).

(** Reading and assigning the attributes of [self]. *)
Definition get : m St := fun st => (Return st, st).

Definition put (st' : St) : m unit := fun _ => (Return tt, st').

(** [for x in l: body(x)] *)
Fixpoint for_each {A} (l : list A) (body : A -> m unit) : m unit :=
  match l with
  | [] => ret tt
  | x :: l' => bind (body x) (fun _ => for_each l' body)
  end.

(** [acc = init; for x in l: acc = body(acc, x)] for a body that may
    raise. *)
Fixpoint fold_each {A B} (l : list A) (acc : B) (body : B -> A -> m B)
  : m B :=
  match l with
  | [] => ret acc
  | x :: l' => bind (body acc x) (fun acc' => fold_each l' acc' body)
  end.

Definition run {A} (c : m A) (st : St) : outcome A * St := c st.

(** The value a call returns and the state it leaves. *)
Definition result {A} (c : m A) (st : St) : outcome A := fst (c st).

Definition after {A} (c : m A) (st : St) : St := snd (c st).

End Monad.

Arguments m : clear implicits.

End Py.

Declare Scope py_scope.
Delimit Scope py_scope with py.

Notation "x <- c ;; k" := (Py.bind c (fun x => k))
  (at level 61, c at next level, right associativity) : py_scope.
Notation "c ;;; k" := (Py.bind c (fun _ => k))
  (at level 61, right associativity) : py_scope.

Local Open Scope py_scope.

(** ** Lists: slicing and the stable sort of [list.sort] *)

Module PyList.

Section Ops.

Context {A : Type}.

(** Truth value of a list: [not l] holds of the empty list only. *)
Definition falsy (l : list A) : bool :=
  match l with [] => true | _ => false end.

(** [l[:k]] for an [int] bound: a negative [k] counts from the end. *)
Definition slice_to (k : Z) (l : list A) : list A :=
  if (0 <=? k)%Z then firstn (Z.to_nat k) l
  else firstn (Z.to_nat (Z.of_nat (List.length l) + k)) l.

(** [l.sort(key=key, reverse=True)].  The sort is stable: of two elements
    with equal keys, the one that stood first stays first, also under
    [reverse=True].  It is written here as an insertion sort; the result
    does not depend on that choice (see [sort_desc_unique]). *)
Fixpoint insert_desc (key : A -> Z) (x : A) (l : list A) : list A :=
  match l with
  | [] => [x]
  | y :: l' =>
      if (key y <=? key x)%Z then x :: y :: l'
      else y :: insert_desc key x l'
  end.

Fixpoint sort_desc (key : A -> Z) (l : list A) : list A :=
  match l with
  | [] => []
  | x :: l' => insert_desc key x (sort_desc key l')
  end.

End Ops.

End PyList.

(** ** [Document] *)

Module Document.

Record t : Type := mk {
  id : string;
  content : string;
  title : string;
  source : string;
  metadata : Dict.t pyval;
  created_at : Datetime.t
}.

(** [__post_init__]: an empty [id] is replaced by the digest of the
    content. *)
Definition post_init (self : t) : t :=
  if Str.falsy (id self) then
    mk (MD5.hexdigest (content self)) (content self) (title self)
       (source self) (metadata self) (created_at self)
  else self.

(** [Document(id=..., content=..., title=..., source=..., metadata=...)];
    [now] is what [datetime.utcnow] returns for [created_at]. *)
Definition new (id content title source : string) (metadata : Dict.t pyval)
  (now : Datetime.t) : t :=
  post_init (mk id content title source metadata now).

End Document.

(** ** [SynthesisResult] *)

Module SynthesisResult.

Record t : Type := mk {
  query : string;
  response : string;
  sources : list Document.t;
  confidence : float;
  metadata : Dict.t pyval
}.

End SynthesisResult.

(** ** [KnowledgeGraphIndex] *)

Module KnowledgeGraphIndex.

Record t : Type := mk {
  documents : Dict.t Document.t;
  indexed : bool
}.

(** [__init__] *)
Definition init : t := mk Dict.empty false.

Definition set_documents (d : Dict.t Document.t) : Py.m t unit :=
  self <- Py.get ;; Py.put (mk d (indexed self)).

Definition set_indexed (b : bool) : Py.m t unit :=
  self <- Py.get ;; Py.put (mk (documents self) b).

Definition add_documents (docs : list Document.t) : Py.m t unit :=
  Py.for_each docs (fun doc =>
    self <- Py.get ;;
    set_documents (Dict.set (Document.id doc) doc (documents self))) ;;;
  set_indexed true.

(** The inner loop of [query]: one point for every query term that occurs
    in the lower-cased content. *)
Definition score_of (query_terms : list string) (doc : Document.t) : Z :=
  let content_lower := Str.lower (Document.content doc) in
  fold_left
    (fun score term =>
       if Str.contains term content_lower then (score + 1)%Z else score)
    query_terms 0%Z.

(** The outer loop of [query]: the documents that score, with their score,
    in the order of [self.documents.values()]. *)
Definition scored (query_terms : list string) (docs : list Document.t)
  : list (Z * Document.t) :=
  fold_left
    (fun scored_docs doc =>
       let score := score_of query_terms doc in
       if (0 <? score)%Z then scored_docs ++ [(score, doc)]
       else scored_docs)
    docs [].

Definition query (query_text : string) (top_k : Z)
  : Py.m t (list Document.t) :=
  self <- Py.get ;;
  if negb (indexed self) then Py.ret []
  else
    let query_terms := Str.split (Str.lower query_text) in
    let scored_docs := scored query_terms (Dict.values (documents self)) in
    let scored_docs := PyList.sort_desc fst scored_docs in
    Py.ret (map snd (PyList.slice_to top_k scored_docs)).

(** The default of [top_k]. *)
Definition default_top_k : Z := 5.

Definition get_document (doc_id : string) : Py.m t (option Document.t) :=
  self <- Py.get ;; Py.ret (Dict.get doc_id (documents self)).

Definition list_documents : Py.m t (list Document.t) :=
  self <- Py.get ;; Py.ret (Dict.values (documents self)).

Definition clear : Py.m t unit :=
  set_documents Dict.empty ;;; set_indexed false.

Definition document_count : Py.m t Z :=
  self <- Py.get ;; Py.ret (Dict.len (documents self)).

End KnowledgeGraphIndex.

(** ** [QueryEngine] *)

Module QueryEngine.

Definition newline : string := String (ascii_of_nat 10) EmptyString.

#[local] Set Warnings "-inexact-float".

(** [min(a, b)] of two floats: the first argument unless the second is
    smaller. *)
Definition float_min (a b : float) : float :=
  if PrimFloat.ltb b a then b else a.

(** [n * 0.1] for [n = len(...)]: the integer is converted to the nearest
    float first.  A list holds fewer than [2^63] items. *)
Definition float_of_len (n : nat) : float :=
  PrimFloat.of_uint63 (Uint63.of_Z (Z.of_nat n)).

(** [min(0.5 + (len(context_docs) * 0.1), 0.95)] *)
Definition confidence_of (n : nat) : float :=
  float_min (PrimFloat.add 0.5%float (PrimFloat.mul (float_of_len n) 0.1%float))
            0.95%float.

(** The excerpt [f"From '{doc.title}': {doc.content[:200]}..."]. *)
Definition excerpt (doc : Document.t) : string :=
  "From '" ++ Document.title doc ++ "': "
  ++ Str.take 200 (Document.content doc) ++ "...".

(** [_generate_response] *)
Definition generate_response (query : string) (content_pieces : list string)
  : string :=
  if PyList.falsy content_pieces then "No relevant information found."
  else
    let response_parts :=
      [ ("Based on the research documents, here's the synthesis for: '"
          ++ query ++ "'")%string;
        EmptyString;
        "Key findings:" ] in
    let '(_, response_parts) :=
      fold_left
        (fun '(i, parts) content =>
           (S i, parts ++ [(Str.of_nat i ++ ". " ++ content)%string]))
        content_pieces (1, response_parts) in
    let response_parts :=
      response_parts
      ++ [ EmptyString;
           "This synthesis combines insights from multiple sources." ] in
    Str.join newline response_parts.

(** [synthesize(query, context_docs=None)]; [now] is what
    [datetime.utcnow] returns when the result is built. *)
Definition synthesize (query : string)
  (context_docs : option (list Document.t)) (now : Datetime.t)
  : Py.m KnowledgeGraphIndex.t SynthesisResult.t :=
  context_docs <-
    match context_docs with
    | None =>
        KnowledgeGraphIndex.query query KnowledgeGraphIndex.default_top_k
    | Some docs => Py.ret docs
    end ;;
  if PyList.falsy context_docs then
    Py.ret (SynthesisResult.mk
              query
              "No relevant documents found for this query."
              []
              0%float
              [("status", VStr "no_results")])
  else
    let relevant_content :=
      fold_left (fun acc doc => acc ++ [excerpt doc]) context_docs [] in
    let synthesized_response := generate_response query relevant_content in
    let confidence := confidence_of (List.length context_docs) in
    Py.ret (SynthesisResult.mk
              query
              synthesized_response
              context_docs
              confidence
              [ ("status", VStr "success");
                ("document_count",
                 VInt (Z.of_nat (List.length context_docs)));
                ("timestamp", VStr (Datetime.isoformat now)) ]).

End QueryEngine.

(** ** [DocumentIngestor] *)

Module DocumentIngestor.

(** One entry of [documents_data]: a dictionary with the keys [content],
    [title], [source] and [metadata], any of which may be missing. *)
Record doc_data : Type := mk_data {
  data_content : option string;
  data_title : option string;
  data_source : option string;
  data_metadata : option (Dict.t pyval)
}.

(** [data[key]]: a missing key raises [KeyError]. *)
Definition getitem {St A} (key : string) (field : option A) : Py.m St A :=
  match field with
  | Some v => Py.ret v
  | None => Py.raise (KeyError key)
  end.

(** [data.get(key, default)] *)
Definition get_default {A} (field : option A) (default : A) : A :=
  match field with
  | Some v => v
  | None => default
  end.

(** [metadata or {}] *)
Definition or_empty (metadata : option (Dict.t pyval)) : Dict.t pyval :=
  match metadata with
  | None => Dict.empty
  | Some [] => Dict.empty
  | Some d => d
  end.

(** [ingest_text(content, title, source="manual", metadata=None)]; an
    argument left out is [None] here. *)
Definition ingest_text (content title : string) (source : option string)
  (metadata : option (Dict.t pyval)) (now : Datetime.t)
  : Py.m KnowledgeGraphIndex.t Document.t :=
  let doc :=
    Document.new EmptyString content title (get_default source "manual")
                 (or_empty metadata) now in
  KnowledgeGraphIndex.add_documents [doc] ;;;
  Py.ret doc.

(** The body of the loop of [ingest_batch]: build the document of one
    entry and append it.  [clock i] is what [datetime.utcnow] returns at
    the construction of document number [i]. *)
Definition build_one (clock : nat -> Datetime.t)
  (documents : list Document.t) (data : doc_data)
  : Py.m KnowledgeGraphIndex.t (list Document.t) :=
  content <- getitem "content" (data_content data) ;;
  title <- getitem "title" (data_title data) ;;
  let doc :=
    Document.new EmptyString content title
                 (get_default (data_source data) "batch")
                 (get_default (data_metadata data) Dict.empty)
                 (clock (List.length documents)) in
  Py.ret (documents ++ [doc]).

Definition ingest_batch (documents_data : list doc_data)
  (clock : nat -> Datetime.t)
  : Py.m KnowledgeGraphIndex.t (list Document.t) :=
  documents <- Py.fold_each documents_data [] (build_one clock) ;;
  KnowledgeGraphIndex.add_documents documents ;;;
  Py.ret documents.

Definition max_size : Z := 10000000.

Definition validate_document (content title : string)
  : bool * option string :=
  if Str.falsy content || Str.falsy (Str.strip content) then
    (false, Some "Document content cannot be empty")
  else if Str.falsy title || Str.falsy (Str.strip title) then
    (false, Some "Document title cannot be empty")
  else if (Z.of_nat (String.length content) >? max_size)%Z then
    (false, Some "Document content exceeds maximum size (10MB)")
  else (true, None).

End DocumentIngestor.

(** ** The deletion endpoint of [main.py]

    The only place outside the store's own methods that writes to it. *)

Module Api.

Definition delete_document (doc_id : string)
  : Py.m KnowledgeGraphIndex.t unit :=
  doc <- KnowledgeGraphIndex.get_document doc_id ;;
  match doc with
  | None =>
      Py.raise (HTTPException 404
                  ("Document with ID '" ++ doc_id ++ "' not found"))
  | Some _ =>
      self <- Py.get ;;
      KnowledgeGraphIndex.set_documents
        (Dict.remove doc_id (KnowledgeGraphIndex.documents self))
  end.

End Api.

(** ** Binary64 values

    The floats of the program are IEEE 754 binary64 numbers; their
    operations are specified on [spec_float], the sign, mantissa and
    exponent of a number.  [normal_pos x lo hi] says that [x] is a
    positive number with a full 53-bit mantissa and an exponent between
    [lo] and [hi]. *)

Module Binary64.

Definition normal_pos (x : spec_float) (lo hi : Z) : Prop :=
  exists (m : positive) (e : Z),
    x = S754_finite false m e /\
    Zpos (digits2_pos m) = 53%Z /\ (lo <= e <= hi)%Z.

End Binary64.

(** ** Calls on the shared store

    Every way the program reaches the store: the methods of the index, of
    the query engine and of the ingestor, and the deletion endpoint.  A
    sequence of calls runs one after the other on the same store; a call
    that raises leaves the store as it stood when it raised. *)

Module Calls.

Inductive call : Type :=
| AddDocuments (docs : list Document.t)
| Query (query_text : string) (top_k : Z)
| GetDocument (doc_id : string)
| ListDocuments
| Clear
| DocumentCount
| Synthesize (query : string) (context_docs : option (list Document.t))
    (now : Datetime.t)
| IngestText (content title : string) (source : option string)
    (metadata : option (Dict.t pyval)) (now : Datetime.t)
| IngestBatch (documents_data : list DocumentIngestor.doc_data)
    (clock : nat -> Datetime.t)
| DeleteDocument (doc_id : string).

Definition is_clear (c : call) : bool :=
  match c with Clear => true | _ => false end.

(** The store after one call. *)
Definition exec (c : call) (idx : KnowledgeGraphIndex.t)
  : KnowledgeGraphIndex.t :=
  match c with
  | AddDocuments docs => Py.after (KnowledgeGraphIndex.add_documents docs) idx
  | Query q k => Py.after (KnowledgeGraphIndex.query q k) idx
  | GetDocument i => Py.after (KnowledgeGraphIndex.get_document i) idx
  | ListDocuments => Py.after KnowledgeGraphIndex.list_documents idx
  | Clear => Py.after KnowledgeGraphIndex.clear idx
  | DocumentCount => Py.after KnowledgeGraphIndex.document_count idx
  | Synthesize q ctx now => Py.after (QueryEngine.synthesize q ctx now) idx
  | IngestText c t s m now =>
      Py.after (DocumentIngestor.ingest_text c t s m now) idx
  | IngestBatch data clock =>
      Py.after (DocumentIngestor.ingest_batch data clock) idx
  | DeleteDocument i => Py.after (Api.delete_document i) idx
  end.

(** The store after a sequence of calls. *)
Definition exec_all (cs : list call) (idx : KnowledgeGraphIndex.t)
  : KnowledgeGraphIndex.t :=
  fold_left (fun st c => exec c st) cs idx.

End Calls.

(** ** The specification's wording

    The definitions of this module follow the words of the specification,
    not the code; the theorems below compare the two. *)

Module Spec.

(** The three validation failures, and the message the code gives each. *)
Inductive validation_error : Type :=
| EmptyContent
| EmptyTitle
| ContentTooLarge.

Definition message (e : validation_error) : string :=
  match e with
  | EmptyContent => "Document content cannot be empty"
  | EmptyTitle => "Document title cannot be empty"
  | ContentTooLarge => "Document content exceeds maximum size (10MB)"
  end.

(** Empty, or white space only. *)
Definition blank (s : string) : bool := Str.all_space s.

(** Content emptiness first, title emptiness second, size last. *)
Definition validate (content title : string) : option validation_error :=
  if blank content then Some EmptyContent
  else if blank title then Some EmptyTitle
  else if (10000000 <? Z.of_nat (String.length content))%Z
       then Some ContentTooLarge
  else None.

(** [sub] appears in [s] as a substring. *)
Definition occurs (sub s : string) : Prop :=
  exists pre post : string, s = (pre ++ sub ++ post)%string.

(** The white-space-split, lower-cased terms of a query. *)
Definition terms_of (text : string) : list string :=
  Str.split (Str.lower text).

(** The term appears in the lower-cased content of the document. *)
Definition present (doc : Document.t) (term : string) : bool :=
  Str.contains term (Str.lower (Document.content doc)).

(** One point for each entry of the term list that is present, an entry
    that comes twice in the list counting twice. *)
Definition term_score (terms : list string) (doc : Document.t) : Z :=
  Z.of_nat (List.length (filter (present doc) terms)).

(** One point for each distinct term that is present. *)
Definition distinct_score (terms : list string) (doc : Document.t) : Z :=
  Z.of_nat
    (List.length (filter (present doc) (nodup string_dec terms))).

(** The documents whose lower-cased content contains at least one term,
    in the order of the enumeration. *)
Definition matching (terms : list string) (docs : list Document.t)
  : list Document.t :=
  filter (fun doc => existsb (present doc) terms) docs.

(** [ranked] lists the [candidates] by score, highest first, documents of
    equal score in the order they have among the candidates. *)
Definition is_ranking (score : Document.t -> Z)
  (candidates ranked : list Document.t) : Prop :=
  Permutation candidates ranked /\
  StronglySorted (fun a b => (score b <= score a)%Z) ranked /\
  forall s : Z,
    filter (fun d => (score d =? s)%Z) ranked
    = filter (fun d => (score d =? s)%Z) candidates.

(** The result of a query when every distinct term scores once: the
    matching documents by [distinct_score], ties in enumeration order,
    the first [top_k] of them. *)
Definition query_distinct (idx : KnowledgeGraphIndex.t) (text : string)
  (top_k : nat) : list Document.t :=
  if KnowledgeGraphIndex.indexed idx then
    let terms := terms_of text in
    firstn top_k
      (PyList.sort_desc (distinct_score terms)
         (matching terms
            (Dict.values (KnowledgeGraphIndex.documents idx))))
  else [].

(** The context documents of a [synthesize] call are [docs]: the ones
    passed in, or else the result of the query with the default bound. *)
Definition context_is (idx : KnowledgeGraphIndex.t) (query : string)
  (context_docs : option (list Document.t)) (docs : list Document.t)
  : Prop :=
  match context_docs with
  | Some given => given = docs
  | None =>
      Py.result
        (KnowledgeGraphIndex.query query KnowledgeGraphIndex.default_top_k)
        idx
      = Return docs
  end.

(** The result of a synthesis that found nothing. *)
Definition no_results (query : string) : SynthesisResult.t :=
  SynthesisResult.mk query "No relevant documents found for this query."
    [] 0%float [("status", VStr "no_results")].

(** The excerpt of a document: its title, the first 200 characters of its
    content, and the ellipsis. *)
Definition excerpt (doc : Document.t) : string :=
  "From '" ++ Document.title doc ++ "': "
  ++ substring 0 200 (Document.content doc) ++ "...".

(** The numbered lines of the findings, counting from [i]. *)
Fixpoint numbered (i : nat) (pieces : list string) : list string :=
  match pieces with
  | [] => []
  | p :: rest =>
      (Str.of_nat i ++ ". " ++ p)%string :: numbered (S i) rest
  end.

(** The text of a successful synthesis. *)
Definition response_text (query : string) (docs : list Document.t)
  : string :=
  Str.join QueryEngine.newline
    ([ ("Based on the research documents, here's the synthesis for: '"
          ++ query ++ "'")%string;
       EmptyString;
       "Key findings:" ]
     ++ numbered 1 (map excerpt docs)
     ++ [ EmptyString;
          "This synthesis combines insights from multiple sources." ]).

(** One item of a batch: content and title, and optionally source and
    metadata. *)
Record item : Type := mk_item {
  item_content : string;
  item_title : string;
  item_source : option string;
  item_metadata : option (Dict.t pyval)
}.

(** The dictionary that carries an item. *)
Definition to_data (it : item) : DocumentIngestor.doc_data :=
  DocumentIngestor.mk_data (Some (item_content it)) (Some (item_title it))
    (item_source it) (item_metadata it).

(** The document of one item: the id derived from the content, and the
    defaults for the fields the item leaves out. *)
Definition document_of (now : Datetime.t) (it : item) : Document.t :=
  Document.mk (MD5.hexdigest (item_content it)) (item_content it)
    (item_title it)
    (match item_source it with Some s => s | None => "batch" end)
    (match item_metadata it with Some m => m | None => [] end)
    now.

(** One document per item, in the order of the items; the item at
    position [i] reads the clock as [clock i]. *)
Fixpoint documents_of (clock : nat -> Datetime.t) (i : nat)
  (items : list item) : list Document.t :=
  match items with
  | [] => []
  | it :: rest => document_of (clock i) it :: documents_of clock (S i) rest
  end.

(** The documents map after the documents of one [add] have been written
    to it, each under its id, a later one replacing an earlier one of the
    same id. *)
Definition store_all (docs : list Document.t) (d : Dict.t Document.t)
  : Dict.t Document.t :=
  fold_left (fun d doc => Dict.set (Document.id doc) doc d) docs d.

(** A dictionary has every key it needs: [content] and [title]. *)
Definition complete (data : DocumentIngestor.doc_data) : bool :=
  match DocumentIngestor.data_content data,
        DocumentIngestor.data_title data with
  | Some _, Some _ => true
  | _, _ => false
  end.

End Spec.

Module KG := KnowledgeGraphIndex.

(** ** Sample data

    The documents of the test suite and two small stores, for the worked
    instances of the theorems. *)

Module Examples.

Definition epoch : Datetime.t := Datetime.mk 2024 1 2 3 4 5 0.

Definition doc (id content title : string) : Document.t :=
  Document.new id content title "arxiv" [] epoch.

Definition doc1 := doc "doc1" "Machine learning is fascinating" "ML Intro".
Definition doc2 := doc "doc2" "Deep learning revolutionizes AI" "Deep Learning".
Definition doc3 := doc "doc3" "Neural networks are powerful" "Neural Nets".
Definition doc4 :=
  doc "doc4" "Machine learning and deep learning are both important" "Combined".

(** The populated index of the test suite with [doc4] added. *)
Definition populated : KG.t :=
  Py.after (KG.add_documents [doc4])
    (Py.after (KG.add_documents [doc1; doc2; doc3]) KG.init).

Definition dog := doc "b" "dog" "B".
Definition cat := doc "a" "cat" "A".

(** [dog] is stored before [cat]. *)
Definition pets : KG.t := Py.after (KG.add_documents [dog; cat]) KG.init.

End Examples.

(** ** The request handlers of [main.py]

    The handlers share one index, one query engine and one ingestor.  A
    request body has passed the field checks of its model before the
    handler runs; the handler is what is modelled here.  A handler that
    raises [HTTPException] leaves the store as it stood when it raised. *)

Module Main.

Module DocumentIngestRequest.

Record t : Type := mk {
  content : string;
  title : string;
  source : string;
  metadata : Dict.t pyval
}.

End DocumentIngestRequest.

Module DocumentIngestResponse.

Record t : Type := mk {
  id : string;
  title : string;
  source : string;
  created_at : string;
  message : string
}.

End DocumentIngestResponse.

Module DocumentResponse.

Record t : Type := mk {
  id : string;
  title : string;
  source : string;
  content_preview : string;
  metadata : Dict.t pyval;
  created_at : string
}.

End DocumentResponse.

Module QueryResponse.

Record t : Type := mk {
  query : string;
  results : list DocumentResponse.t;
  total_results : Z
}.

End QueryResponse.

Module SourceReference.

Record t : Type := mk {
  id : string;
  title : string;
  source : string
}.

End SourceReference.

Module SynthesizeResponse.

Record t : Type := mk {
  query : string;
  response : string;
  sources : list SourceReference.t;
  confidence : float;
  metadata : Dict.t pyval
}.

End SynthesizeResponse.

Module BatchIngestResponse.

Record t : Type := mk {
  ingested_count : Z;
  documents : list DocumentIngestResponse.t
}.

End BatchIngestResponse.

Definition HTTP_400_BAD_REQUEST : Z := 400.

Definition HTTP_404_NOT_FOUND : Z := 404.

(** The detail of an [HTTPException] raised with [detail=error_message]:
    without a message the framework puts the phrase of the status. *)
Definition detail_of (error_message : option string) : string :=
  match error_message with
  | Some m => m
  | None => "Bad Request"
  end.

(** [f"{error_message}"] *)
Definition format_optional (error_message : option string) : string :=
  match error_message with
  | Some m => m
  | None => "None"
  end.

(** The [DocumentIngestResponse] built from an ingested document. *)
Definition ingest_response (doc : Document.t) : DocumentIngestResponse.t :=
  DocumentIngestResponse.mk (Document.id doc) (Document.title doc)
    (Document.source doc) (Datetime.isoformat (Document.created_at doc))
    "Document ingested successfully".

(** [doc.content[:200] + "..." if len(doc.content) > 200 else doc.content] *)
Definition content_preview (content : string) : string :=
  if (Z.of_nat (String.length content) >? 200)%Z
  then Str.take 200 content ++ "..."
  else content.

(** The [DocumentResponse] built from a stored document. *)
Definition document_response (doc : Document.t) : DocumentResponse.t :=
  DocumentResponse.mk (Document.id doc) (Document.title doc)
    (Document.source doc) (content_preview (Document.content doc))
    (Document.metadata doc) (Datetime.isoformat (Document.created_at doc)).

(** [POST /ingest] *)
Definition ingest_document (request : DocumentIngestRequest.t)
  (now : Datetime.t)
  : Py.m KnowledgeGraphIndex.t DocumentIngestResponse.t :=
  let '(is_valid, error_message) :=
    DocumentIngestor.validate_document
      (DocumentIngestRequest.content request)
      (DocumentIngestRequest.title request) in
  if negb is_valid then
    Py.raise (HTTPException HTTP_400_BAD_REQUEST (detail_of error_message))
  else
    doc <- DocumentIngestor.ingest_text
             (DocumentIngestRequest.content request)
             (DocumentIngestRequest.title request)
             (Some (DocumentIngestRequest.source request))
             (Some (DocumentIngestRequest.metadata request)) now ;;
    Py.ret (ingest_response doc).

(** The validation loop of [POST /ingest/batch]: [i] is the position of
    the request, counted from zero. *)
Definition validate_at (i : nat) (doc_request : DocumentIngestRequest.t)
  : Py.m KnowledgeGraphIndex.t unit :=
  let '(is_valid, error_message) :=
    DocumentIngestor.validate_document
      (DocumentIngestRequest.content doc_request)
      (DocumentIngestRequest.title doc_request) in
  if negb is_valid then
    Py.raise
      (HTTPException HTTP_400_BAD_REQUEST
         ("Document " ++ Str.of_nat (i + 1) ++ ": "
          ++ format_optional error_message))
  else Py.ret tt.

(** The dictionary built from one request of a batch. *)
Definition to_dict (d : DocumentIngestRequest.t) : DocumentIngestor.doc_data :=
  DocumentIngestor.mk_data
    (Some (DocumentIngestRequest.content d))
    (Some (DocumentIngestRequest.title d))
    (Some (DocumentIngestRequest.source d))
    (Some (DocumentIngestRequest.metadata d)).

(** [POST /ingest/batch] *)
Definition ingest_batch (documents : list DocumentIngestRequest.t)
  (clock : nat -> Datetime.t)
  : Py.m KnowledgeGraphIndex.t BatchIngestResponse.t :=
  if PyList.falsy documents then
    Py.raise (HTTPException HTTP_400_BAD_REQUEST "No documents provided")
  else
    Py.for_each (combine (seq 0 (List.length documents)) documents)
      (fun '(i, doc_request) => validate_at i doc_request) ;;;
    let docs_data := map to_dict documents in
    documents <- DocumentIngestor.ingest_batch docs_data clock ;;
    Py.ret (BatchIngestResponse.mk (Z.of_nat (List.length documents))
              (map ingest_response documents)).

(** [POST /query] *)
Definition query_documents (query : string) (top_k : Z)
  : Py.m KnowledgeGraphIndex.t QueryResponse.t :=
  results <- KnowledgeGraphIndex.query query top_k ;;
  Py.ret (QueryResponse.mk query (map document_response results)
            (Z.of_nat (List.length results))).

(** [POST /synthesize] *)
Definition synthesize (query : string) (now : Datetime.t)
  : Py.m KnowledgeGraphIndex.t SynthesizeResponse.t :=
  result <- QueryEngine.synthesize query None now ;;
  Py.ret (SynthesizeResponse.mk
            (SynthesisResult.query result)
            (SynthesisResult.response result)
            (map (fun doc =>
                    SourceReference.mk (Document.id doc) (Document.title doc)
                      (Document.source doc))
                 (SynthesisResult.sources result))
            (SynthesisResult.confidence result)
            (SynthesisResult.metadata result)).

(** [GET /documents] *)
Definition list_documents
  : Py.m KnowledgeGraphIndex.t (list DocumentResponse.t) :=
  documents <- KnowledgeGraphIndex.list_documents ;;
  Py.ret (map document_response documents).

(** [GET /documents/{doc_id}] *)
Definition get_document (doc_id : string)
  : Py.m KnowledgeGraphIndex.t DocumentResponse.t :=
  doc <- KnowledgeGraphIndex.get_document doc_id ;;
  match doc with
  | None =>
      Py.raise (HTTPException HTTP_404_NOT_FOUND
                  ("Document with ID '" ++ doc_id ++ "' not found"))
  | Some doc => Py.ret (document_response doc)
  end.

End Main.

(** ** Requests of a batch, as the specification sees them *)

Module Requests.

(** The item a request stands for: both optional fields are given. *)
Definition item_of (d : Main.DocumentIngestRequest.t) : Spec.item :=
  Spec.mk_item (Main.DocumentIngestRequest.content d)
    (Main.DocumentIngestRequest.title d)
    (Some (Main.DocumentIngestRequest.source d))
    (Some (Main.DocumentIngestRequest.metadata d)).

(** The validation failure of a request, if it has one. *)
Definition failure (d : Main.DocumentIngestRequest.t)
  : option Spec.validation_error :=
  Spec.validate (Main.DocumentIngestRequest.content d)
    (Main.DocumentIngestRequest.title d).

End Requests.

(** ** Stores a program can reach

    A store is reachable when a sequence of calls produces it from a fresh
    one. *)

Module Reach.

Definition reachable (idx : KnowledgeGraphIndex.t) : Prop :=
  exists calls : list Calls.call, idx = Calls.exec_all calls KnowledgeGraphIndex.init.

(** Every entry is filed under the id of its document. *)
Definition filed_by_id (d : Dict.t Document.t) : Prop :=
  Forall (fun kv => fst kv = Document.id (snd kv)) d.

(** What every call keeps: pairwise distinct keys, every document under
    its own id, and no document in a store whose flag is down. *)
Definition sound (idx : KnowledgeGraphIndex.t) : Prop :=
  Dict.wf (KnowledgeGraphIndex.documents idx) /\
  filed_by_id (KnowledgeGraphIndex.documents idx) /\
  (KnowledgeGraphIndex.indexed idx = false ->
   KnowledgeGraphIndex.documents idx = []).

(** The last document of [docs] that has the id [i]. *)
Fixpoint last_with_id (i : string) (docs : list Document.t)
  : option Document.t :=
  match docs with
  | [] => None
  | doc :: rest =>
      match last_with_id i rest with
      | Some later => Some later
      | None => if String.eqb (Document.id doc) i then Some doc else None
      end
  end.

(** The ids of [docs] that are not in [known], each once, in the order in
    which they first come. *)
Fixpoint new_ids (known : list string) (docs : list Document.t)
  : list string :=
  match docs with
  | [] => []
  | doc :: rest =>
      if in_dec string_dec (Document.id doc) known then new_ids known rest
      else Document.id doc :: new_ids (known ++ [Document.id doc]) rest
  end.

End Reach.

(** * Properties *)

(** ** Checks of the model against known values *)

(** The digests of RFC 1321's test suite, of a message that fills one
    block, of one that needs a second block for its padding, and of a
    content with a character above U+007F. *)
Example md5_empty :
  MD5.hexdigest "" = "d41d8cd98f00b204e9800998ecf8427e".
Proof. vm_compute. reflexivity. Qed.

Example md5_abc :
  MD5.hexdigest "abc" = "900150983cd24fb0d6963f7d28e17f72".
Proof. vm_compute. reflexivity. Qed.

Example md5_55_bytes_then_padding_block :
  MD5.hexdigest "aaaaaaaaaaaaaaaaaaaaaaaaaaaaaaaaaaaaaaaaaaaaaaaaaaaaaaaa"
  = "3b0c8ac703f828b04c6c197006d17218".
Proof. vm_compute. reflexivity. Qed.

Example md5_full_block :
  MD5.hexdigest
    "aaaaaaaaaaaaaaaaaaaaaaaaaaaaaaaaaaaaaaaaaaaaaaaaaaaaaaaaaaaaaaaa"
  = "014842d480b571495a4a0363793f7367".
Proof. vm_compute. reflexivity. Qed.

Example md5_two_byte_character :
  MD5.hexdigest ("caf" ++ String (ascii_of_nat 233) "")
  = "07117fe4a1ebd544965dc19573183da2".
Proof. vm_compute. reflexivity. Qed.

(** [test_query_ranking]: the document with most matching terms comes
    first. *)
Example ranking_of_the_test_suite :
  Py.result (KG.query "machine learning deep" KG.default_top_k)
    Examples.populated
  = Return [Examples.doc4; Examples.doc1; Examples.doc2].
Proof. reflexivity. Qed.

(** A negative bound counts from the end of the ranking, as slices do. *)
Example negative_bound_drops_from_the_end :
  Py.result (KG.query "machine learning deep" (-1)) Examples.populated
  = Return [Examples.doc4; Examples.doc1].
Proof. reflexivity. Qed.

(** [str.split] and [str.strip] on a text with runs of white space. *)
Example split_and_strip :
  Str.split "  a b  c " = ["a"; "b"; "c"] /\ Str.strip "  a b  c " = "a b  c".
Proof. split; reflexivity. Qed.

(** The confidence of one to six documents. *)
Example confidence_values :
  map QueryEngine.confidence_of [1; 2; 3; 4; 5; 6]
  = [0x1.3333333333333p-1; 0x1.6666666666666p-1; 0x1.999999999999ap-1;
     0x1.ccccccccccccdp-1; 0x1.e666666666666p-1;
     0x1.e666666666666p-1]%float.
Proof. reflexivity. Qed.

(** ** Strings: white space, splitting and stripping *)

Lemma isspace_lower_char c : Str.isspace (Str.lower_char c) = Str.isspace c.
Proof. destruct c as [[] [] [] [] [] [] [] []]; reflexivity. Qed.

Lemma all_space_lower s : Str.all_space (Str.lower s) = Str.all_space s.
Proof. induction s as [|c s IH]; simpl; [reflexivity|]. now rewrite isspace_lower_char, IH. Qed.

Lemma split_from_nil s : Str.all_space s = true -> Str.split_from "" s = [].
Proof.
  induction s as [|c s IH]; simpl; intro H; [reflexivity|].
  apply andb_true_iff in H as [Hc Hs]. rewrite Hc. auto.
Qed.

Lemma split_from_cons cur c s : Str.split_from (String c cur) s <> [].
Proof.
  revert c cur. induction s as [|d s IH]; intros c cur; simpl; [discriminate|].
  destruct (Str.isspace d); [discriminate|]. apply IH.
Qed.

Lemma split_nil_iff s : Str.split s = [] <-> Str.all_space s = true.
Proof.
  unfold Str.split. split; [|apply split_from_nil].
  induction s as [|c s IH]; simpl; [reflexivity|].
  destruct (Str.isspace c); simpl; [exact IH|].
  intro H. now apply split_from_cons in H.
Qed.

Lemma lstrip_all_space s : Str.all_space (Str.lstrip s) = Str.all_space s.
Proof.
  induction s as [|c s IH]; simpl; [reflexivity|].
  destruct (Str.isspace c) eqn:E; simpl; [exact IH|]. now rewrite E.
Qed.

Lemma rstrip_falsy s : Str.falsy (Str.rstrip s) = Str.all_space s.
Proof.
  induction s as [|c s IH]; simpl; [reflexivity|].
  destruct (Str.rstrip s) eqn:E; simpl in *.
  - rewrite <- IH, andb_true_r. now destruct (Str.isspace c).
  - rewrite <- IH. now rewrite andb_false_r.
Qed.

Lemma strip_falsy s : Str.falsy (Str.strip s) = Str.all_space s.
Proof. unfold Str.strip. now rewrite rstrip_falsy, lstrip_all_space. Qed.

Lemma falsy_all_space s : Str.falsy s || Str.all_space s = Str.all_space s.
Proof. now destruct s. Qed.

(** ** The stable descending sort *)

Section SortDesc.

Context {A : Type} (key : A -> Z).

Let ge (a b : A) : Prop := (key b <= key a)%Z.
Let has (s : Z) (a : A) : bool := (key a =? s)%Z.

Lemma insert_desc_perm x l : Permutation (x :: l) (PyList.insert_desc key x l).
Proof.
  induction l as [|y l IH]; simpl; [reflexivity|].
  destruct (key y <=? key x)%Z; [reflexivity|].
  rewrite perm_swap. now constructor.
Qed.

Lemma sort_desc_perm l : Permutation l (PyList.sort_desc key l).
Proof.
  induction l as [|x l IH]; simpl; [constructor|].
  rewrite <- insert_desc_perm. now constructor.
Qed.

Lemma insert_desc_sorted x l :
  StronglySorted ge l -> StronglySorted ge (PyList.insert_desc key x l).
Proof.
  induction 1 as [|y l Hs IH Hy]; simpl.
  - repeat constructor.
  - destruct (key y <=? key x)%Z eqn:E.
    + apply Z.leb_le in E. constructor; [now constructor|].
      constructor; [exact E|].
      eapply Forall_impl; [|exact Hy]. unfold ge. intros; lia.
    + apply Z.leb_gt in E. constructor; [exact IH|].
      eapply Permutation_Forall; [apply insert_desc_perm|].
      constructor; [unfold ge; lia | exact Hy].
Qed.

Lemma sort_desc_sorted l : StronglySorted ge (PyList.sort_desc key l).
Proof.
  induction l as [|x l IH]; simpl; [constructor|].
  now apply insert_desc_sorted.
Qed.

Lemma insert_desc_stable s x l :
  StronglySorted ge l ->
  filter (has s) (PyList.insert_desc key x l) = filter (has s) (x :: l).
Proof.
  induction 1 as [|y l Hs IH Hy]; [reflexivity|].
  simpl PyList.insert_desc.
  destruct (key y <=? key x)%Z eqn:E; [reflexivity|].
  apply Z.leb_gt in E.
  cbn [filter]. rewrite IH. cbn [filter]. unfold has.
  destruct (Z.eqb_spec (key y) s), (Z.eqb_spec (key x) s);
    try reflexivity; lia.
Qed.

Lemma sort_desc_stable s l :
  filter (has s) (PyList.sort_desc key l) = filter (has s) l.
Proof.
  induction l as [|x l IH]; [reflexivity|].
  simpl PyList.sort_desc. rewrite insert_desc_stable by apply sort_desc_sorted.
  simpl. now rewrite IH.
Qed.

(** A list in descending order is determined by its classes of equal key. *)
Lemma sorted_classes_unique l1 : forall l2,
  StronglySorted ge l1 -> StronglySorted ge l2 ->
  (forall s, filter (has s) l1 = filter (has s) l2) ->
  l1 = l2.
Proof.
  induction l1 as [|x l1 IH]; intros l2 H1 H2 Hc.
  - destruct l2 as [|y l2]; [reflexivity|].
    specialize (Hc (key y)). simpl in Hc. unfold has in Hc.
    rewrite Z.eqb_refl in Hc. discriminate.
  - destruct l2 as [|y l2].
    { specialize (Hc (key x)). simpl in Hc. unfold has in Hc.
      rewrite Z.eqb_refl in Hc. discriminate. }
    inversion H1 as [|? ? H1' Hx]; subst.
    inversion H2 as [|? ? H2' Hy]; subst.
    assert (Hk : key x = key y).
    { destruct (Z.eq_dec (key x) (key y)) as [|Hne]; [assumption|exfalso].
      assert (Hxin : In x l2).
      { pose proof (Hc (key x)) as E. simpl in E. unfold has in E.
        rewrite Z.eqb_refl in E.
        destruct (Z.eqb_spec (key y) (key x)); [lia|].
        assert (In x (filter (fun a => (key a =? key x)%Z) l2))
          by (rewrite <- E; now left).
        now apply filter_In in H. }
      assert (Hyin : In y l1).
      { pose proof (Hc (key y)) as E. simpl in E. unfold has in E.
        rewrite Z.eqb_refl in E.
        destruct (Z.eqb_spec (key x) (key y)); [lia|].
        assert (In y (filter (fun a => (key a =? key y)%Z) l1))
          by (rewrite E; now left).
        now apply filter_In in H. }
      rewrite Forall_forall in Hx, Hy.
      apply Hx in Hyin. apply Hy in Hxin. unfold ge in *. lia. }
    assert (x = y).
    { pose proof (Hc (key x)) as E. simpl in E. unfold has in E.
      rewrite <- Hk, Z.eqb_refl in E. now injection E. }
    subst y. f_equal. apply IH; try assumption.
    intro s. pose proof (Hc s) as E. simpl in E.
    destruct (has s x); [now injection E|exact E].
Qed.

Lemma sort_desc_unique candidates ranked :
  Permutation candidates ranked ->
  StronglySorted ge ranked ->
  (forall s, filter (has s) ranked = filter (has s) candidates) ->
  ranked = PyList.sort_desc key candidates.
Proof.
  intros _ Hs Hc. apply sorted_classes_unique; [assumption|apply sort_desc_sorted|].
  intro s. now rewrite Hc, sort_desc_stable.
Qed.

End SortDesc.

Section Decorate.

Context {A : Type} (f : A -> Z).

Let coherent (p : Z * A) : Prop := fst p = f (snd p).

Lemma insert_desc_decorated p r :
  coherent p -> Forall coherent r ->
  map snd (PyList.insert_desc fst p r) = PyList.insert_desc f (snd p) (map snd r).
Proof.
  intros Hp. induction 1 as [|q r Hq Hr IH]; [reflexivity|].
  simpl. unfold coherent in Hp, Hq. rewrite Hp, Hq.
  destruct (f (snd q) <=? f (snd p))%Z; simpl; [reflexivity|].
  now rewrite IH.
Qed.

Lemma sort_desc_decorated r :
  Forall coherent r ->
  map snd (PyList.sort_desc fst r) = PyList.sort_desc f (map snd r).
Proof.
  induction 1 as [|p r Hp Hr IH]; [reflexivity|].
  simpl. rewrite insert_desc_decorated, IH; [reflexivity|assumption|].
  eapply Permutation_Forall; [apply sort_desc_perm|assumption].
Qed.

End Decorate.

(** ** Substrings, scores and the evaluation of [query] *)

Local Open Scope string_scope.

Lemma prefix_app p s : prefix p s = true <-> exists post, s = p ++ post.
Proof.
  revert s. induction p as [|a p IH]; intros [|b s]; simpl.
  - split; [intros _; now exists "" | reflexivity].
  - split; [intros _; now exists (String b s) | reflexivity].
  - split; [discriminate | intros [post H]; discriminate].
  - destruct (ascii_dec a b) as [->|Hne].
    + rewrite IH. split; intros [post H]; exists post.
      * now rewrite H.
      * now injection H.
    + split; [discriminate | intros [post H]; injection H; congruence].
Qed.

Lemma contains_occurs sub s : Str.contains sub s = true <-> Spec.occurs sub s.
Proof.
  unfold Spec.occurs. induction s as [|c s IH]; cbn [Str.contains].
  - rewrite orb_false_r, prefix_app. split.
    + intros [post H]. now exists "", post.
    + intros [pre [post H]]. destruct pre; [now exists post|discriminate].
  - rewrite orb_true_iff, prefix_app, IH. split.
    + intros [[post H]|[pre [post H]]].
      * now exists "", post.
      * exists (String c pre), post. simpl. now rewrite H.
    + intros [pre [post H]]. destruct pre as [|d pre]; simpl in H.
      * left. now exists post.
      * right. injection H as _ H. now exists pre, post.
Qed.

Lemma score_of_fold terms doc acc :
  fold_left
    (fun score term =>
       if Str.contains term (Str.lower (Document.content doc)) then (score + 1)%Z else score)
    terms acc
  = (acc + Spec.term_score terms doc)%Z.
Proof.
  unfold Spec.term_score. revert acc.
  induction terms as [|t terms IH]; intro acc; simpl; [lia|].
  rewrite IH. unfold Spec.present at 2.
  destruct (Str.contains t _); simpl List.length; lia.
Qed.

Lemma score_of_term_score terms doc :
  KG.score_of terms doc = Spec.term_score terms doc.
Proof. unfold KG.score_of. now rewrite score_of_fold. Qed.

Lemma term_score_pos terms doc :
  (0 <? Spec.term_score terms doc)%Z = existsb (Spec.present doc) terms.
Proof.
  unfold Spec.term_score. induction terms as [|t terms IH]; [reflexivity|].
  simpl. destruct (Spec.present doc t); simpl; [|exact IH].
  apply Z.ltb_lt. lia.
Qed.

Lemma scored_fold terms docs acc :
  fold_left
    (fun scored_docs doc =>
       let score := KG.score_of terms doc in
       if (0 <? score)%Z then (scored_docs ++ [(score, doc)])%list else scored_docs)
    docs acc
  = (acc ++ map (fun d => (Spec.term_score terms d, d)) (Spec.matching terms docs))%list.
Proof.
  revert acc. induction docs as [|d docs IH]; intro acc; simpl.
  - now rewrite app_nil_r.
  - rewrite IH, score_of_term_score, term_score_pos.
    destruct (existsb (Spec.present d) terms); simpl; [|reflexivity].
    now rewrite <- app_assoc.
Qed.

Lemma scored_matching terms docs :
  KG.scored terms docs
  = map (fun d => (Spec.term_score terms d, d)) (Spec.matching terms docs).
Proof. unfold KG.scored. now rewrite scored_fold. Qed.

Lemma ranked_scored terms docs :
  map snd (PyList.sort_desc fst (KG.scored terms docs))
  = PyList.sort_desc (Spec.term_score terms) (Spec.matching terms docs).
Proof.
  rewrite scored_matching, (sort_desc_decorated (Spec.term_score terms)).
  - now rewrite map_map, map_id.
  - apply Forall_forall. intros p Hp. apply in_map_iff in Hp as [d [<- _]]. reflexivity.
Qed.

Lemma slice_to_nonneg {A} (k : Z) (l : list A) :
  (0 <= k)%Z -> PyList.slice_to k l = firstn (Z.to_nat k) l.
Proof. intro H. unfold PyList.slice_to. apply Z.leb_le in H. now rewrite H. Qed.

Lemma map_slice_to {A B} (f : A -> B) k l :
  map f (PyList.slice_to k l) = PyList.slice_to k (map f l).
Proof.
  unfold PyList.slice_to. rewrite length_map.
  destruct (0 <=? k)%Z; symmetry; apply firstn_map.
Qed.

Lemma query_run text k idx :
  KG.query text k idx =
  (Return (if KG.indexed idx then
             PyList.slice_to k
               (PyList.sort_desc (Spec.term_score (Spec.terms_of text))
                  (Spec.matching (Spec.terms_of text) (Dict.values (KG.documents idx))))
           else []), idx).
Proof.
  unfold KG.query, Py.bind, Py.get, Py.ret. 
  destruct (KG.indexed idx); simpl; [|reflexivity].
  now rewrite map_slice_to, ranked_scored.
Qed.

(** ** Dictionaries *)

Section DictFacts.

Context {V : Type}.
Implicit Types (d : Dict.t V) (k : string) (v : V).

Lemma dict_keys_set_in k v d :
  In k (Dict.keys d) -> Dict.keys (Dict.set k v d) = Dict.keys d.
Proof.
  induction d as [|[k' v'] d IH]; simpl; [contradiction|].
  destruct (String.eqb_spec k' k) as [->|Hne]; [reflexivity|].
  intros [H|H]; [congruence|]. simpl. now rewrite IH.
Qed.

Lemma dict_keys_set_new k v d :
  ~ In k (Dict.keys d) -> Dict.keys (Dict.set k v d) = (Dict.keys d ++ [k])%list.
Proof.
  induction d as [|[k' v'] d IH]; simpl; [reflexivity|].
  destruct (String.eqb_spec k' k) as [->|Hne]; [tauto|].
  intros H. simpl. rewrite IH; tauto.
Qed.

Lemma dict_wf_set k v d : Dict.wf d -> Dict.wf (Dict.set k v d).
Proof.
  unfold Dict.wf. intro H.
  destruct (in_dec string_dec k (Dict.keys d)) as [Hin|Hout].
  - now rewrite dict_keys_set_in.
  - rewrite dict_keys_set_new by assumption.
    apply NoDup_app; [assumption|repeat constructor; intros []|].
    intros x Hx [<-|[]]. contradiction.
Qed.

Lemma dict_get_set k v d : Dict.get k (Dict.set k v d) = Some v.
Proof.
  induction d as [|[k' v'] d IH]; simpl.
  - now rewrite String.eqb_refl.
  - destruct (String.eqb_spec k' k) as [->|Hne]; simpl.
    + now rewrite String.eqb_refl.
    + destruct (String.eqb_spec k' k); [contradiction|exact IH].
Qed.

Lemma dict_get_set_other k k' v d :
  k' <> k -> Dict.get k' (Dict.set k v d) = Dict.get k' d.
Proof.
  intro Hne. induction d as [|[k0 v0] d IH]; simpl.
  - destruct (String.eqb_spec k k'); [congruence|reflexivity].
  - destruct (String.eqb_spec k0 k) as [->|H0]; simpl.
    + destruct (String.eqb_spec k k'); [congruence|reflexivity].
    + now rewrite IH.
Qed.

Lemma dict_get_in k d : Dict.get k d <> None <-> In k (Dict.keys d).
Proof.
  induction d as [|[k' v'] d IH]; simpl; [tauto|].
  destruct (String.eqb_spec k' k) as [->|Hne].
  - split; [now left|discriminate].
  - rewrite IH. split; [now right|intros [H|H]; [contradiction|assumption]].
Qed.

Lemma entries_at_absent k d : ~ In k (Dict.keys d) -> Dict.entries_at k d = [].
Proof.
  induction d as [|[k' v'] d IH]; simpl; [reflexivity|].
  intro H. destruct (String.eqb_spec k' k); [tauto|]. apply IH. tauto.
Qed.

Lemma entries_at_set k v d :
  Dict.wf d -> Dict.entries_at k (Dict.set k v d) = [(k, v)].
Proof.
  unfold Dict.wf. induction d as [|[k' v'] d IH]; simpl; intro H.
  - now rewrite String.eqb_refl.
  - inversion H as [|? ? Hout Hd]; subst.
    destruct (String.eqb_spec k' k) as [->|Hne]; simpl.
    + rewrite String.eqb_refl. f_equal. now apply entries_at_absent.
    + destruct (String.eqb_spec k' k); [contradiction|]. now apply IH.
Qed.

Lemma dict_len_set_in k v d :
  In k (Dict.keys d) -> Dict.len (Dict.set k v d) = Dict.len d.
Proof.
  intro H. unfold Dict.len. f_equal.
  rewrite <- (length_map fst (Dict.set k v d)), <- (length_map fst d).
  change (map fst (Dict.set k v d)) with (Dict.keys (Dict.set k v d)).
  now rewrite dict_keys_set_in.
Qed.

Lemma dict_wf_remove k d : Dict.wf d -> Dict.wf (Dict.remove k d).
Proof.
  unfold Dict.wf. induction d as [|[k' v'] d IH]; simpl; intro H; [constructor|].
  inversion H as [|? ? Hout Hd]; subst.
  destruct (String.eqb k' k); [assumption|]. simpl. constructor; [|now apply IH].
  intro Hin. apply Hout. clear -Hin.
  induction d as [|[k0 v0] d IH]; simpl in *; [contradiction|].
  destruct (String.eqb k0 k); [now right|].
  destruct Hin as [H|H]; [now left|right; now apply IH].
Qed.

End DictFacts.

(** ** What each call returns and leaves behind *)

Ltac py_unfold :=
  unfold Py.run, Py.result, Py.after, Py.bind, Py.get, Py.put, Py.ret,
    Py.raise, KG.set_documents, KG.set_indexed in *.

Lemma add_loop_run docs idx :
  Py.for_each docs
    (fun doc =>
       Py.bind Py.get (fun self =>
         KG.set_documents
           (Dict.set (Document.id doc) doc (KG.documents self)))) idx
  = (Return tt, KG.mk (Spec.store_all docs (KG.documents idx)) (KG.indexed idx)).
Proof.
  revert idx. induction docs as [|doc docs IH]; intros [d b]; simpl.
  - reflexivity.
  - py_unfold. simpl. now rewrite IH.
Qed.

Lemma add_documents_run docs idx :
  Py.run (KG.add_documents docs) idx
  = (Return tt, KG.mk (Spec.store_all docs (KG.documents idx)) true).
Proof.
  unfold KG.add_documents, Py.run. unfold Py.bind at 1.
  rewrite add_loop_run. reflexivity.
Qed.

Lemma clear_run idx : Py.run KG.clear idx = (Return tt, KG.init).
Proof. reflexivity. Qed.

Lemma get_document_run doc_id idx :
  Py.run (KG.get_document doc_id) idx
  = (Return (Dict.get doc_id (KG.documents idx)), idx).
Proof. reflexivity. Qed.

Lemma list_documents_run idx :
  Py.run KG.list_documents idx = (Return (Dict.values (KG.documents idx)), idx).
Proof. reflexivity. Qed.

Lemma document_count_run idx :
  Py.run KG.document_count idx = (Return (Dict.len (KG.documents idx)), idx).
Proof. reflexivity. Qed.

(** The context documents [synthesize] works from. *)
Lemma synthesize_state query ctx now idx :
  Py.after (QueryEngine.synthesize query ctx now) idx = idx.
Proof.
  unfold Py.after, QueryEngine.synthesize. unfold Py.bind at 1.
  destruct ctx as [docs|].
  - unfold Py.ret at 1. now destruct (PyList.falsy docs).
  - rewrite query_run. now destruct (PyList.falsy _).
Qed.

Lemma ingest_text_run content title source metadata now idx :
  let doc :=
    Document.new "" content title (DocumentIngestor.get_default source "manual")
      (DocumentIngestor.or_empty metadata) now in
  Py.run (DocumentIngestor.ingest_text content title source metadata now) idx
  = (Return doc, KG.mk (Dict.set (Document.id doc) doc (KG.documents idx)) true).
Proof.
  intro doc. unfold DocumentIngestor.ingest_text, Py.run. unfold Py.bind at 1.
  fold doc. pose proof (add_documents_run [doc] idx) as H. unfold Py.run in H.
  rewrite H. reflexivity.
Qed.

Lemma build_one_complete clock acc it idx :
  DocumentIngestor.build_one clock acc (Spec.to_data it) idx
  = (Return (acc ++ [Spec.document_of (clock (List.length acc)) it])%list, idx).
Proof. reflexivity. Qed.

Lemma build_all_complete clock items : forall acc idx,
  Py.fold_each (map Spec.to_data items) acc (DocumentIngestor.build_one clock) idx
  = (Return (acc ++ Spec.documents_of clock (List.length acc) items)%list, idx).
Proof.
  induction items as [|it items IH]; intros acc idx; cbn [map Py.fold_each].
  - unfold Py.ret. cbn [Spec.documents_of]. now rewrite app_nil_r.
  - unfold Py.bind. rewrite build_one_complete, IH.
    rewrite length_app, Nat.add_1_r, <- app_assoc. reflexivity.
Qed.

Lemma build_one_state clock acc d idx :
  snd (DocumentIngestor.build_one clock acc d idx) = idx.
Proof. now destruct d as [[c|] [t|] s m]. Qed.

Lemma build_all_state clock data : forall acc idx,
  snd (Py.fold_each data acc (DocumentIngestor.build_one clock) idx) = idx.
Proof.
  induction data as [|d data IH]; intros acc idx; cbn [Py.fold_each];
    [reflexivity|].
  unfold Py.bind. pose proof (build_one_state clock acc d idx) as H.
  destruct (DocumentIngestor.build_one clock acc d idx) as [[a|e] st];
    simpl in H; subst st; [apply IH|reflexivity].
Qed.

Lemma build_all_incomplete clock data : forall acc idx,
  forallb Spec.complete data = false ->
  exists key,
    Py.fold_each data acc (DocumentIngestor.build_one clock) idx
    = (Raise (KeyError key), idx).
Proof.
  induction data as [|d data IH]; intros acc idx H; cbn [Py.fold_each forallb] in *;
    [discriminate|].
  unfold Py.bind.
  destruct d as [[c|] [t|] s m]; cbn in H |- *.
  - apply IH, H.
  - now exists "title".
  - now exists "content".
  - now exists "content".
Qed.

Lemma delete_document_run doc_id idx :
  Py.run (Api.delete_document doc_id) idx
  = match Dict.get doc_id (KG.documents idx) with
    | Some _ =>
        (Return tt, KG.mk (Dict.remove doc_id (KG.documents idx)) (KG.indexed idx))
    | None =>
        (Raise (HTTPException 404 ("Document with ID '" ++ doc_id ++ "' not found")),
         idx)
    end.
Proof.
  unfold Api.delete_document, Py.run. unfold Py.bind at 1. 
  pose proof (get_document_run doc_id idx) as H. unfold Py.run in H. rewrite H.
  now destruct (Dict.get doc_id (KG.documents idx)).
Qed.

(** ** Ranking (C1) *)

(** C1, amended.  On a store whose [indexed] flag is true and for a bound
    [top_k >= 0], [query] returns the first [top_k] documents of the ranking
    of the stored documents whose lower-cased content contains at least one
    term of the lower-cased, white-space-split query text.  The ranking is
    by score, highest first, documents of equal score in the order of the
    store's enumeration; the score of a document is one point for every
    entry of the term list that occurs in its content, whatever the number
    of occurrences there, a term written twice in the query counting twice.
    There is exactly one such ranking; every document in it is stored, has
    a positive score and contains a term.  The call leaves the store as it
    was. *)
Theorem query_ranks_matching_documents :
  forall (idx : KG.t) (text : string) (top_k : Z),
    KG.indexed idx = true -> (0 <= top_k)%Z ->
    let terms := Spec.terms_of text in
    let stored := Dict.values (KG.documents idx) in
    let candidates := Spec.matching terms stored in
    (exists ranked, Spec.is_ranking (Spec.term_score terms) candidates ranked) /\
    (forall ranked,
       Spec.is_ranking (Spec.term_score terms) candidates ranked ->
       Py.run (KG.query text top_k) idx
       = (Return (firstn (Z.to_nat top_k) ranked), idx) /\
       Forall
         (fun d =>
            In d stored /\ (0 < Spec.term_score terms d)%Z /\
            exists term, In term terms /\
              Spec.occurs term (Str.lower (Document.content d)))
         ranked).
Proof.
  intros idx text top_k Hidx Hk terms stored candidates. split.
  - exists (PyList.sort_desc (Spec.term_score terms) candidates).
    split; [apply sort_desc_perm|]. split; [apply sort_desc_sorted|].
    intro s. apply sort_desc_stable.
  - intros ranked [Hperm [Hsorted Hstable]]. split.
    + rewrite (sort_desc_unique _ _ _ Hperm Hsorted Hstable).
      unfold Py.run. rewrite query_run, Hidx, slice_to_nonneg by assumption.
      reflexivity.
    + eapply Permutation_Forall; [exact Hperm|].
      apply Forall_forall. intros d Hd.
      apply filter_In in Hd as [Hin Hex].
      split; [exact Hin|]. split.
      * apply Z.ltb_lt. now rewrite term_score_pos.
      * apply existsb_exists in Hex as [term [Ht Hp]].
        exists term. split; [exact Ht|]. now apply contains_occurs.
Qed.

(** The theorem on the populated index, for [top_k = 2]. *)
Lemma query_ranks_matching_documents_witness :
  KG.indexed Examples.populated = true /\ (0 <= 2)%Z /\
  Py.run (KG.query "machine learning deep" 2) Examples.populated
  = (Return [Examples.doc4; Examples.doc1], Examples.populated).
Proof.
  split; [reflexivity|]. split; [lia|].
  destruct (query_ranks_matching_documents Examples.populated
              "machine learning deep" 2 eq_refl ltac:(lia)) as [_ H].
  apply (H [Examples.doc4; Examples.doc1; Examples.doc2]).
  split; [|split].
  - vm_compute Spec.matching.
    apply perm_trans with [Examples.doc1; Examples.doc4; Examples.doc2].
    + apply perm_skip, perm_swap.
    + apply perm_swap.
  - repeat constructor; vm_compute; discriminate.
  - intro s. vm_compute.
    destruct s as [|p|p]; try reflexivity.
    destruct p as [[p|p|]|[p|p|]|]; try reflexivity.
Defined.

(** C1 as stated fails.  The store lists [dog] before [cat]; for the query
    [cat cat dog] each of the two documents contains one distinct term, so
    scoring by distinct terms ties them and keeps [dog] first, while the
    code counts [cat] twice and returns [cat] first. *)
Lemma distinct_scoring_differs :
  Py.result KG.list_documents Examples.pets
  = Return [Examples.dog; Examples.cat] /\
  Spec.terms_of "cat cat dog" = ["cat"; "cat"; "dog"] /\
  Spec.distinct_score ["cat"; "cat"; "dog"] Examples.cat = 1%Z /\
  Spec.distinct_score ["cat"; "cat"; "dog"] Examples.dog = 1%Z /\
  Spec.query_distinct Examples.pets "cat cat dog" 5
  = [Examples.dog; Examples.cat] /\
  Py.result (KG.query "cat cat dog" 5) Examples.pets
  = Return [Examples.cat; Examples.dog].
Proof. repeat split. Qed.

(** ** The store across calls *)

Lemma store_all_wf docs d : Dict.wf d -> Dict.wf (Spec.store_all docs d).
Proof.
  revert d. induction docs as [|doc docs IH]; intros d H; simpl; [exact H|].
  apply IH. now apply dict_wf_set.
Qed.

Lemma ingest_batch_run data clock idx :
  Py.run (DocumentIngestor.ingest_batch data clock) idx
  = match Py.fold_each data [] (DocumentIngestor.build_one clock) idx with
    | (Return docs, _) =>
        (Return docs, KG.mk (Spec.store_all docs (KG.documents idx)) true)
    | (Raise e, _) => (Raise e, idx)
    end.
Proof.
  unfold Py.run, DocumentIngestor.ingest_batch, Py.bind.
  pose proof (build_all_state clock data [] idx) as H.
  destruct (Py.fold_each data [] (DocumentIngestor.build_one clock) idx)
    as [[docs|e] st]; simpl in H; subst st; [|reflexivity].
  pose proof (add_documents_run docs idx) as H. unfold Py.run in H.
  now rewrite H.
Qed.

Lemma add_documents_after docs idx :
  Py.after (KG.add_documents docs) idx
  = KG.mk (Spec.store_all docs (KG.documents idx)) true.
Proof.
  unfold Py.after. pose proof (add_documents_run docs idx) as H.
  unfold Py.run in H. now rewrite H.
Qed.

Lemma exec_indexed c idx :
  Calls.is_clear c = false -> KG.indexed idx = true ->
  KG.indexed (Calls.exec c idx) = true.
Proof.
  intros Hc Hidx. destruct c; try discriminate; cbn [Calls.exec].
  - now rewrite add_documents_after.
  - unfold Py.after. now rewrite query_run.
  - exact Hidx.
  - exact Hidx.
  - exact Hidx.
  - now rewrite synthesize_state.
  - unfold Py.after.
    pose proof (ingest_text_run content title source metadata now idx) as H.
    unfold Py.run in H. cbv zeta in H. now rewrite H.
  - unfold Py.after.
    pose proof (ingest_batch_run documents_data clock idx) as H.
    unfold Py.run in H. rewrite H.
    now destruct (Py.fold_each _ _ _ _) as [[docs|e] st].
  - unfold Py.after. pose proof (delete_document_run doc_id idx) as H.
    unfold Py.run in H. rewrite H.
    now destruct (Dict.get doc_id (KG.documents idx)).
Qed.

Lemma exec_all_indexed calls : forall idx,
  forallb (fun c => negb (Calls.is_clear c)) calls = true ->
  KG.indexed idx = true ->
  KG.indexed (Calls.exec_all calls idx) = true.
Proof.
  unfold Calls.exec_all.
  induction calls as [|c calls IH]; intros idx Hc Hidx; simpl in *; [exact Hidx|].
  apply andb_true_iff in Hc as [H1 H2]. apply negb_true_iff in H1.
  apply IH; [exact H2|]. now apply exec_indexed.
Qed.

(** ** The guard of [query] (C2) *)

(** C2.  On a store whose [indexed] flag is false, [query] returns the empty
    list whatever the query text, and leaves the store alone.  After
    [add_documents], also of an empty list of documents, the flag is true;
    it stays true under every sequence of calls that has no [clear] in it;
    [clear] sets it back to false, as it is on a fresh store. *)
Theorem query_guard :
  (forall (idx : KG.t) (text : string) (top_k : Z),
     KG.indexed idx = false ->
     Py.run (KG.query text top_k) idx = (Return [], idx)) /\
  (forall (idx : KG.t) (docs : list Document.t),
     KG.indexed (Py.after (KG.add_documents docs) idx) = true) /\
  KG.indexed (Py.after (KG.add_documents []) KG.init) = true /\
  (forall (idx : KG.t) (calls : list Calls.call),
     KG.indexed idx = true ->
     forallb (fun c => negb (Calls.is_clear c)) calls = true ->
     KG.indexed (Calls.exec_all calls idx) = true) /\
  (forall idx : KG.t, KG.indexed (Py.after KG.clear idx) = false) /\
  KG.indexed KG.init = false.
Proof.
  split; [|split; [|split; [|split; [|split]]]].
  - intros idx text top_k H. unfold Py.run. now rewrite query_run, H.
  - intros idx docs. now rewrite add_documents_after.
  - reflexivity.
  - intros idx calls Hidx Hc. now apply exec_all_indexed.
  - reflexivity.
  - reflexivity.
Qed.

(** The guard on a fresh store, and the flag after three calls. *)
Lemma query_guard_witness :
  KG.indexed KG.init = false /\
  Py.run (KG.query "machine learning" 5) KG.init = (Return [], KG.init) /\
  KG.indexed
    (Calls.exec_all
       [Calls.Query "deep" 3; Calls.DeleteDocument "doc2"; Calls.ListDocuments]
       Examples.populated) = true.
Proof.
  split; [reflexivity|]. split.
  - exact (proj1 query_guard KG.init "machine learning" 5%Z eq_refl).
  - exact (proj1 (proj2 (proj2 (proj2 query_guard))) Examples.populated
             [Calls.Query "deep" 3; Calls.DeleteDocument "doc2";
              Calls.ListDocuments]
             eq_refl eq_refl).
Defined.

(** ** Read calls (C10) *)

(** C10.  [query], [get_document], [list_documents] and [document_count]
    leave the store as they found it: the documents map and the [indexed]
    flag after the call are those before it, for every store and every
    argument. *)
Theorem reads_leave_store_unchanged :
  forall (idx : KG.t) (text : string) (top_k : Z) (doc_id : string),
    Py.after (KG.query text top_k) idx = idx /\
    Py.after (KG.get_document doc_id) idx = idx /\
    Py.after KG.list_documents idx = idx /\
    Py.after KG.document_count idx = idx.
Proof.
  intros idx text top_k doc_id. repeat split.
  unfold Py.after. now rewrite query_run.
Qed.

(** ** Totality of [query] (C8) *)

Lemma slice_to_nil {A} k : PyList.slice_to k (@nil A) = [].
Proof. unfold PyList.slice_to. destruct (0 <=? k)%Z; apply firstn_nil. Qed.

(** C8.  [query] returns a list for every store, text and bound, and never
    raises; on a store with no documents, and for a text that splits into
    no term, the list is empty.  A text splits into no term exactly when it
    is empty or white space only. *)
Theorem query_never_raises :
  (forall (idx : KG.t) (text : string) (top_k : Z),
     exists docs, Py.run (KG.query text top_k) idx = (Return docs, idx)) /\
  (forall (idx : KG.t) (text : string) (top_k : Z),
     KG.documents idx = [] ->
     Py.result (KG.query text top_k) idx = Return []) /\
  (forall (idx : KG.t) (text : string) (top_k : Z),
     Spec.terms_of text = [] ->
     Py.result (KG.query text top_k) idx = Return []) /\
  (forall text : string, Spec.terms_of text = [] <-> Spec.blank text = true).
Proof.
  split; [|split; [|split]].
  - intros idx text top_k. unfold Py.run. rewrite query_run. eauto.
  - intros idx text top_k H. unfold Py.result. rewrite query_run, H. simpl.
    rewrite slice_to_nil. now destruct (KG.indexed idx).
  - intros idx text top_k H. unfold Py.result. rewrite query_run, H. simpl.
    assert (E : Spec.matching [] (Dict.values (KG.documents idx)) = []).
    { unfold Spec.matching. induction (Dict.values (KG.documents idx)); auto. }
    rewrite E. simpl. rewrite slice_to_nil. now destruct (KG.indexed idx).
  - intro text. unfold Spec.terms_of, Spec.blank.
    now rewrite split_nil_iff, all_space_lower.
Qed.

(** A fresh store, and a query of white space only. *)
Lemma query_never_raises_witness :
  KG.documents KG.init = [] /\
  Py.result (KG.query "quantum physics" 5) KG.init = Return [] /\
  Spec.terms_of "   " = [] /\
  Py.result (KG.query "   " 5) Examples.populated = Return [].
Proof.
  split; [reflexivity|]. split; [|split; [reflexivity|]].
  - exact (proj1 (proj2 query_never_raises) KG.init "quantum physics" 5%Z eq_refl).
  - exact (proj1 (proj2 (proj2 query_never_raises)) Examples.populated "   "
             5%Z eq_refl).
Defined.

(** ** Validation (C6) *)

(** C6.  [validate_document] fails with the empty-content message when the
    content is empty or white space only; else with the empty-title message
    when the title is empty or white space only; else with the size message
    when the content is longer than 10,000,000 characters; else it succeeds
    with no message.  The checks come in that order, so a white-space-only
    content gets the empty-content message whatever its length. *)
Theorem validate_document_checks_in_order :
  forall content title : string,
    DocumentIngestor.validate_document content title
    = match Spec.validate content title with
      | Some e => (false, Some (Spec.message e))
      | None => (true, None)
      end.
Proof.
  intros content title.
  unfold DocumentIngestor.validate_document, Spec.validate, Spec.blank,
    DocumentIngestor.max_size.
  rewrite !strip_falsy, !falsy_all_space, Z.gtb_ltb.
  destruct (Str.all_space content); [reflexivity|].
  destruct (Str.all_space title); [reflexivity|].
  now destruct (10000000 <? _)%Z.
Qed.

(** ** Synthesis (C5, C7) *)

Lemma take_substring n s : Str.take n s = substring 0 n s.
Proof.
  revert s. induction n as [|n IH]; intros [|c s]; simpl; try reflexivity.
  now rewrite IH.
Qed.

Lemma substring_all n s : String.length s <= n -> substring 0 n s = s.
Proof.
  revert s. induction n as [|n IH]; intros [|c s]; simpl; intro H;
    try reflexivity; [lia|].
  rewrite IH; [reflexivity|lia].
Qed.

Lemma substring_length n s :
  String.length (substring 0 n s) = Nat.min n (String.length s).
Proof.
  revert s. induction n as [|n IH]; intros [|c s]; simpl; try reflexivity.
  now rewrite IH.
Qed.

Lemma substring_prefix n s : prefix (substring 0 n s) s = true.
Proof.
  revert s. induction n as [|n IH]; intros [|c s]; simpl; try reflexivity.
  destruct (ascii_dec c c); [apply IH|contradiction].
Qed.

Lemma excerpt_spec doc : QueryEngine.excerpt doc = Spec.excerpt doc.
Proof. unfold QueryEngine.excerpt, Spec.excerpt. now rewrite take_substring. Qed.

Lemma excerpts_fold docs : forall acc,
  fold_left (fun acc doc => (acc ++ [QueryEngine.excerpt doc])%list) docs acc
  = (acc ++ map Spec.excerpt docs)%list.
Proof.
  induction docs as [|d docs IH]; intro acc; simpl.
  - now rewrite app_nil_r.
  - now rewrite IH, <- app_assoc, excerpt_spec.
Qed.

Lemma numbering_fold pieces : forall i parts,
  fold_left
    (fun '(i, parts) content =>
       (S i, (parts ++ [(Str.of_nat i ++ ". " ++ content)%string])%list))
    pieces (i, parts)
  = (i + List.length pieces, (parts ++ Spec.numbered i pieces)%list).
Proof.
  induction pieces as [|p pieces IH]; intros i parts; simpl.
  - now rewrite app_nil_r, Nat.add_0_r.
  - rewrite IH, <- app_assoc. simpl. f_equal. lia.
Qed.

Lemma generate_response_spec query docs :
  docs <> [] ->
  QueryEngine.generate_response query (map Spec.excerpt docs)
  = Spec.response_text query docs.
Proof.
  intro H. unfold QueryEngine.generate_response, Spec.response_text.
  destruct docs as [|d docs]; [contradiction|].
  cbn [map PyList.falsy]. rewrite numbering_fold. reflexivity.
Qed.

Lemma synthesize_run query ctx now idx docs :
  Spec.context_is idx query ctx docs ->
  Py.run (QueryEngine.synthesize query ctx now) idx
  = (Return
       (match docs with
        | [] => Spec.no_results query
        | _ =>
            SynthesisResult.mk query (Spec.response_text query docs) docs
              (QueryEngine.confidence_of (List.length docs))
              [ ("status", VStr "success");
                ("document_count", VInt (Z.of_nat (List.length docs)));
                ("timestamp", VStr (Datetime.isoformat now)) ]
        end), idx).
Proof.
  intro H. unfold Py.run, QueryEngine.synthesize, Py.bind.
  assert (E : match ctx with
              | Some given => Py.ret given
              | None => KG.query query KG.default_top_k
              end idx = (Return docs, idx)).
  { destruct ctx as [given|]; simpl in H.
    - now subst.
    - unfold Py.result in H. rewrite query_run in H |- *. simpl in H.
      now injection H as ->. }
  rewrite E. destruct docs as [|d docs]; [reflexivity|].
  cbn [PyList.falsy]. unfold Py.ret. rewrite excerpts_fold. cbn [app].
  now rewrite generate_response_spec.
Qed.

Lemma context_exists idx query ctx : exists docs, Spec.context_is idx query ctx docs.
Proof.
  destruct ctx as [given|]; simpl; [now exists given|].
  unfold Py.result. rewrite query_run. simpl. eauto.
Qed.

(** C5.  When the context documents of a [synthesize] call are empty (an
    empty list passed in, or none passed and an empty query result), the
    call returns, without raising and without touching the store, the
    result whose response is the fixed sentence, whose sources are empty,
    whose confidence is [0.0] and whose metadata is the one entry
    [status = no_results].  No [synthesize] call raises. *)
Theorem synthesize_without_context_documents :
  (forall (idx : KG.t) (query : string) (ctx : option (list Document.t))
          (now : Datetime.t),
     Spec.context_is idx query ctx [] ->
     Py.run (QueryEngine.synthesize query ctx now) idx
     = (Return
          (SynthesisResult.mk query
             "No relevant documents found for this query." [] 0%float
             [("status", VStr "no_results")]),
        idx)) /\
  (forall (idx : KG.t) (query : string) (ctx : option (list Document.t))
          (now : Datetime.t),
     exists result,
       Py.run (QueryEngine.synthesize query ctx now) idx = (Return result, idx)).
Proof.
  split.
  - intros idx query ctx now H. now rewrite (synthesize_run _ _ _ _ _ H).
  - intros idx query ctx now. destruct (context_exists idx query ctx) as [docs H].
    rewrite (synthesize_run _ _ _ _ _ H). eauto.
Qed.

(** A query that matches nothing in the populated index. *)
Lemma synthesize_without_context_documents_witness :
  Spec.context_is Examples.populated "quantum physics" None [] /\
  Py.result
    (QueryEngine.synthesize "quantum physics" None Examples.epoch)
    Examples.populated
  = Return
      (SynthesisResult.mk "quantum physics"
         "No relevant documents found for this query." [] 0%float
         [("status", VStr "no_results")]).
Proof.
  split; [reflexivity|].
  pose proof (proj1 synthesize_without_context_documents Examples.populated
                "quantum physics" None Examples.epoch eq_refl) as H.
  unfold Py.run in H. unfold Py.result. now rewrite H.
Defined.

(** C7.  When the context documents [docs] of a [synthesize] call are not
    empty, the sources of the result are [docs], in their order, and the
    response carries one numbered excerpt per document, in the same order,
    between the three opening lines and the two closing lines.  The excerpt
    of a document is [From '], its title, [': ], the first 200 characters
    of its content and [...]; the ellipsis is there also when the content
    has 200 characters or fewer, and then follows the whole content. *)
Theorem synthesize_excerpts_and_sources :
  forall (idx : KG.t) (query : string) (ctx : option (list Document.t))
         (now : Datetime.t) (docs : list Document.t),
    Spec.context_is idx query ctx docs -> docs <> [] ->
    (exists result,
       Py.run (QueryEngine.synthesize query ctx now) idx = (Return result, idx) /\
       SynthesisResult.sources result = docs /\
       SynthesisResult.response result
       = Str.join QueryEngine.newline
           ([ ("Based on the research documents, here's the synthesis for: '"
                ++ query ++ "'")%string;
              "";
              "Key findings:" ]
            ++ Spec.numbered 1 (map Spec.excerpt docs)
            ++ [ ""; "This synthesis combines insights from multiple sources." ])%list) /\
    List.length (map Spec.excerpt docs) = List.length docs /\
    (forall doc : Document.t,
       Spec.excerpt doc
       = "From '" ++ Document.title doc ++ "': "
         ++ substring 0 200 (Document.content doc) ++ "...") /\
    (forall doc : Document.t,
       String.length (substring 0 200 (Document.content doc))
       = Nat.min 200 (String.length (Document.content doc)) /\
       prefix (substring 0 200 (Document.content doc)) (Document.content doc)
       = true) /\
    (forall doc : Document.t,
       String.length (Document.content doc) <= 200 ->
       Spec.excerpt doc
       = "From '" ++ Document.title doc ++ "': "
         ++ Document.content doc ++ "...").
Proof.
  intros idx query ctx now docs Hctx Hne. split; [|split; [|split; [|split]]].
  - rewrite (synthesize_run _ _ _ _ _ Hctx).
    destruct docs as [|d docs]; [contradiction|]. eexists. split; [reflexivity|].
    split; reflexivity.
  - apply length_map.
  - reflexivity.
  - intro doc. split; [apply substring_length|apply substring_prefix].
  - intros doc H. unfold Spec.excerpt. now rewrite substring_all.
Qed.

(** One context document passed in, with a content under 200 characters. *)
Lemma synthesize_excerpts_and_sources_witness :
  Spec.context_is Examples.populated "anything" (Some [Examples.doc3])
    [Examples.doc3] /\
  [Examples.doc3] <> [] /\
  exists result,
    Py.run
      (QueryEngine.synthesize "anything" (Some [Examples.doc3]) Examples.epoch)
      Examples.populated
    = (Return result, Examples.populated) /\
    SynthesisResult.sources result = [Examples.doc3] /\
    SynthesisResult.response result
    = Str.join QueryEngine.newline
        [ "Based on the research documents, here's the synthesis for: 'anything'";
          "";
          "Key findings:";
          "1. From 'Neural Nets': Neural networks are powerful...";
          "";
          "This synthesis combines insights from multiple sources." ].
Proof.
  split; [reflexivity|]. split; [discriminate|].
  exact (proj1 (synthesize_excerpts_and_sources Examples.populated "anything"
                  (Some [Examples.doc3]) Examples.epoch [Examples.doc3]
                  eq_refl ltac:(discriminate))).
Defined.

(** ** Content-derived ids (C3) *)

Lemma new_id_of_content content title source metadata now :
  Document.id (Document.new "" content title source metadata now)
  = MD5.hexdigest content.
Proof. reflexivity. Qed.

Lemma exec_wf c idx :
  Dict.wf (KG.documents idx) -> Dict.wf (KG.documents (Calls.exec c idx)).
Proof.
  intro H. destruct c; cbn [Calls.exec]; try exact H.
  - rewrite add_documents_after. now apply store_all_wf.
  - unfold Py.after. now rewrite query_run.
  - constructor.
  - now rewrite synthesize_state.
  - unfold Py.after.
    pose proof (ingest_text_run content title source metadata now idx) as E.
    unfold Py.run in E. cbv zeta in E. rewrite E. now apply dict_wf_set.
  - unfold Py.after.
    pose proof (ingest_batch_run documents_data clock idx) as E.
    unfold Py.run in E. rewrite E.
    destruct (Py.fold_each _ _ _ _) as [[docs|e] st]; [|exact H].
    now apply store_all_wf.
  - unfold Py.after. pose proof (delete_document_run doc_id idx) as E.
    unfold Py.run in E. rewrite E.
    destruct (Dict.get doc_id (KG.documents idx)); [|exact H].
    now apply dict_wf_remove.
Qed.

(** Every store reached from a fresh one has pairwise distinct keys. *)
Lemma reachable_wf calls : forall idx,
  Dict.wf (KG.documents idx) ->
  Dict.wf (KG.documents (Calls.exec_all calls idx)).
Proof.
  unfold Calls.exec_all. induction calls as [|c calls IH]; intros idx H; simpl;
    [exact H|].
  apply IH. now apply exec_wf.
Qed.

(** C3.  A document built with an empty id gets the digest of its content
    as id: two such documents of the same content have the same id,
    whatever their titles, sources, metadata and creation times.  So two
    [ingest_text] calls with the same content, one after the other, leave
    one entry under that id, holding the document of the second call with
    its title, and the second call adds no entry to the store; on a fresh
    store the store then holds that one entry and nothing else. *)
Theorem ids_derive_from_content :
  (forall (content t1 s1 : string) (m1 : Dict.t pyval) (n1 : Datetime.t)
          (t2 s2 : string) (m2 : Dict.t pyval) (n2 : Datetime.t),
     Document.id (Document.new "" content t1 s1 m1 n1)
     = Document.id (Document.new "" content t2 s2 m2 n2)) /\
  (forall (idx : KG.t) (content t1 t2 : string) (s1 s2 : option string)
          (m1 m2 : option (Dict.t pyval)) (n1 n2 : Datetime.t),
     Dict.wf (KG.documents idx) ->
     let first := DocumentIngestor.ingest_text content t1 s1 m1 n1 in
     let second := DocumentIngestor.ingest_text content t2 s2 m2 n2 in
     let idx1 := Py.after first idx in
     let idx2 := Py.after second idx1 in
     exists doc1 doc2 : Document.t,
       Py.result first idx = Return doc1 /\
       Py.result second idx1 = Return doc2 /\
       Document.title doc1 = t1 /\ Document.title doc2 = t2 /\
       Document.id doc1 = Document.id doc2 /\
       Dict.entries_at (Document.id doc2) (KG.documents idx2)
       = [(Document.id doc2, doc2)] /\
       Dict.get (Document.id doc2) (KG.documents idx2) = Some doc2 /\
       Dict.len (KG.documents idx2) = Dict.len (KG.documents idx1)) /\
  (forall (content t1 t2 : string) (s1 s2 : option string)
          (m1 m2 : option (Dict.t pyval)) (n1 n2 : Datetime.t),
     exists doc2 : Document.t,
       Document.title doc2 = t2 /\
       KG.documents
         (Py.after (DocumentIngestor.ingest_text content t2 s2 m2 n2)
            (Py.after (DocumentIngestor.ingest_text content t1 s1 m1 n1)
               KG.init))
       = [(MD5.hexdigest content, doc2)]).
Proof.
  split; [|split].
  - reflexivity.
  - intros idx content t1 t2 s1 s2 m1 m2 n1 n2 Hwf first second idx1 idx2.
    pose proof (ingest_text_run content t1 s1 m1 n1 idx) as E1.
    cbv zeta in E1. unfold Py.run in E1.
    set (doc1 := Document.new "" content t1 _ _ n1) in E1.
    assert (Hidx1 : idx1 = KG.mk (Dict.set (Document.id doc1) doc1 (KG.documents idx)) true).
    { unfold idx1, first, Py.after. now rewrite E1. }
    pose proof (ingest_text_run content t2 s2 m2 n2 idx1) as E2.
    cbv zeta in E2. unfold Py.run in E2.
    set (doc2 := Document.new "" content t2 _ _ n2) in E2.
    assert (Hidx2 : idx2 = KG.mk (Dict.set (Document.id doc2) doc2 (KG.documents idx1)) true).
    { unfold idx2, second, Py.after. now rewrite E2. }
    assert (Hwf1 : Dict.wf (KG.documents idx1)).
    { rewrite Hidx1. now apply dict_wf_set. }
    exists doc1, doc2. unfold Py.result, first, second.
    rewrite E1, E2, Hidx2. cbn [fst KG.documents].
    repeat split.
    + now apply entries_at_set.
    + apply dict_get_set.
    + apply dict_len_set_in. apply dict_get_in.
      rewrite Hidx1. cbn [KG.documents].
      change (Document.id doc2) with (Document.id doc1).
      now rewrite dict_get_set.
  - intros content t1 t2 s1 s2 m1 m2 n1 n2.
    pose proof (ingest_text_run content t1 s1 m1 n1 KG.init) as E1.
    cbv zeta in E1. unfold Py.run in E1.
    unfold Py.after at 2. rewrite E1. cbn [snd].
    pose proof (ingest_text_run content t2 s2 m2 n2) as E2.
    cbv zeta in E2. unfold Py.run in E2.
    unfold Py.after. rewrite E2. cbn [snd KG.documents KG.init Dict.empty].
    rewrite !new_id_of_content. unfold Dict.empty. cbn [Dict.set].
    rewrite String.eqb_refl.
    eexists. split; [|reflexivity]. reflexivity.
Qed.

(** [test_document_same_content_same_id], through the ingestor. *)
Lemma ids_derive_from_content_witness :
  Dict.wf (KG.documents Examples.populated) /\
  exists doc1 doc2 : Document.t,
    let first :=
      DocumentIngestor.ingest_text "Same content" "Title" None None
        Examples.epoch in
    let second :=
      DocumentIngestor.ingest_text "Same content" "Different Title"
        (Some "other") None Examples.epoch in
    let idx1 := Py.after first Examples.populated in
    let idx2 := Py.after second idx1 in
    Py.result first Examples.populated = Return doc1 /\
    Py.result second idx1 = Return doc2 /\
    Document.title doc1 = "Title" /\
    Document.title doc2 = "Different Title" /\
    Document.id doc1 = Document.id doc2 /\
    Dict.entries_at (Document.id doc2) (KG.documents idx2)
    = [(Document.id doc2, doc2)] /\
    Dict.get (Document.id doc2) (KG.documents idx2) = Some doc2 /\
    Dict.len (KG.documents idx2) = Dict.len (KG.documents idx1).
Proof.
  assert (Hwf : Dict.wf (KG.documents Examples.populated)).
  { unfold Dict.wf. vm_compute.
    repeat constructor; simpl; intuition discriminate. }
  split; [exact Hwf|].
  exact (proj1 (proj2 ids_derive_from_content) Examples.populated
           "Same content" "Title" "Different Title" None (Some "other")
           None None Examples.epoch Examples.epoch Hwf).
Defined.

(** ** Batch ingestion (C9) *)

Lemma documents_of_length clock items : forall i,
  List.length (Spec.documents_of clock i items) = List.length items.
Proof.
  induction items as [|it items IH]; intro i; simpl; [reflexivity|].
  now rewrite IH.
Qed.

Lemma documents_of_nth clock items : forall i j it,
  nth_error items j = Some it ->
  nth_error (Spec.documents_of clock i items) j
  = Some (Spec.document_of (clock (i + j)) it).
Proof.
  induction items as [|it0 items IH]; intros i [|j] it H; simpl in *;
    try discriminate.
  - injection H as ->. now rewrite Nat.add_0_r.
  - rewrite (IH (S i) j it H). do 3 f_equal. lia.
Qed.

Lemma complete_to_data data :
  forallb Spec.complete data = true ->
  exists items, data = map Spec.to_data items.
Proof.
  induction data as [|d data IH]; simpl; intro H.
  - now exists [].
  - apply andb_true_iff in H as [Hd Hr]. destruct (IH Hr) as [items ->].
    destruct d as [[c|] [t|] s m]; try discriminate.
    now exists (Spec.mk_item c t s m :: items).
Qed.

(** C9.  For every sequence of items, each with a content and a title and
    optionally a source and metadata, [ingest_batch] returns one document
    per item, in the order of the items: the document of an item has the
    digest of the content as id, the item's content and title, its source
    or else [batch], its metadata or else the empty dictionary.  The store
    after the call is the store after one [add_documents] of that whole
    list, with the [indexed] flag true.  Every list of dictionaries that
    have both keys is such a sequence; when a dictionary lacks a key the
    call raises [KeyError] before anything is written, and the store is as
    it was. *)
Theorem ingest_batch_adds_once :
  (forall (items : list Spec.item) (clock : nat -> Datetime.t) (idx : KG.t),
     let docs := Spec.documents_of clock 0 items in
     Py.run (DocumentIngestor.ingest_batch (map Spec.to_data items) clock) idx
     = (Return docs, Py.after (KG.add_documents docs) idx) /\
     List.length docs = List.length items /\
     (forall (i : nat) (it : Spec.item),
        nth_error items i = Some it ->
        nth_error docs i
        = Some
            (Document.mk (MD5.hexdigest (Spec.item_content it))
               (Spec.item_content it) (Spec.item_title it)
               (match Spec.item_source it with
                | Some s => s
                | None => "batch"
                end)
               (match Spec.item_metadata it with
                | Some m => m
                | None => []
                end)
               (clock i))) /\
     KG.indexed (Py.after (KG.add_documents docs) idx) = true) /\
  (forall data : list DocumentIngestor.doc_data,
     forallb Spec.complete data = true ->
     exists items, data = map Spec.to_data items) /\
  (forall (data : list DocumentIngestor.doc_data) (clock : nat -> Datetime.t)
          (idx : KG.t),
     forallb Spec.complete data = false ->
     exists key,
       Py.run (DocumentIngestor.ingest_batch data clock) idx
       = (Raise (KeyError key), idx)).
Proof.
  split; [|split].
  - intros items clock idx docs. split; [|split; [|split]].
    + rewrite ingest_batch_run, build_all_complete, add_documents_after.
      reflexivity.
    + apply documents_of_length.
    + intros i it H. unfold docs.
      now rewrite (documents_of_nth clock items 0 i it H).
    + now rewrite add_documents_after.
  - apply complete_to_data.
  - intros data clock idx H. rewrite ingest_batch_run.
    destruct (build_all_incomplete clock data [] idx H) as [key ->].
    now exists key.
Qed.

(** The batch of [test_ingest_batch], and a batch whose entry has no title. *)
Lemma ingest_batch_adds_once_witness :
  (let items :=
     [Spec.mk_item "Content 1" "Title 1" (Some "src1") None;
      Spec.mk_item "Content 2" "Title 2" None (Some [("a", VInt 1)])] in
   let docs := Spec.documents_of (fun _ => Examples.epoch) 0 items in
   Py.run
     (DocumentIngestor.ingest_batch (map Spec.to_data items)
        (fun _ => Examples.epoch))
     KG.init
   = (Return docs, Py.after (KG.add_documents docs) KG.init)) /\
  forallb Spec.complete
    [DocumentIngestor.mk_data (Some "Content 1") None (Some "src1") None]
  = false /\
  exists key,
    Py.run
      (DocumentIngestor.ingest_batch
         [DocumentIngestor.mk_data (Some "Content 1") None (Some "src1") None]
         (fun _ => Examples.epoch))
      Examples.populated
    = (Raise (KeyError key), Examples.populated).
Proof.
  split; [|split; [reflexivity|]].
  - exact (proj1 (proj1 ingest_batch_adds_once
             [Spec.mk_item "Content 1" "Title 1" (Some "src1") None;
              Spec.mk_item "Content 2" "Title 2" None (Some [("a", VInt 1)])]
             (fun _ => Examples.epoch) KG.init)).
  - exact (proj2 (proj2 ingest_batch_adds_once)
           [DocumentIngestor.mk_data (Some "Content 1") None (Some "src1") None]
           (fun _ => Examples.epoch) Examples.populated eq_refl).
Defined.

(** ** Rounding to binary64 *)

Module Rounding.

Local Open Scope Z_scope.

Lemma digits2_pos_bounds (p : positive) :
  2 ^ (Zpos (digits2_pos p) - 1) <= Zpos p < 2 ^ Zpos (digits2_pos p).
Proof.
  induction p as [p IH|p IH|]; cbn [digits2_pos].
  - rewrite Pos2Z.inj_succ.
    replace (Z.succ (Zpos (digits2_pos p)) - 1)
      with (Z.succ (Zpos (digits2_pos p) - 1)) by lia.
    rewrite !Z.pow_succ_r by lia. lia.
  - rewrite Pos2Z.inj_succ.
    replace (Z.succ (Zpos (digits2_pos p)) - 1)
      with (Z.succ (Zpos (digits2_pos p) - 1)) by lia.
    rewrite !Z.pow_succ_r by lia. lia.
  - cbn. lia.
Qed.

(** The number of binary digits is determined by the bounds. *)
Lemma digits2_pos_unique (p : positive) (d : Z) :
  2 ^ (d - 1) <= Zpos p < 2 ^ d -> Zpos (digits2_pos p) = d.
Proof.
  intros [Hl Hu]. pose proof (digits2_pos_bounds p) as [Bl Bu].
  assert (0 < d).
  { destruct (Z.ltb_spec 0 d); [assumption|].
    rewrite (Z.pow_neg_r 2 (d - 1)) in Hl by lia.
    destruct (Z.eq_dec d 0) as [->|]; [cbn in Hu; lia|].
    rewrite Z.pow_neg_r in Hu by lia. lia. }
  destruct (Z.lt_trichotomy (Zpos (digits2_pos p)) d) as [Hlt|[Heq|Hgt]];
    [|assumption|].
  - assert (2 ^ Zpos (digits2_pos p) <= 2 ^ (d - 1))
      by (apply Z.pow_le_mono_r; lia). lia.
  - assert (2 ^ d <= 2 ^ (Zpos (digits2_pos p) - 1))
      by (apply Z.pow_le_mono_r; lia). lia.
Qed.

Lemma digits2_pos_mono (p q : positive) :
  Zpos p <= Zpos q -> Zpos (digits2_pos p) <= Zpos (digits2_pos q).
Proof.
  intro H. pose proof (digits2_pos_bounds p) as [Bl _].
  pose proof (digits2_pos_bounds q) as [_ Bu].
  destruct (Z.le_gt_cases (Zpos (digits2_pos p)) (Zpos (digits2_pos q)));
    [assumption|].
  assert (2 ^ Zpos (digits2_pos q) <= 2 ^ (Zpos (digits2_pos p) - 1))
    by (apply Z.pow_le_mono_r; lia). lia.
Qed.

Lemma shr_1_m (mrs : shr_record) :
  0 <= shr_m mrs -> shr_m (shr_1 mrs) = shr_m mrs / 2.
Proof.
  destruct mrs as [m r s]. cbn [shr_m]. intro H.
  destruct m as [|[p|p|]|p]; cbn [shr_1 shr_m].
  - reflexivity.
  - apply Z.div_unique with 1; lia.
  - apply Z.div_unique with 0; lia.
  - reflexivity.
  - lia.
Qed.

Lemma shr_iter_m (p : positive) : forall mrs : shr_record,
  0 <= shr_m mrs ->
  shr_m (iter_pos shr_1 p mrs) = shr_m mrs / 2 ^ Zpos p.
Proof.
  assert (Hnn : forall mrs, 0 <= shr_m mrs -> 0 <= shr_m (shr_1 mrs)).
  { intros mrs H. rewrite shr_1_m by assumption. apply Z.div_pos; lia. }
  induction p as [p IH|p IH|]; intros mrs H; cbn [iter_pos].
  - assert (H1 : 0 <= shr_m (shr_1 mrs)) by auto.
    assert (H2 : 0 <= shr_m (iter_pos shr_1 p (shr_1 mrs))).
    { rewrite IH by assumption. apply Z.div_pos; lia. }
    rewrite IH, IH, shr_1_m by assumption.
    rewrite !Z.div_div by lia. f_equal.
    replace (Zpos p~1) with (1 + Zpos p + Zpos p) by lia.
    rewrite !Z.pow_add_r by lia. lia.
  - assert (H2 : 0 <= shr_m (iter_pos shr_1 p mrs)).
    { rewrite IH by assumption. apply Z.div_pos; lia. }
    rewrite IH, IH by assumption.
    rewrite !Z.div_div by lia. f_equal.
    replace (Zpos p~0) with (Zpos p + Zpos p) by lia.
    rewrite !Z.pow_add_r by lia. lia.
  - rewrite shr_1_m by assumption. reflexivity.
Qed.

Lemma round_nearest_even_bounds (m : Z) (l : location) :
  m <= round_nearest_even m l <= m + 1.
Proof.
  destruct l as [|[]]; cbn [round_nearest_even]; try lia.
  destruct (Z.even m); lia.
Qed.

Lemma fexp_normal (e : Z) : -1074 <= e - 53 -> fexp prec emax e = e - 53.
Proof. unfold fexp, emin, prec, emax. lia. Qed.

Lemma shr_fexp_exact (m : positive) (e : Z) :
  53 <= Zpos (digits2_pos m) ->
  -1074 <= Zpos (digits2_pos m) + e - 53 ->
  exists mrs,
    shr_fexp prec emax (Zpos m) e loc_Exact
    = (mrs, e + (Zpos (digits2_pos m) - 53)) /\
    shr_m mrs = Zpos m / 2 ^ (Zpos (digits2_pos m) - 53) /\
    (Zpos (digits2_pos m) = 53 -> mrs = Build_shr_record (Zpos m) false false).
Proof.
  intros Hd He. unfold shr_fexp. cbn [Zdigits2 shr_record_of_loc].
  rewrite fexp_normal by lia.
  replace (Zpos (digits2_pos m) + e - 53 - e)
    with (Zpos (digits2_pos m) - 53) by lia.
  destruct (Zpos (digits2_pos m) - 53) as [|k|k] eqn:K.
  - exists (Build_shr_record (Zpos m) false false). cbn [shr shr_m].
    split; [f_equal; lia|]. split; [now rewrite Z.div_1_r|reflexivity].
  - exists (iter_pos shr_1 k (Build_shr_record (Zpos m) false false)).
    cbn [shr]. split; [reflexivity|]. split.
    + rewrite shr_iter_m by (cbn; lia). reflexivity.
    + lia.
  - lia.
Qed.

Lemma round_aux_normal (mx : positive) (ex : Z) :
  let d := Zpos (digits2_pos mx) in
  53 <= d -> -1074 <= ex + d - 53 -> ex + d - 53 < 971 ->
  exists (m : positive) (e : Z),
    binary_round_aux prec emax false (Zpos mx) ex loc_Exact
    = S754_finite false m e /\
    Zpos (digits2_pos m) = 53 /\
    ((e = ex + d - 53 /\ Zpos mx / 2 ^ (d - 53) <= Zpos m) \/
     e = ex + d - 52).
Proof.
  intros d Hd Hlo Hhi. unfold binary_round_aux.
  destruct (shr_fexp_exact mx ex) as [mrs [E [Hm _]]]; [assumption|lia|].
  pose proof (digits2_pos_bounds mx) as [Bl Bu].
  fold d in E, Hm, Bl, Bu. clearbody d. rewrite E. cbv beta iota.
  set (q := Zpos mx / 2 ^ (d - 53)) in *.
  assert (Hq : 4503599627370496 <= q < 9007199254740992).
  { assert (Hp : 0 < 2 ^ (d - 53)) by (apply Z.pow_pos_nonneg; lia).
    replace (d - 1) with (52 + (d - 53)) in Bl by lia.
    replace (2 ^ d) with (2 ^ (53 + (d - 53))) in Bu by (f_equal; lia).
    rewrite Z.pow_add_r in Bl, Bu by lia. unfold q.
    change (2 ^ 52) with 4503599627370496 in *.
    change (2 ^ 53) with 9007199254740992 in *. split.
    - apply Z.div_le_lower_bound; lia.
    - apply Z.div_lt_upper_bound; lia. }
  pose proof (round_nearest_even_bounds (shr_m mrs) (loc_of_shr_record mrs))
    as Hr. rewrite Hm in Hr.
  rewrite Hm.
  destruct (round_nearest_even q (loc_of_shr_record mrs))
    as [|p1|p1]; [lia| |lia].
  destruct (Z.eq_dec (Zpos p1) 9007199254740992) as [Hc|Hc].
  - assert (D1 : Zpos (digits2_pos p1) = 54).
    { injection Hc as ->. reflexivity. }
    destruct (shr_fexp_exact p1 (ex + (d - 53))) as [mrs2 [E2 [Hm2 _]]];
      [lia|lia|].
    rewrite E2, D1. cbv beta iota. rewrite Hm2, D1, Hc.
    change (9007199254740992 / 2 ^ (54 - 53)) with (Zpos 4503599627370496).
    cbv beta iota.
    replace (ex + (d - 53) + (54 - 53) <=? emax - prec) with true
      by (symmetry; apply Z.leb_le; unfold emax, prec; lia).
    eexists _, _. split; [reflexivity|]. split; [reflexivity|]. right. lia.
  - assert (D1 : Zpos (digits2_pos p1) = 53).
    { apply digits2_pos_unique. change (2 ^ (53 - 1)) with 4503599627370496.
      change (2 ^ 53) with 9007199254740992. lia. }
    destruct (shr_fexp_exact p1 (ex + (d - 53))) as [mrs2 [E2 [_ Hrec]]];
      [lia|lia|].
    rewrite E2, D1, (Hrec D1). cbv beta iota. cbn [shr_m].
    replace (ex + (d - 53) + (53 - 53) <=? emax - prec) with true
      by (symmetry; apply Z.leb_le; unfold emax, prec; lia).
    eexists _, _. split; [reflexivity|]. split; [exact D1|]. left. lia.
Qed.

Lemma iter_xO_value (m d : positive) :
  Zpos (Pos.iter xO m d) = Zpos m * 2 ^ Zpos d.
Proof.
  induction d as [|d IH] using Pos.peano_ind.
  - cbn. lia.
  - rewrite Pos.iter_succ, Pos2Z.inj_succ, Z.pow_succ_r by lia.
    rewrite Pos2Z.inj_xO, IH. lia.
Qed.

Lemma shl_align_value (mx : positive) (ex ex' : Z) :
  ex' <= ex ->
  Zpos (fst (shl_align mx ex ex')) = Zpos mx * 2 ^ (ex - ex') /\
  snd (shl_align mx ex ex') = ex'.
Proof.
  intro H. unfold shl_align. destruct (ex' - ex) as [|d|d] eqn:E.
  - replace (ex - ex') with 0 by lia. cbn [fst snd]. split; lia.
  - lia.
  - cbn [fst snd]. rewrite iter_xO_value.
    replace (ex - ex') with (Zpos d) by lia. split; reflexivity.
Qed.

Lemma shl_align_id (mx : positive) (ex ex' : Z) :
  ex <= ex' -> shl_align mx ex ex' = (mx, ex).
Proof.
  intro H. unfold shl_align. destruct (ex' - ex) as [|d|d] eqn:E;
    [reflexivity|reflexivity|lia].
Qed.

Lemma digits2_pos_shift (m p : positive) (k : Z) :
  0 <= k -> Zpos p = Zpos m * 2 ^ k ->
  Zpos (digits2_pos p) = Zpos (digits2_pos m) + k.
Proof.
  intros Hk E. apply digits2_pos_unique.
  pose proof (digits2_pos_bounds m) as [Bl Bu].
  assert (Hp : 0 < 2 ^ k) by (apply Z.pow_pos_nonneg; lia).
  replace (Zpos (digits2_pos m) + k - 1)
    with (Zpos (digits2_pos m) - 1 + k) by lia.
  rewrite !Z.pow_add_r, E by lia. split.
  - apply Z.mul_le_mono_nonneg_r; lia.
  - apply Z.mul_lt_mono_pos_r; lia.
Qed.

Lemma digits2_pos_upper (p : positive) (k : Z) :
  0 <= k -> Zpos p < 2 ^ k -> Zpos (digits2_pos p) <= k.
Proof.
  intros Hk H. pose proof (digits2_pos_bounds p) as [Bl _].
  destruct (Z.le_gt_cases (Zpos (digits2_pos p)) k); [assumption|].
  assert (2 ^ k <= 2 ^ (Zpos (digits2_pos p) - 1))
    by (apply Z.pow_le_mono_r; lia). lia.
Qed.

Lemma digits2_pos_lower (p : positive) (k : Z) :
  2 ^ k <= Zpos p -> k + 1 <= Zpos (digits2_pos p).
Proof.
  intro H. pose proof (digits2_pos_bounds p) as [_ Bu].
  destruct (Z.le_gt_cases (k + 1) (Zpos (digits2_pos p))); [assumption|].
  assert (2 ^ Zpos (digits2_pos p) <= 2 ^ k)
    by (apply Z.pow_le_mono_r; lia). lia.
Qed.

Lemma binary_round_normal (mx : positive) (ex : Z) :
  let d := Zpos (digits2_pos mx) in
  -1074 <= ex + d - 53 -> ex + d - 53 < 971 ->
  Binary64.normal_pos (binary_round prec emax false mx ex) (ex + d - 53) (ex + d - 52).
Proof.
  intros d Hlo Hhi. unfold binary_round.
  rewrite fexp_normal by (fold d; lia). fold d.
  destruct (Z.le_gt_cases 53 d) as [Hd|Hd].
  - rewrite shl_align_id by lia.
    destruct (round_aux_normal mx ex Hd) as [m [e [E [Dm He]]]]; [fold d; lia..|].
    fold d in He. rewrite E. exists m, e. repeat split; try assumption; lia.
  - destruct (shl_align_value mx ex (d + ex - 53)) as [Hv He]; [lia|].
    destruct (shl_align mx ex (d + ex - 53)) as [mz ez]. cbn [fst snd] in Hv, He.
    subst ez. replace (ex - (d + ex - 53)) with (53 - d) in Hv by lia.
    assert (Dz : Zpos (digits2_pos mz) = 53).
    { rewrite (digits2_pos_shift mx mz (53 - d)) by (assumption || lia).
      fold d. lia. }
    destruct (round_aux_normal mz (d + ex - 53)) as [m [e [E [Dm He]]]];
      [lia..|].
    rewrite Dz in He. rewrite E. exists m, e. repeat split; try assumption; lia.
Qed.

Lemma of_int_normal (z : Z) :
  0 < z < 2 ^ 63 ->
  Binary64.normal_pos (binary_normalize prec emax z 0 false) (-52) 11.
Proof.
  intros [Hl Hu]. destruct z as [|p|p]; try lia. cbn [binary_normalize].
  pose proof (digits2_pos_upper p 63 ltac:(lia) Hu) as Du.
  assert (Dl : 1 <= Zpos (digits2_pos p)) by lia.
  destruct (binary_round_normal p 0) as [m [e [E [Dm He]]]]; [lia..|].
  exists m, e. repeat split; try assumption; lia.
Qed.

Lemma mul_normal (x y : spec_float) (lx hx ly hy : Z) :
  Binary64.normal_pos x lx hx -> Binary64.normal_pos y ly hy ->
  -1000 <= lx + ly -> hx + hy <= 900 ->
  Binary64.normal_pos (SFmul prec emax x y) (lx + ly + 52) (hx + hy + 54).
Proof.
  intros [mx [ex [-> [Dx Hx]]]] [my [ey [-> [Dy Hy]]]] Hlo Hhi.
  cbn [SFmul xorb].
  pose proof (digits2_pos_bounds mx) as [Bxl Bxu].
  pose proof (digits2_pos_bounds my) as [Byl Byu].
  rewrite Dx in Bxl, Bxu. rewrite Dy in Byl, Byu.
  change (2 ^ (53 - 1)) with 4503599627370496 in *.
  change (2 ^ 53) with 9007199254740992 in *.
  assert (Dl : 105 <= Zpos (digits2_pos (mx * my))).
  { apply (digits2_pos_lower (mx * my) 104). rewrite Pos2Z.inj_mul.
    change (2 ^ 104) with (4503599627370496 * 4503599627370496). nia. }
  assert (Du : Zpos (digits2_pos (mx * my)) <= 106).
  { apply digits2_pos_upper; [lia|]. rewrite Pos2Z.inj_mul.
    change (2 ^ 106) with (9007199254740992 * 9007199254740992). nia. }
  destruct (round_aux_normal (mx * my) (ex + ey)) as [m [e [E [Dm He]]]];
    [lia..|].
  rewrite E. exists m, e. repeat split; try assumption; lia.
Qed.

Lemma add_normal (x y : spec_float) (lx hx ly hy : Z) :
  Binary64.normal_pos x lx hx -> Binary64.normal_pos y ly hy ->
  -1000 <= lx -> -1000 <= ly -> hx <= 900 -> hy <= 900 ->
  Binary64.normal_pos (SFadd prec emax x y) lx (Z.max hx hy + 2).
Proof.
  intros [mx [ex [-> [Dx Hx]]]] [my [ey [-> [Dy Hy]]]] Hlx Hly Hhx Hhy.
  cbn [SFadd cond_Zopp].
  set (ez := Z.min ex ey).
  destruct (shl_align_value mx ex ez) as [Va _]; [unfold ez; lia|].
  destruct (shl_align_value my ey ez) as [Vb _]; [unfold ez; lia|].
  set (a := fst (shl_align mx ex ez)) in *.
  set (b := fst (shl_align my ey ez)) in *.
  change (Zpos a + Zpos b) with (Zpos (a + b)). cbn [binary_normalize].
  pose proof (digits2_pos_shift mx a (ex - ez) ltac:(unfold ez; lia) Va) as Da.
  pose proof (digits2_pos_shift my b (ey - ez) ltac:(unfold ez; lia) Vb) as Db.
  rewrite Dx in Da. rewrite Dy in Db.
  assert (Dl : Zpos (digits2_pos a) <= Zpos (digits2_pos (a + b)))
    by (apply digits2_pos_mono; lia).
  assert (Du : Zpos (digits2_pos (a + b)) <= 54 + Z.max ex ey - ez).
  { apply digits2_pos_upper; [unfold ez; lia|].
    pose proof (digits2_pos_bounds a) as [_ Ba].
    pose proof (digits2_pos_bounds b) as [_ Bb].
    rewrite Da in Ba. rewrite Db in Bb.
    assert (2 ^ (53 + (ex - ez)) <= 2 ^ (53 + Z.max ex ey - ez))
      by (apply Z.pow_le_mono_r; unfold ez; lia).
    assert (2 ^ (53 + (ey - ez)) <= 2 ^ (53 + Z.max ex ey - ez))
      by (apply Z.pow_le_mono_r; unfold ez; lia).
    replace (54 + Z.max ex ey - ez) with (Z.succ (53 + Z.max ex ey - ez))
      by lia.
    rewrite Z.pow_succ_r by (unfold ez; lia). rewrite Pos2Z.inj_add. lia. }
  destruct (binary_round_normal (a + b) ez) as [m [e [E [Dm He]]]];
    [unfold ez in *; lia..|].
  rewrite E. exists m, e. repeat split; try assumption; unfold ez in *; lia.
Qed.

End Rounding.

(** ** The confidence of a synthesis (C4) *)

Module Confidence.

Import Rounding.

Local Open Scope Z_scope.

#[local] Set Warnings "-inexact-float".

Lemma SFmul_comm (x y : spec_float) :
  SFmul prec emax x y = SFmul prec emax y x.
Proof.
  destruct x as [sx|sx| |sx mx ex], y as [sy|sy| |sy my ey]; cbn [SFmul];
    try reflexivity; rewrite (xorb_comm sx sy); try reflexivity.
  now rewrite Pos.mul_comm, Z.add_comm.
Qed.

Lemma float_mul_comm (x y : float) : (x * y = y * x)%float.
Proof.
  apply Prim2SF_inj. rewrite !FloatAxioms.mul_spec. apply SFmul_comm.
Qed.

Lemma normal_pos_above_half (x : spec_float) (lo hi : Z) :
  Binary64.normal_pos x lo hi -> -53 <= lo ->
  SFleb (Prim2SF 0.5) x = true.
Proof.
  intros [m [e [-> [Dm He]]]] Hlo.
  change (Prim2SF 0.5) with (S754_finite false 4503599627370496 (-53)).
  unfold SFleb, SFcompare.
  destruct (Z.compare_spec (-53) e) as [E|E|E]; [|reflexivity|lia].
  pose proof (digits2_pos_bounds m) as [Bl _]. rewrite Dm in Bl.
  change (2 ^ (53 - 1)) with 4503599627370496 in Bl.
  change (Pos.compare_cont Eq 4503599627370496 m)
    with (Pos.compare 4503599627370496 m).
  rewrite Pos2Z.inj_compare.
  destruct (Z.compare_spec (Zpos 4503599627370496) (Zpos m)) as [C|C|C];
    [reflexivity|reflexivity|lia].
Qed.

Lemma finite_not_lt_le (m1 m2 : positive) (e1 e2 : Z) :
  SFltb (S754_finite false m1 e1) (S754_finite false m2 e2) = false ->
  SFleb (S754_finite false m2 e2) (S754_finite false m1 e1) = true.
Proof.
  unfold SFltb, SFleb, SFcompare.
  rewrite (Z.compare_antisym e1 e2).
  change (Pos.compare_cont Eq m2 m1) with (Pos.compare m2 m1).
  change (Pos.compare_cont Eq m1 m2) with (Pos.compare m1 m2).
  rewrite (Pos.compare_antisym m1 m2).
  destruct (e1 ?= e2); cbn [CompOpp]; try reflexivity; try discriminate.
  destruct (m1 ?= m2)%positive; cbn [CompOpp]; try reflexivity; discriminate.
Qed.

(** The sum [0.5 + len * 0.1] is a positive normal number, at least one
    half. *)
Lemma raw_confidence_normal (n : nat) :
  Binary64.normal_pos
    (Prim2SF (0.5 + QueryEngine.float_of_len n * 0.1)%float) (-53) 11.
Proof.
  rewrite FloatAxioms.add_spec, FloatAxioms.mul_spec. unfold QueryEngine.float_of_len.
  rewrite FloatAxioms.of_uint63_spec.
  pose proof (Uint63.to_Z_bounded (Uint63.of_Z (Z.of_nat n))) as Hb.
  change wB with (2 ^ 63) in Hb.
  set (z := Uint63.to_Z (Uint63.of_Z (Z.of_nat n))) in *. clearbody z.
  assert (H1 : Binary64.normal_pos (Prim2SF 0.1) (-56) (-56)).
  { exists 7205759403792794%positive, (-56).
    split; [reflexivity|]. split; [reflexivity|lia]. }
  assert (H5 : Binary64.normal_pos (Prim2SF 0.5) (-53) (-53)).
  { exists 4503599627370496%positive, (-53).
    split; [reflexivity|]. split; [reflexivity|lia]. }
  destruct (Z.eq_dec z 0) as [->|Hz].
  - exists 4503599627370496%positive, (-53).
    split; [reflexivity|]. split; [reflexivity|lia].
  - pose proof (of_int_normal z ltac:(lia)) as Ha.
    pose proof (mul_normal _ _ _ _ _ _ Ha H1 ltac:(lia) ltac:(lia)) as Hm.
    pose proof (add_normal _ _ _ _ _ _ H5 Hm ltac:(lia) ltac:(lia)
                  ltac:(lia) ltac:(lia)) as Hs.
    destruct Hs as [m [e [E [Dm He]]]]. unfold SF64add, SF64mul. rewrite E.
    exists m, e. repeat split; try assumption; lia.
Qed.

Lemma confidence_of_bounds (n : nat) :
  (0.5 <=? QueryEngine.confidence_of n)%float = true /\
  (QueryEngine.confidence_of n <=? 0.95)%float = true.
Proof.
  unfold QueryEngine.confidence_of, QueryEngine.float_min.
  pose proof (raw_confidence_normal n) as Hx.
  set (x := (0.5 + QueryEngine.float_of_len n * 0.1)%float) in *.
  destruct (0.95 <? x)%float eqn:L.
  - split; reflexivity.
  - split.
    + rewrite FloatAxioms.leb_spec. eapply normal_pos_above_half; [exact Hx|lia].
    + rewrite FloatAxioms.leb_spec. rewrite FloatAxioms.ltb_spec in L.
      destruct Hx as [m [e [E _]]]. rewrite E in L |- *.
      change (Prim2SF 0.95)
        with (S754_finite false 8556839292003942 (-53)) in L |- *.
      now apply finite_not_lt_le.
Qed.

End Confidence.

(** ** The values of the confidence (C4) *)

Module Saturation.

Import Rounding.

Local Open Scope Z_scope.

#[local] Set Warnings "-inexact-float".

(** The sum of two positive normal numbers whose exponents are at least
    [lo] has an exponent above [lo]. *)
Lemma add_normal_both (x y : spec_float) (lo hx hy : Z) :
  Binary64.normal_pos x lo hx -> Binary64.normal_pos y lo hy ->
  -1000 <= lo -> hx <= 900 -> hy <= 900 ->
  Binary64.normal_pos (SFadd prec emax x y) (lo + 1) (Z.max hx hy + 2).
Proof.
  intros [mx [ex [-> [Dx Hx]]]] [my [ey [-> [Dy Hy]]]] Hlo Hhx Hhy.
  cbn [SFadd cond_Zopp].
  set (ez := Z.min ex ey).
  destruct (shl_align_value mx ex ez) as [Va _]; [unfold ez; lia|].
  destruct (shl_align_value my ey ez) as [Vb _]; [unfold ez; lia|].
  set (a := fst (shl_align mx ex ez)) in *.
  set (b := fst (shl_align my ey ez)) in *.
  change (Zpos a + Zpos b) with (Zpos (a + b)). cbn [binary_normalize].
  pose proof (digits2_pos_shift mx a (ex - ez) ltac:(unfold ez; lia) Va) as Da.
  pose proof (digits2_pos_shift my b (ey - ez) ltac:(unfold ez; lia) Vb) as Db.
  rewrite Dx in Da. rewrite Dy in Db.
  assert (Dl : 53 + 1 <= Zpos (digits2_pos (a + b))).
  { apply digits2_pos_lower.
    pose proof (digits2_pos_bounds a) as [Ba _].
    pose proof (digits2_pos_bounds b) as [Bb _].
    rewrite Da in Ba. rewrite Db in Bb.
    assert (2 ^ 52 <= 2 ^ (53 + (ex - ez) - 1))
      by (apply Z.pow_le_mono_r; unfold ez; lia).
    assert (2 ^ 52 <= 2 ^ (53 + (ey - ez) - 1))
      by (apply Z.pow_le_mono_r; unfold ez; lia).
    change (2 ^ 53) with (2 * 2 ^ 52). rewrite Pos2Z.inj_add. lia. }
  assert (Du : Zpos (digits2_pos (a + b)) <= 54 + Z.max ex ey - ez).
  { apply digits2_pos_upper; [unfold ez; lia|].
    pose proof (digits2_pos_bounds a) as [_ Ba].
    pose proof (digits2_pos_bounds b) as [_ Bb].
    rewrite Da in Ba. rewrite Db in Bb.
    assert (2 ^ (53 + (ex - ez)) <= 2 ^ (53 + Z.max ex ey - ez))
      by (apply Z.pow_le_mono_r; unfold ez; lia).
    assert (2 ^ (53 + (ey - ez)) <= 2 ^ (53 + Z.max ex ey - ez))
      by (apply Z.pow_le_mono_r; unfold ez; lia).
    replace (54 + Z.max ex ey - ez) with (Z.succ (53 + Z.max ex ey - ez))
      by lia.
    rewrite Z.pow_succ_r by (unfold ez; lia). rewrite Pos2Z.inj_add. lia. }
  destruct (binary_round_normal (a + b) ez) as [m [e [E [Dm He]]]];
    [unfold ez in *; lia..|].
  rewrite E. exists m, e. repeat split; try assumption; unfold ez in *; lia.
Qed.

(** The float of a length that fits in 63 bits is the integer rounded to
    binary64. *)
Lemma float_of_len_spec (n : nat) :
  Z.of_nat n < 2 ^ 63 ->
  Prim2SF (QueryEngine.float_of_len n)
  = binary_normalize prec emax (Z.of_nat n) 0 false.
Proof.
  intro H. unfold QueryEngine.float_of_len.
  rewrite FloatAxioms.of_uint63_spec, Uint63.of_Z_spec.
  change wB with (2 ^ 63). now rewrite Z.mod_small by lia.
Qed.

(** An integer of four binary digits or more, converted. *)
Lemma of_int_normal_from_8 (z : Z) :
  8 <= z < 2 ^ 63 ->
  Binary64.normal_pos (binary_normalize prec emax z 0 false) (-49) 11.
Proof.
  intros [Hl Hu]. destruct z as [|p|p]; try lia. cbn [binary_normalize].
  pose proof (digits2_pos_upper p 63 ltac:(lia) Hu) as Du.
  assert (Dl : 4 <= Zpos (digits2_pos p)).
  { apply (digits2_pos_lower p 3). change (2 ^ 3) with 8. lia. }
  destruct (binary_round_normal p 0) as [m [e [E [Dm He]]]]; [lia..|].
  exists m, e. repeat split; try assumption; lia.
Qed.

(** From eight documents on, the sum [0.5 + n * 0.1] is at least one. *)
Lemma raw_confidence_from_8 (n : nat) :
  8 <= Z.of_nat n < 2 ^ 63 ->
  Binary64.normal_pos
    (Prim2SF (0.5 + QueryEngine.float_of_len n * 0.1)%float) (-52) 13.
Proof.
  intro H. rewrite FloatAxioms.add_spec, FloatAxioms.mul_spec.
  rewrite float_of_len_spec by lia.
  assert (H1 : Binary64.normal_pos (Prim2SF 0.1) (-56) (-56)).
  { exists 7205759403792794%positive, (-56).
    split; [reflexivity|]. split; [reflexivity|lia]. }
  assert (H5 : Binary64.normal_pos (Prim2SF 0.5) (-53) (-53)).
  { exists 4503599627370496%positive, (-53).
    split; [reflexivity|]. split; [reflexivity|lia]. }
  pose proof (of_int_normal_from_8 (Z.of_nat n) H) as Ha.
  pose proof (mul_normal _ _ _ _ _ _ Ha H1 ltac:(lia) ltac:(lia)) as Hm.
  replace (-49 + -56 + 52) with (-53) in Hm by lia.
  pose proof (add_normal_both _ _ _ _ _ H5 Hm ltac:(lia) ltac:(lia)
                ltac:(lia)) as Hs.
  destruct Hs as [m [e [E [Dm He]]]]. unfold SF64add, SF64mul. rewrite E.
  exists m, e. repeat split; try assumption; lia.
Qed.

(** Five, six, seven, or at least eight. *)
Lemma small_cases (P : nat -> Prop) :
  P 5%nat -> P 6%nat -> P 7%nat ->
  (forall n, (8 <= n)%nat -> P n) -> forall n, (5 <= n)%nat -> P n.
Proof.
  intros H5 H6 H7 H8 n Hn.
  destruct (Nat.le_gt_cases 8 n) as [H|H]; [now apply H8|].
  assert (E : n = 5%nat \/ n = 6%nat \/ n = 7%nat) by lia.
  destruct E as [->|[->| ->]]; assumption.
Qed.

(** From five documents on, the confidence is the cap. *)
Lemma confidence_of_saturates (n : nat) :
  (5 <= n)%nat -> Z.of_nat n < 2 ^ 63 ->
  QueryEngine.confidence_of n = 0.95%float.
Proof.
  revert n. apply (small_cases
    (fun n => Z.of_nat n < 2 ^ 63 -> QueryEngine.confidence_of n = 0.95%float));
    try (intros _; reflexivity).
  intros n Hn Hb.
  unfold QueryEngine.confidence_of, QueryEngine.float_min.
  destruct (raw_confidence_from_8 n ltac:(lia)) as [m [e [E [_ He]]]].
  rewrite FloatAxioms.ltb_spec, E.
  change (Prim2SF 0.95) with (S754_finite false 8556839292003942 (-53)).
  unfold SFltb, SFcompare.
  destruct (Z.compare_spec (-53) e); [lia|reflexivity|lia].
Qed.

(** On positive finite numbers, [<] is the negation of the converse [<=]. *)
Lemma finite_lt_is_not_le (m1 m2 : positive) (e1 e2 : Z) :
  SFltb (S754_finite false m1 e1) (S754_finite false m2 e2)
  = negb (SFleb (S754_finite false m2 e2) (S754_finite false m1 e1)).
Proof.
  unfold SFltb, SFleb, SFcompare.
  rewrite (Z.compare_antisym e1 e2).
  change (Pos.compare_cont Eq m2 m1) with (Pos.compare m2 m1).
  change (Pos.compare_cont Eq m1 m2) with (Pos.compare m1 m2).
  rewrite (Pos.compare_antisym m1 m2).
  destruct (e1 ?= e2); cbn [CompOpp]; try reflexivity.
  destruct (m1 ?= m2)%positive; reflexivity.
Qed.

(** The [min] of the source, which keeps its first argument unless the
    second is smaller, is the sum when the sum is at most the cap, and the
    cap otherwise. *)
Lemma confidence_of_is_min (n : nat) :
  let x := (0.5 + 0.1 * QueryEngine.float_of_len n)%float in
  QueryEngine.confidence_of n = if (x <=? 0.95)%float then x else 0.95%float.
Proof.
  intro x. unfold QueryEngine.confidence_of, QueryEngine.float_min.
  rewrite (Confidence.float_mul_comm (QueryEngine.float_of_len n) 0.1).
  fold x. rewrite FloatAxioms.ltb_spec, FloatAxioms.leb_spec.
  destruct (Confidence.raw_confidence_normal n) as [m [e [E _]]].
  rewrite (Confidence.float_mul_comm (QueryEngine.float_of_len n) 0.1) in E.
  fold x in E. rewrite E.
  change (Prim2SF 0.95) with (S754_finite false 8556839292003942 (-53)).
  rewrite finite_lt_is_not_le.
  now destruct (SFleb _ _).
Qed.

End Saturation.

#[local] Set Warnings "-inexact-float".

(** C4.  The confidence of a [synthesize] result is [0.0] when there are no
    context documents.  With [n >= 1] context documents it lies between
    [0.5] and [0.95], both included, and it is [min(0.5 + 0.1 * n, 0.95)]:
    [0.6], [0.7], [0.8] and [0.9] for one to four documents and [0.95] from
    five documents on.  In binary64 arithmetic, with [n] the integer
    rounded to binary64, it is the sum [0.5 + 0.1 * n] when that is at
    most [0.95], and [0.95] otherwise. *)
Theorem confidence_formula_and_bounds :
  forall (idx : KG.t) (query : string) (ctx : option (list Document.t))
         (now : Datetime.t) (docs : list Document.t),
    Spec.context_is idx query ctx docs ->
    exists result : SynthesisResult.t,
      Py.run (QueryEngine.synthesize query ctx now) idx = (Return result, idx) /\
      (docs = [] -> SynthesisResult.confidence result = 0%float) /\
      (docs <> [] ->
       let c := SynthesisResult.confidence result in
       ((0.5 <=? c)%float = true /\ (c <=? 0.95)%float = true) /\
       (List.length docs = 1%nat -> c = 0.6%float) /\
       (List.length docs = 2%nat -> c = 0.7%float) /\
       (List.length docs = 3%nat -> c = 0.8%float) /\
       (List.length docs = 4%nat -> c = 0.9%float) /\
       ((Z.of_nat (List.length docs) < 2 ^ 63)%Z ->
        (5 <= List.length docs -> c = 0.95%float) /\
        exists n : float,
          Prim2SF n
          = binary_normalize prec emax (Z.of_nat (List.length docs)) 0 false /\
          c = (if (0.5 + 0.1 * n <=? 0.95)%float
               then (0.5 + 0.1 * n)%float else 0.95%float))).
Proof.
  intros idx query ctx now docs Hctx.
  rewrite (synthesize_run _ _ _ _ _ Hctx).
  destruct docs as [|d docs].
  - eexists. split; [reflexivity|]. split; [reflexivity|]. now intros [].
  - eexists. split; [reflexivity|]. split; [discriminate|]. intros _ c.
    cbn [SynthesisResult.confidence] in c. subst c.
    set (len := List.length (d :: docs)).
    split; [apply Confidence.confidence_of_bounds|].
    repeat (split; [now intros ->|]).
    intro Hlen. split; [intro H5; now apply Saturation.confidence_of_saturates|].
    exists (QueryEngine.float_of_len len).
    split; [now apply Saturation.float_of_len_spec|].
    apply Saturation.confidence_of_is_min.
Qed.

(** Three context documents, found by the query. *)
Lemma confidence_formula_and_bounds_witness :
  Spec.context_is Examples.populated "machine learning" None
    [Examples.doc1; Examples.doc4; Examples.doc2] /\
  exists result : SynthesisResult.t,
    Py.run (QueryEngine.synthesize "machine learning" None Examples.epoch)
      Examples.populated
    = (Return result, Examples.populated) /\
    (0.5 <=? SynthesisResult.confidence result)%float = true /\
    (SynthesisResult.confidence result <=? 0.95)%float = true /\
    SynthesisResult.confidence result = 0.8%float /\
    exists n : float,
      Prim2SF n = binary_normalize prec emax 3 0 false /\
      SynthesisResult.confidence result
      = (if (0.5 + 0.1 * n <=? 0.95)%float
         then (0.5 + 0.1 * n)%float else 0.95%float).
Proof.
  split; [reflexivity|].
  destruct (confidence_formula_and_bounds Examples.populated
              "machine learning" None Examples.epoch
              [Examples.doc1; Examples.doc4; Examples.doc2] eq_refl)
    as [result [Hrun [_ Hpos]]].
  destruct (Hpos ltac:(discriminate)) as [[Hlo Hhi] [_ [_ [H3 [_ Hn]]]]].
  exists result. split; [exact Hrun|]. split; [exact Hlo|].
  split; [exact Hhi|]. split; [exact (H3 eq_refl)|].
  exact (proj2 (Hn eq_refl)).
Defined.

(** * Further properties *)

Lemma result_run {St A} (c : Py.m St A) (st : St) :
  Py.result c st = fst (Py.run c st).
Proof. reflexivity. Qed.

Lemma after_run {St A} (c : Py.m St A) (st : St) :
  Py.after c st = snd (Py.run c st).
Proof. reflexivity. Qed.

(** ** Lookup after insertion *)

Lemma store_all_get docs : forall d i,
  Dict.get i (Spec.store_all docs d)
  = match Reach.last_with_id i docs with
    | Some doc => Some doc
    | None => Dict.get i d
    end.
Proof.
  induction docs as [|doc docs IH]; intros d i; [reflexivity|].
  cbn [Spec.store_all fold_left Reach.last_with_id].
  change (fold_left (fun d0 doc0 => Dict.set (Document.id doc0) doc0 d0) docs
            (Dict.set (Document.id doc) doc d))
    with (Spec.store_all docs (Dict.set (Document.id doc) doc d)).
  rewrite IH. destruct (Reach.last_with_id i docs); [reflexivity|].
  destruct (String.eqb_spec (Document.id doc) i) as [<-|Hne].
  - apply dict_get_set.
  - apply dict_get_set_other. congruence.
Qed.

(** X1 *)
Theorem add_then_get_last_write_wins :
  forall (idx : KG.t) (docs : list Document.t) (doc_id : string),
    Py.result (KG.get_document doc_id) (Py.after (KG.add_documents docs) idx)
    = Return
        (match Reach.last_with_id doc_id docs with
         | Some doc => Some doc
         | None => Dict.get doc_id (KG.documents idx)
         end).
Proof.
  intros idx docs doc_id. rewrite add_documents_after.
  rewrite result_run, get_document_run. cbn [fst KG.documents].
  now rewrite store_all_get.
Qed.

(** ** Order of enumeration and count after insertion *)

Lemma store_all_keys docs : forall d,
  Dict.keys (Spec.store_all docs d)
  = (Dict.keys d ++ Reach.new_ids (Dict.keys d) docs)%list.
Proof.
  induction docs as [|doc docs IH]; intro d.
  - cbn. now rewrite app_nil_r.
  - cbn [Spec.store_all fold_left Reach.new_ids].
    change (fold_left (fun d0 doc0 => Dict.set (Document.id doc0) doc0 d0) docs
              (Dict.set (Document.id doc) doc d))
      with (Spec.store_all docs (Dict.set (Document.id doc) doc d)).
    rewrite IH.
    destruct (in_dec string_dec (Document.id doc) (Dict.keys d)) as [Hin|Hout].
    + now rewrite dict_keys_set_in.
    + rewrite dict_keys_set_new by assumption. now rewrite <- app_assoc.
Qed.

(** X2 *)
Theorem add_keeps_order_and_appends_new_ids :
  forall (idx : KG.t) (docs : list Document.t),
    let idx' := Py.after (KG.add_documents docs) idx in
    let fresh := Reach.new_ids (Dict.keys (KG.documents idx)) docs in
    Dict.keys (KG.documents idx')
    = (Dict.keys (KG.documents idx) ++ fresh)%list /\
    Py.result KG.document_count idx'
    = Return (Dict.len (KG.documents idx) + Z.of_nat (List.length fresh))%Z /\
    (Dict.len (KG.documents idx) <= Dict.len (KG.documents idx')
     <= Dict.len (KG.documents idx) + Z.of_nat (List.length docs))%Z.
Proof.
  intros idx docs idx' fresh.
  assert (K : Dict.keys (KG.documents idx')
              = (Dict.keys (KG.documents idx) ++ fresh)%list).
  { unfold idx'. rewrite add_documents_after. cbn [KG.documents].
    apply store_all_keys. }
  assert (L : Dict.len (KG.documents idx')
              = (Dict.len (KG.documents idx) + Z.of_nat (List.length fresh))%Z).
  { unfold Dict.len.
    rewrite <- (length_map fst (KG.documents idx')),
            <- (length_map fst (KG.documents idx)).
    change (map fst (KG.documents idx')) with (Dict.keys (KG.documents idx')).
    rewrite K, length_app. unfold Dict.keys. lia. }
  assert (F : forall known, List.length (Reach.new_ids known docs)
                           <= List.length docs).
  { clear. induction docs as [|d docs IH]; intro known; cbn; [lia|].
    destruct (in_dec string_dec (Document.id d) known); cbn.
    - specialize (IH known). lia.
    - specialize (IH (known ++ [Document.id d])%list). lia. }
  split; [exact K|]. split.
  - rewrite result_run, document_count_run. cbn [fst]. now rewrite L.
  - rewrite L. specialize (F (Dict.keys (KG.documents idx))). fold fresh in F.
    lia.
Qed.

(** ** Invariants of the stores a program can reach *)

Lemma filed_set doc d :
  Reach.filed_by_id d -> Reach.filed_by_id (Dict.set (Document.id doc) doc d).
Proof.
  unfold Reach.filed_by_id. induction 1 as [|[k v] d Hkv Hd IH]; cbn.
  - repeat constructor.
  - destruct (String.eqb_spec k (Document.id doc)) as [->|Hne].
    + constructor; [reflexivity|assumption].
    + constructor; assumption.
Qed.

Lemma filed_store_all docs : forall d,
  Reach.filed_by_id d -> Reach.filed_by_id (Spec.store_all docs d).
Proof.
  induction docs as [|doc docs IH]; intros d H; [exact H|].
  apply IH. now apply filed_set.
Qed.

Lemma filed_remove k d :
  Reach.filed_by_id d -> Reach.filed_by_id (Dict.remove k d).
Proof.
  unfold Reach.filed_by_id. induction 1 as [|[k' v] d Hkv Hd IH]; cbn.
  - constructor.
  - destruct (String.eqb k' k); [assumption|]. now constructor.
Qed.

Lemma exec_sound c idx : Reach.sound idx -> Reach.sound (Calls.exec c idx).
Proof.
  intros [Hwf [Hf He]]. unfold Reach.sound.
  destruct c; cbn [Calls.exec].
  - rewrite add_documents_after. cbn [KG.documents KG.indexed].
    split; [now apply store_all_wf|]. split; [now apply filed_store_all|].
    discriminate.
  - rewrite after_run. unfold Py.run. rewrite query_run. cbn [snd]. auto.
  - cbn. auto.
  - cbn. auto.
  - cbn. split; [constructor|]. split; [constructor|reflexivity].
  - cbn. auto.
  - rewrite synthesize_state. auto.
  - rewrite after_run.
    pose proof (ingest_text_run content title source metadata now idx) as E.
    cbv zeta in E. rewrite E. cbn [snd KG.documents KG.indexed].
    split; [now apply dict_wf_set|]. split; [now apply filed_set|].
    discriminate.
  - rewrite after_run, ingest_batch_run.
    destruct (Py.fold_each _ _ _ _) as [[docs|e] st]; cbn [snd]; [|auto].
    cbn [KG.documents KG.indexed].
    split; [now apply store_all_wf|]. split; [now apply filed_store_all|].
    discriminate.
  - rewrite after_run, delete_document_run.
    destruct (Dict.get doc_id (KG.documents idx)) eqn:G; cbn [snd]; [|auto].
    cbn [KG.documents KG.indexed].
    split; [now apply dict_wf_remove|]. split; [now apply filed_remove|].
    intro Hi. rewrite (He Hi) in G. discriminate.
Qed.

Lemma reachable_sound idx : Reach.reachable idx -> Reach.sound idx.
Proof.
  intros [calls ->]. unfold Calls.exec_all.
  assert (H0 : Reach.sound KG.init).
  { split; [constructor|]. split; [constructor|reflexivity]. }
  revert H0. generalize KG.init.
  induction calls as [|c calls IH]; intros idx H; cbn [fold_left];
    [exact H|].
  apply IH. now apply exec_sound.
Qed.

Lemma dict_get_of_entry {V} (k : string) (v : V) (d : Dict.t V) :
  Dict.wf d -> In (k, v) d -> Dict.get k d = Some v.
Proof.
  unfold Dict.wf. induction d as [|[k' v'] d IH]; cbn; intros Hwf Hin;
    [contradiction|].
  inversion Hwf as [|? ? Hout Hd]; subst.
  destruct Hin as [E|Hin].
  - injection E as -> ->. now rewrite String.eqb_refl.
  - destruct (String.eqb_spec k' k) as [->|Hne]; [|now apply IH].
    exfalso. apply Hout. apply in_map_iff. now exists (k, v).
Qed.

Lemma dict_entry_of_get {V} (k : string) (v : V) (d : Dict.t V) :
  Dict.get k d = Some v -> exists k', String.eqb k' k = true /\ In (k', v) d.
Proof.
  induction d as [|[k' v'] d IH]; cbn; [discriminate|].
  destruct (String.eqb k' k) eqn:E.
  - intros [= ->]. exists k'. auto.
  - intro H. destruct (IH H) as [k0 [E0 Hin]]. exists k0. auto.
Qed.

(** X3.  In every store reached from a fresh one by calls of the index, the
    engine, the ingestor and the deletion endpoint, no two stored documents
    have the same id, [get_document] under the id of a stored document
    returns that document, a document returned by [get_document] has the
    id it was asked under and is among the listed ones, and
    [document_count] is the number of distinct ids. *)
Theorem reachable_stores_are_filed_by_id :
  forall idx : KG.t,
    Reach.reachable idx ->
    let stored := Dict.values (KG.documents idx) in
    NoDup (map Document.id stored) /\
    (forall doc : Document.t,
       In doc stored ->
       Py.result (KG.get_document (Document.id doc)) idx = Return (Some doc)) /\
    (forall (doc_id : string) (doc : Document.t),
       Py.result (KG.get_document doc_id) idx = Return (Some doc) ->
       Document.id doc = doc_id /\ In doc stored) /\
    Py.result KG.document_count idx
    = Return (Z.of_nat (List.length (nodup string_dec (map Document.id stored)))).
Proof.
  intros idx Hr stored. destruct (reachable_sound idx Hr) as [Hwf [Hf _]].
  assert (Hids : map Document.id stored = Dict.keys (KG.documents idx)).
  { unfold stored, Dict.values, Dict.keys. rewrite map_map.
    apply map_ext_in. intros kv Hin. unfold Reach.filed_by_id in Hf.
    rewrite Forall_forall in Hf. symmetry. now apply Hf. }
  split; [now rewrite Hids|]. split; [|split].
  - intros doc Hin. rewrite result_run, get_document_run. cbn [fst]. f_equal.
    apply in_map_iff in Hin as [[k v] [E Hin]]. cbn in E. subst v.
    unfold Reach.filed_by_id in Hf. rewrite Forall_forall in Hf.
    pose proof (Hf _ Hin) as Hk. cbn in Hk. subst k.
    now apply dict_get_of_entry.
  - intros doc_id doc H. rewrite result_run, get_document_run in H.
    cbn [fst] in H. injection H as H.
    destruct (dict_entry_of_get _ _ _ H) as [k [E Hin]].
    apply String.eqb_eq in E. subst k.
    unfold Reach.filed_by_id in Hf. rewrite Forall_forall in Hf.
    pose proof (Hf _ Hin) as Hk. cbn in Hk. split; [now symmetry|].
    apply in_map_iff. now exists (doc_id, doc).
  - rewrite result_run, document_count_run. cbn [fst]. f_equal.
    unfold Dict.len. f_equal. rewrite Hids, nodup_fixed_point by exact Hwf.
    unfold Dict.keys. now rewrite length_map.
Qed.

(** The populated index of the test suite: its four ids are distinct and
    [doc3] is found under its id. *)
Lemma reachable_stores_are_filed_by_id_witness :
  Reach.reachable Examples.populated /\
  NoDup
    (map Document.id (Dict.values (KG.documents Examples.populated))) /\
  Py.result (KG.get_document "doc3") Examples.populated
  = Return (Some Examples.doc3).
Proof.
  assert (Hr : Reach.reachable Examples.populated).
  { exists [Calls.AddDocuments [Examples.doc1; Examples.doc2; Examples.doc3];
            Calls.AddDocuments [Examples.doc4]].
    reflexivity. }
  split; [exact Hr|].
  destruct (reachable_stores_are_filed_by_id Examples.populated Hr)
    as [Hnd [Hget _]].
  split; [exact Hnd|].
  apply (Hget Examples.doc3). right. right. left. reflexivity.
Defined.

(** ** The guard on reachable stores *)

(** X4.  In a store reached from a fresh one, a flag that is down means
    that no document is stored.  So on these stores the guard of [query]
    changes no result: with the flag up or down, [query] returns the slice
    of the ranking of the matching documents. *)
Theorem guard_only_fires_on_empty_stores :
  forall (idx : KG.t) (text : string) (top_k : Z),
    Reach.reachable idx ->
    (KG.indexed idx = false -> Py.result KG.list_documents idx = Return []) /\
    Py.run (KG.query text top_k) idx
    = (Return
         (PyList.slice_to top_k
            (PyList.sort_desc (Spec.term_score (Spec.terms_of text))
               (Spec.matching (Spec.terms_of text)
                  (Dict.values (KG.documents idx))))),
       idx).
Proof.
  intros idx text top_k Hr. destruct (reachable_sound idx Hr) as [_ [_ He]].
  split.
  - intro Hi. rewrite result_run, list_documents_run. cbn [fst].
    now rewrite (He Hi).
  - unfold Py.run. rewrite query_run.
    destruct (KG.indexed idx); [reflexivity|].
    rewrite (He eq_refl). cbn. now rewrite slice_to_nil.
Qed.

(** A store emptied by [clear]: the flag is down and nothing is listed. *)
Lemma guard_only_fires_on_empty_stores_witness :
  Reach.reachable (Calls.exec Calls.Clear Examples.populated) /\
  Py.result KG.list_documents (Calls.exec Calls.Clear Examples.populated)
  = Return [].
Proof.
  assert (Hr : Reach.reachable (Calls.exec Calls.Clear Examples.populated)).
  { exists [Calls.AddDocuments [Examples.doc1; Examples.doc2; Examples.doc3];
            Calls.AddDocuments [Examples.doc4]; Calls.Clear].
    reflexivity. }
  split; [exact Hr|].
  exact (proj1 (guard_only_fires_on_empty_stores _ "learning" 5%Z Hr) eq_refl).
Defined.

(** ** Deletion *)

Section DictRemove.

Context {V : Type}.
Implicit Types (d : Dict.t V) (k : string).

Lemma dict_get_remove_same k d :
  Dict.wf d -> Dict.get k (Dict.remove k d) = None.
Proof.
  unfold Dict.wf. induction d as [|[k' v'] d IH]; cbn; intro H;
    [reflexivity|].
  inversion H as [|? ? Hout Hd]; subst.
  destruct (String.eqb_spec k' k) as [->|Hne].
  - destruct (Dict.get k d) eqn:G; [|reflexivity].
    exfalso. apply Hout. apply dict_get_in. congruence.
  - cbn. destruct (String.eqb_spec k' k); [contradiction|]. now apply IH.
Qed.

Lemma dict_get_remove_other k k' d :
  k' <> k -> Dict.get k' (Dict.remove k d) = Dict.get k' d.
Proof.
  intro Hne. induction d as [|[k0 v0] d IH]; cbn; [reflexivity|].
  destruct (String.eqb_spec k0 k) as [->|H0].
  - destruct (String.eqb_spec k k'); [congruence|reflexivity].
  - cbn. now rewrite IH.
Qed.

Lemma dict_len_remove k d :
  Dict.get k d <> None -> Dict.len (Dict.remove k d) = (Dict.len d - 1)%Z.
Proof.
  unfold Dict.len. induction d as [|[k0 v0] d IH]; cbn [Dict.get Dict.remove];
    intro H; [contradiction|].
  destruct (String.eqb k0 k).
  - cbn [List.length]. lia.
  - cbn [List.length]. specialize (IH H).
    assert (0 < List.length d)%nat.
    { destruct d; [cbn in H; contradiction|cbn; lia]. }
    lia.
Qed.

End DictRemove.

(** X5.  On a store with distinct keys, [delete_document] of an id that is
    present removes that entry and nothing else: the id is no longer found,
    every other id is found as before, the count drops by one and the
    [indexed] flag is untouched; fetching or deleting the id again raises
    the 404 exception.  For an id that is absent it raises the 404
    exception and leaves the store as it was. *)
Theorem delete_document_removes_one_entry :
  forall (idx : KG.t) (doc_id : string),
    Dict.wf (KG.documents idx) ->
    let not_found :=
      HTTPException 404 ("Document with ID '" ++ doc_id ++ "' not found") in
    match Dict.get doc_id (KG.documents idx) with
    | Some _ =>
        exists idx' : KG.t,
          Py.run (Api.delete_document doc_id) idx = (Return tt, idx') /\
          Py.result (KG.get_document doc_id) idx' = Return None /\
          (forall other : string,
             other <> doc_id ->
             Py.result (KG.get_document other) idx'
             = Py.result (KG.get_document other) idx) /\
          Dict.len (KG.documents idx') = (Dict.len (KG.documents idx) - 1)%Z /\
          KG.indexed idx' = KG.indexed idx /\
          Py.run (Main.get_document doc_id) idx' = (Raise not_found, idx') /\
          Py.run (Api.delete_document doc_id) idx' = (Raise not_found, idx')
    | None =>
        Py.run (Api.delete_document doc_id) idx = (Raise not_found, idx)
    end.
Proof.
  intros idx doc_id Hwf not_found.
  pose proof (delete_document_run doc_id idx) as E.
  destruct (Dict.get doc_id (KG.documents idx)) as [doc|] eqn:G; [|exact E].
  eexists. split; [exact E|].
  assert (N : Dict.get doc_id (Dict.remove doc_id (KG.documents idx)) = None)
    by now apply dict_get_remove_same.
  split; [|split; [|split; [|split; [|split]]]].
  - rewrite result_run, get_document_run. cbn [fst KG.documents]. now rewrite N.
  - intros other Hne. rewrite !result_run, !get_document_run.
    cbn [fst KG.documents]. now rewrite dict_get_remove_other.
  - cbn [KG.documents]. apply dict_len_remove. congruence.
  - reflexivity.
  - unfold Py.run, Main.get_document, Py.bind.
    pose proof (get_document_run doc_id
                  (KG.mk (Dict.remove doc_id (KG.documents idx))
                     (KG.indexed idx))) as E'.
    unfold Py.run in E'. rewrite E'. cbn [KG.documents]. now rewrite N.
  - rewrite delete_document_run. cbn [KG.documents]. now rewrite N.
Qed.

(** Deleting [doc2] from the populated index, and an unknown id. *)
Lemma delete_document_removes_one_entry_witness :
  Dict.wf (KG.documents Examples.populated) /\
  (exists idx' : KG.t,
     Py.run (Api.delete_document "doc2") Examples.populated = (Return tt, idx') /\
     Py.result (KG.get_document "doc2") idx' = Return None /\
     Dict.len (KG.documents idx') = 3%Z) /\
  Py.run (Api.delete_document "nonexistent") Examples.populated
  = (Raise (HTTPException 404 "Document with ID 'nonexistent' not found"),
     Examples.populated).
Proof.
  assert (Hwf : Dict.wf (KG.documents Examples.populated)).
  { unfold Dict.wf. vm_compute.
    repeat constructor; simpl; intuition discriminate. }
  split; [exact Hwf|]. split.
  - destruct (delete_document_removes_one_entry Examples.populated "doc2" Hwf)
      as [idx' [Hrun [Hget [_ [Hlen _]]]]].
    exists idx'. split; [exact Hrun|]. split; [exact Hget|]. exact Hlen.
  - exact (delete_document_removes_one_entry Examples.populated "nonexistent"
             Hwf).
Defined.

(** ** Derived ids *)

Lemma le_bytes_length n : forall x, List.length (MD5.le_bytes n x) = n.
Proof. induction n as [|n IH]; intro x; cbn; [reflexivity|]. now rewrite IH. Qed.

Lemma le_bytes_range n : forall x,
  Forall (fun b => 0 <= b < 256)%Z (MD5.le_bytes n x).
Proof.
  induction n as [|n IH]; intro x; cbn; constructor; [|apply IH].
  apply Z.mod_pos_bound. lia.
Qed.

Lemma digest_length msg : List.length (MD5.digest msg) = 16.
Proof.
  unfold MD5.digest.
  destruct (MD5.blocks _ _ _) as [[[a b] c] d].
  now rewrite !length_app, !le_bytes_length.
Qed.

Lemma digest_range msg : Forall (fun b => 0 <= b < 256)%Z (MD5.digest msg).
Proof.
  unfold MD5.digest.
  destruct (MD5.blocks _ _ _) as [[[a b] c] d].
  repeat (apply Forall_app; split); apply le_bytes_range.
Qed.

Lemma hex_length bs : String.length (MD5.hex bs) = 2 * List.length bs.
Proof. induction bs as [|b bs IH]; cbn; [reflexivity|]. rewrite IH. lia. Qed.

Lemma hex_digit_in n :
  (0 <= n < 16)%Z ->
  In (MD5.hex_digit n) (list_ascii_of_string "0123456789abcdef").
Proof.
  intro H. assert (E : exists k, (k < 16)%nat /\ n = Z.of_nat k).
  { exists (Z.to_nat n). split; lia. }
  destruct E as [k [Hk ->]].
  do 16 (destruct k as [|k]; [cbn; tauto|]). lia.
Qed.

Lemma hex_chars bs :
  Forall (fun b => 0 <= b < 256)%Z bs ->
  Forall (fun c => In c (list_ascii_of_string "0123456789abcdef"))
    (list_ascii_of_string (MD5.hex bs)).
Proof.
  induction 1 as [|b bs Hb Hbs IH]; cbn [MD5.hex list_ascii_of_string];
    [constructor|].
  constructor; [|constructor; [|exact IH]]; apply hex_digit_in.
  - split; [apply Z.div_pos; lia|apply Z.div_lt_upper_bound; lia].
  - apply Z.mod_pos_bound. lia.
Qed.

(** X6.  A document never has an empty id after construction.  An id that
    is passed in is kept; an empty one is replaced by 32 characters, each
    one of [0123456789abcdef]; running [__post_init__] again changes
    nothing. *)
Theorem derived_ids_are_32_hex_digits :
  forall (id content title source : string) (metadata : Dict.t pyval)
         (now : Datetime.t),
    let doc := Document.new id content title source metadata now in
    Document.id doc <> "" /\
    (id <> "" -> Document.id doc = id) /\
    (id = "" ->
     String.length (Document.id doc) = 32 /\
     Forall (fun c => In c (list_ascii_of_string "0123456789abcdef"))
       (list_ascii_of_string (Document.id doc))) /\
    Document.post_init doc = doc.
Proof.
  intros id content title source metadata now doc.
  assert (L : String.length (MD5.hexdigest content) = 32).
  { unfold MD5.hexdigest. now rewrite hex_length, digest_length. }
  destruct id as [|c id].
  - assert (E : doc = Document.mk (MD5.hexdigest content) content title source
                        metadata now) by reflexivity.
    assert (Hne : MD5.hexdigest content <> "").
    { intro H. rewrite H in L. discriminate. }
    split; [now rewrite E|]. split; [now intros []|]. split.
    + intros _. rewrite E. cbn [Document.id]. split; [exact L|].
      apply hex_chars, digest_range.
    + rewrite E. unfold Document.post_init. cbn [Document.id].
      destruct (MD5.hexdigest content); [contradiction|reflexivity].
  - split; [discriminate|]. split; [reflexivity|]. split; [discriminate|].
    reflexivity.
Qed.

(** ** Single ingestion *)

Lemma dict_len_set_new {V} (k : string) (v : V) (d : Dict.t V) :
  ~ In k (Dict.keys d) -> Dict.len (Dict.set k v d) = (Dict.len d + 1)%Z.
Proof.
  intro H. unfold Dict.len.
  rewrite <- (length_map fst (Dict.set k v d)), <- (length_map fst d).
  change (map fst (Dict.set k v d)) with (Dict.keys (Dict.set k v d)).
  rewrite dict_keys_set_new by assumption. rewrite length_app.
  unfold Dict.keys. cbn. lia.
Qed.

(** X7.  [ingest_text] returns a document with the digest of the content as
    id, the content and title passed in, the source or else [manual], the
    metadata or else an empty dictionary, and the clock reading.  After the
    call the document is found under its id, every other id is found as
    before, the count has grown by one if the id was new and not at all if
    it was present, and the [indexed] flag is up. *)
Theorem ingest_text_files_under_digest :
  forall (idx : KG.t) (content title : string) (source : option string)
         (metadata : option (Dict.t pyval)) (now : Datetime.t),
    let key := MD5.hexdigest content in
    exists (doc : Document.t) (idx' : KG.t),
      Py.run (DocumentIngestor.ingest_text content title source metadata now)
        idx
      = (Return doc, idx') /\
      Document.id doc = key /\
      Document.content doc = content /\
      Document.title doc = title /\
      Document.source doc
      = match source with Some s => s | None => "manual" end /\
      Document.metadata doc
      = match metadata with Some m => m | None => [] end /\
      Document.created_at doc = now /\
      Py.result (KG.get_document key) idx' = Return (Some doc) /\
      (forall other : string,
         other <> key ->
         Py.result (KG.get_document other) idx'
         = Py.result (KG.get_document other) idx) /\
      Dict.len (KG.documents idx')
      = (Dict.len (KG.documents idx)
         + match Dict.get key (KG.documents idx) with
           | Some _ => 0
           | None => 1
           end)%Z /\
      KG.indexed idx' = true.
Proof.
  intros idx content title source metadata now key.
  pose proof (ingest_text_run content title source metadata now idx) as E.
  cbv zeta in E. eexists _, _. split; [exact E|].
  rewrite new_id_of_content. fold key.
  split; [reflexivity|]. split; [reflexivity|]. split; [reflexivity|].
  split; [now destruct source|].
  split; [now destruct metadata as [[|]|]|].
  split; [reflexivity|]. split; [|split; [|split]].
  - rewrite result_run, get_document_run. cbn [fst KG.documents].
    now rewrite dict_get_set.
  - intros other Hne. rewrite !result_run, !get_document_run.
    cbn [fst KG.documents]. now rewrite dict_get_set_other.
  - cbn [KG.documents].
    destruct (Dict.get key (KG.documents idx)) eqn:G.
    + rewrite dict_len_set_in; [lia|]. apply dict_get_in. congruence.
    + rewrite dict_len_set_new; [lia|]. intro Hin. apply dict_get_in in Hin.
      contradiction.
  - reflexivity.
Qed.

(** ** Size of a query result *)

Lemma sort_desc_length {A} (key : A -> Z) (l : list A) :
  List.length (PyList.sort_desc key l) = List.length l.
Proof. symmetry. apply Permutation_length, sort_desc_perm. Qed.

Lemma slice_to_length {A} (k : Z) (l : list A) :
  List.length (PyList.slice_to k l)
  = if (0 <=? k)%Z then Nat.min (Z.to_nat k) (List.length l)
    else List.length l - Z.to_nat (- k).
Proof.
  unfold PyList.slice_to. destruct (Z.leb_spec 0 k); rewrite length_firstn; lia.
Qed.

(** X8.  The number of documents [query] returns: none when the flag is
    down; for a bound [top_k >= 0] the smaller of [top_k] and the number of
    matching documents; for a negative bound the number of matching
    documents less [-top_k], or none.  It never exceeds a non-negative
    bound, nor the number of stored documents. *)
Theorem query_result_size :
  forall (idx : KG.t) (text : string) (top_k : Z),
    let matches :=
      List.length
        (Spec.matching (Spec.terms_of text) (Dict.values (KG.documents idx))) in
    exists docs : list Document.t,
      Py.result (KG.query text top_k) idx = Return docs /\
      List.length docs
      = (if KG.indexed idx then
           if (0 <=? top_k)%Z then Nat.min (Z.to_nat top_k) matches
           else matches - Z.to_nat (- top_k)
         else 0) /\
      (0 <= top_k -> Z.of_nat (List.length docs) <= top_k)%Z /\
      (Z.of_nat (List.length docs) <= Dict.len (KG.documents idx))%Z.
Proof.
  intros idx text top_k matches. unfold Py.result. rewrite query_run.
  eexists. split; [reflexivity|].
  assert (M : matches <= List.length (KG.documents idx)).
  { unfold matches, Spec.matching, Dict.values.
    etransitivity; [apply filter_length_le|]. now rewrite length_map. }
  assert (L : List.length
                (if KG.indexed idx
                 then PyList.slice_to top_k
                        (PyList.sort_desc (Spec.term_score (Spec.terms_of text))
                           (Spec.matching (Spec.terms_of text)
                              (Dict.values (KG.documents idx))))
                 else [])
              = (if KG.indexed idx then
                   if (0 <=? top_k)%Z then Nat.min (Z.to_nat top_k) matches
                   else matches - Z.to_nat (- top_k)
                 else 0)).
  { destruct (KG.indexed idx); [|reflexivity].
    now rewrite slice_to_length, sort_desc_length. }
  split; [exact L|]. rewrite L. unfold Dict.len.
  destruct (KG.indexed idx); destruct (Z.leb_spec 0 top_k); split; lia.
Qed.

(** ** Order of the query terms *)

Lemma term_score_perm (t1 t2 : list string) (doc : Document.t) :
  Permutation t1 t2 -> Spec.term_score t1 doc = Spec.term_score t2 doc.
Proof.
  unfold Spec.term_score. intro H. f_equal.
  induction H as [|x l l' H IH|x y l|l l' l'' H1 IH1 H2 IH2]; cbn.
  - reflexivity.
  - destruct (Spec.present doc x); cbn; now rewrite IH.
  - destruct (Spec.present doc x), (Spec.present doc y); reflexivity.
  - congruence.
Qed.

Lemma matching_perm (t1 t2 : list string) (docs : list Document.t) :
  Permutation t1 t2 -> Spec.matching t1 docs = Spec.matching t2 docs.
Proof.
  intro H. unfold Spec.matching. apply filter_ext. intro doc.
  induction H as [|x l l' H IH|x y l|l l' l'' H1 IH1 H2 IH2]; cbn.
  - reflexivity.
  - now rewrite IH.
  - now destruct (Spec.present doc x), (Spec.present doc y).
  - congruence.
Qed.

Lemma sort_desc_ext {A} (f g : A -> Z) (l : list A) :
  (forall a, f a = g a) -> PyList.sort_desc f l = PyList.sort_desc g l.
Proof.
  intro H. induction l as [|x l IH]; [reflexivity|]. cbn. rewrite IH.
  generalize (PyList.sort_desc g l). intro r.
  induction r as [|y r IHr]; [reflexivity|]. cbn. now rewrite !H, IHr.
Qed.

(** X9.  Two query texts whose term lists are rearrangements of each other
    give the same result on every store: the order of the words of a
    query, and the white space between them, do not matter. *)
Theorem query_ignores_term_order :
  forall (idx : KG.t) (text1 text2 : string) (top_k : Z),
    Permutation (Spec.terms_of text1) (Spec.terms_of text2) ->
    Py.run (KG.query text1 top_k) idx = Py.run (KG.query text2 top_k) idx.
Proof.
  intros idx text1 text2 top_k H. unfold Py.run. rewrite !query_run.
  rewrite (matching_perm _ _ _ H).
  rewrite (sort_desc_ext (Spec.term_score (Spec.terms_of text1))
             (Spec.term_score (Spec.terms_of text2))); [reflexivity|].
  intro doc. now apply term_score_perm.
Qed.

(** The terms of the ranking test, written in another order. *)
Lemma query_ignores_term_order_witness :
  Permutation (Spec.terms_of "deep machine learning")
    (Spec.terms_of "machine learning deep") /\
  Py.run (KG.query "deep machine learning" 5) Examples.populated
  = Py.run (KG.query "machine learning deep" 5) Examples.populated.
Proof.
  assert (H : Permutation (Spec.terms_of "deep machine learning")
                (Spec.terms_of "machine learning deep")).
  { vm_compute. apply perm_trans with ["machine"; "deep"; "learning"].
    - apply perm_swap.
    - apply perm_skip, perm_swap. }
  split; [exact H|].
  exact (query_ignores_term_order Examples.populated _ _ 5%Z H).
Defined.

(** ** Case and surrounding white space of a query *)

Lemma lower_char_idempotent c :
  Str.lower_char (Str.lower_char c) = Str.lower_char c.
Proof. destruct c as [[] [] [] [] [] [] [] []]; reflexivity. Qed.

Lemma lower_idempotent s : Str.lower (Str.lower s) = Str.lower s.
Proof.
  induction s as [|c s IH]; cbn; [reflexivity|].
  now rewrite lower_char_idempotent, IH.
Qed.

Lemma lower_lstrip s : Str.lower (Str.lstrip s) = Str.lstrip (Str.lower s).
Proof.
  induction s as [|c s IH]; cbn; [reflexivity|].
  rewrite isspace_lower_char. now destruct (Str.isspace c).
Qed.

Lemma lower_rstrip s : Str.lower (Str.rstrip s) = Str.rstrip (Str.lower s).
Proof.
  induction s as [|c s IH]; cbn; [reflexivity|].
  rewrite <- IH, isspace_lower_char.
  destruct (Str.rstrip s) as [|d r]; cbn; [|reflexivity].
  now destruct (Str.isspace c).
Qed.

Lemma lower_strip s : Str.lower (Str.strip s) = Str.strip (Str.lower s).
Proof. unfold Str.strip. now rewrite lower_rstrip, lower_lstrip. Qed.

Lemma split_lstrip s : Str.split (Str.lstrip s) = Str.split s.
Proof.
  unfold Str.split. induction s as [|c s IH]; cbn; [reflexivity|].
  destruct (Str.isspace c) eqn:E; [exact IH|]. cbn. now rewrite E.
Qed.

Lemma split_from_spaces cur s :
  Str.all_space s = true ->
  Str.split_from cur s = match cur with "" => [] | _ => [cur] end.
Proof.
  induction s as [|c s IH]; cbn; intro H; [reflexivity|].
  apply andb_true_iff in H as [Hc Hs]. rewrite Hc.
  destruct cur; [now apply split_from_nil|]. now rewrite split_from_nil.
Qed.

Lemma append_cons_not_empty cur c : cur ++ String c "" <> "".
Proof. now destruct cur. Qed.

Lemma split_from_step cur c s :
  Str.split_from cur (String c s)
  = if Str.isspace c then
      match cur with
      | "" => Str.split_from "" s
      | _ => cur :: Str.split_from "" s
      end
    else Str.split_from (cur ++ String c "") s.
Proof. reflexivity. Qed.

Lemma split_from_rstrip s : forall cur,
  Str.split_from cur (Str.rstrip s) = Str.split_from cur s.
Proof.
  induction s as [|c s IH]; intro cur; [reflexivity|].
  cbn [Str.rstrip].
  destruct (Str.rstrip s) as [|d r] eqn:R.
  - assert (Hs : Str.all_space s = true).
    { rewrite <- rstrip_falsy, R. reflexivity. }
    destruct (Str.isspace c) eqn:E; cbn; rewrite E.
    + rewrite (split_from_nil s Hs). now destruct cur.
    + rewrite (split_from_spaces _ s Hs).
      destruct (cur ++ String c "") eqn:A; [|reflexivity].
      now apply append_cons_not_empty in A.
  - rewrite (split_from_step cur c (String d r)), (split_from_step cur c s).
    destruct (Str.isspace c).
    + rewrite (IH ""). reflexivity.
    + apply IH.
Qed.

Lemma split_strip s : Str.split (Str.strip s) = Str.split s.
Proof.
  unfold Str.strip, Str.split at 1. rewrite split_from_rstrip.
  apply split_lstrip.
Qed.

(** X10.  Writing a query in lower case, or stripping the white space
    around it, changes nothing: on every store the result and the store
    afterwards are the same as for the text as given. *)
Theorem query_ignores_case_and_outer_space :
  forall (idx : KG.t) (text : string) (top_k : Z),
    Py.run (KG.query (Str.lower text) top_k) idx
    = Py.run (KG.query text top_k) idx /\
    Py.run (KG.query (Str.strip text) top_k) idx
    = Py.run (KG.query text top_k) idx.
Proof.
  intros idx text top_k. unfold Py.run. rewrite !query_run.
  unfold Spec.terms_of. rewrite lower_idempotent, lower_strip, split_strip.
  split; reflexivity.
Qed.

(** ** Terms and empty contents *)

Lemma split_from_not_empty s : forall cur,
  Forall (fun term => term <> "") (Str.split_from cur s).
Proof.
  induction s as [|c s IH]; intro cur; cbn.
  - destruct cur; repeat constructor. discriminate.
  - destruct (Str.isspace c); [|apply IH].
    destruct cur; [apply IH|]. constructor; [discriminate|apply IH].
Qed.

Lemma lower_append a b : Str.lower (a ++ b) = Str.lower a ++ Str.lower b.
Proof. induction a as [|c a IH]; cbn; [reflexivity|]. now rewrite IH. Qed.

Lemma split_from_lower s : forall cur,
  Str.lower cur = cur -> Str.lower s = s ->
  Forall (fun term => Str.lower term = term) (Str.split_from cur s).
Proof.
  induction s as [|c s IH]; intros cur Hc Hs; cbn.
  - destruct cur; repeat constructor. exact Hc.
  - cbn in Hs. injection Hs as Hch Hs.
    destruct (Str.isspace c).
    + destruct cur; [now apply IH|]. constructor; [exact Hc|now apply IH].
    + apply IH; [|exact Hs]. rewrite lower_append. cbn. now rewrite Hc, Hch.
Qed.

(** No character of the string is white space. *)
Lemma split_from_no_space s : forall cur,
  (forall c, In c (list_ascii_of_string cur) -> Str.isspace c = false) ->
  Forall
    (fun term =>
       forall c, In c (list_ascii_of_string term) -> Str.isspace c = false)
    (Str.split_from cur s).
Proof.
  induction s as [|c s IH]; intros cur H; cbn.
  - destruct cur; repeat constructor. exact H.
  - destruct (Str.isspace c) eqn:E.
    + assert (H0 : forall c0, In c0 (list_ascii_of_string "")
                              -> Str.isspace c0 = false) by (intros ? []).
      destruct cur; [now apply IH|]. constructor; [exact H|now apply IH].
    + apply IH. intros c0 Hin.
      assert (A : list_ascii_of_string (cur ++ String c "")
                  = (list_ascii_of_string cur ++ [c])%list).
      { clear. induction cur as [|d cur IHc]; cbn; [reflexivity|].
        now rewrite IHc. }
      rewrite A in Hin. apply in_app_iff in Hin as [Hin|[<-|[]]]; auto.
Qed.

Lemma in_slice_to {A} (k : Z) (l : list A) (x : A) :
  In x (PyList.slice_to k l) -> In x l.
Proof.
  unfold PyList.slice_to. intro H.
  destruct (0 <=? k)%Z;
    match type of H with
    | In _ (firstn ?n _) =>
        rewrite <- (firstn_skipn n l); apply in_or_app; now left
    end.
Qed.

(** X11.  Every term a query text splits into is non-empty, in lower case
    and free of white space.  So a document whose content is empty
    contains no term, and [query] never returns one. *)
Theorem query_terms_and_empty_contents :
  forall (idx : KG.t) (text : string) (top_k : Z),
    Forall
      (fun term =>
         term <> "" /\
         Str.lower term = term /\
         forall c, In c (list_ascii_of_string term) -> Str.isspace c = false)
      (Spec.terms_of text) /\
    forall docs : list Document.t,
      Py.result (KG.query text top_k) idx = Return docs ->
      Forall (fun doc => Document.content doc <> "") docs.
Proof.
  intros idx text top_k.
  assert (T : Forall (fun term => term <> "") (Spec.terms_of text))
    by apply split_from_not_empty.
  split.
  - apply Forall_forall. intros term Hin. split; [|split].
    + rewrite Forall_forall in T. now apply T.
    + pose proof (split_from_lower (Str.lower text) "" eq_refl
                    (lower_idempotent text)) as L.
      rewrite Forall_forall in L. now apply L.
    + pose proof (split_from_no_space (Str.lower text) "" ltac:(intros ? []))
        as N. rewrite Forall_forall in N. now apply N.
  - intros docs H. unfold Py.result in H. rewrite query_run in H.
    cbn [fst] in H. injection H as <-.
    apply Forall_forall. intros doc Hin E.
    assert (Hm : In doc (Spec.matching (Spec.terms_of text)
                           (Dict.values (KG.documents idx)))).
    { destruct (KG.indexed idx); [|contradiction].
      apply in_slice_to in Hin.
      eapply Permutation_in; [|exact Hin].
      symmetry. apply sort_desc_perm. }
    apply filter_In in Hm as [_ Hex].
    apply existsb_exists in Hex as [term [Ht Hp]].
    rewrite Forall_forall in T. specialize (T term Ht).
    unfold Spec.present in Hp. rewrite E in Hp. cbn in Hp.
    destruct term; [contradiction|discriminate].
Qed.

(** ** Shape of a synthesis result *)

Lemma query_default_size idx query docs :
  Py.result (KG.query query KG.default_top_k) idx = Return docs ->
  List.length docs <= 5 /\
  Forall (fun doc => In doc (Dict.values (KG.documents idx))) docs.
Proof.
  intro H. unfold Py.result in H. rewrite query_run in H. cbn [fst] in H.
  injection H as <-. destruct (KG.indexed idx); [|split; [cbn; lia|constructor]].
  split.
  - rewrite slice_to_length. cbn. lia.
  - apply Forall_forall. intros doc Hin. apply in_slice_to in Hin.
    eapply Permutation_in in Hin; [|symmetry; apply sort_desc_perm].
    now apply filter_In in Hin.
Qed.

Lemma append_assoc (a b c : string) : (a ++ b) ++ c = a ++ b ++ c.
Proof. induction a as [|x a IH]; cbn; [reflexivity|]. now rewrite IH. Qed.

(** X12.  Every [synthesize] call returns normally and leaves the store
    alone; the result echoes the query and its sources are the context
    documents (at most five stored documents when none are passed in).
    Either the sources are empty and the result is the no-results value,
    or they are not, and then the metadata is [status = success], the
    number of sources and the timestamp, and the response opens with the
    header line for the query; it is never the sentence that
    [_generate_response] keeps for an empty list of pieces. *)
Theorem synthesize_result_is_consistent :
  forall (idx : KG.t) (query : string) (ctx : option (list Document.t))
         (now : Datetime.t),
    exists result : SynthesisResult.t,
      Py.run (QueryEngine.synthesize query ctx now) idx = (Return result, idx) /\
      SynthesisResult.query result = query /\
      Spec.context_is idx query ctx (SynthesisResult.sources result) /\
      (ctx = None ->
       List.length (SynthesisResult.sources result) <= 5 /\
       Forall (fun doc => In doc (Dict.values (KG.documents idx)))
         (SynthesisResult.sources result)) /\
      ((SynthesisResult.sources result = [] /\
        result = Spec.no_results query)
       \/
       (SynthesisResult.sources result <> [] /\
        SynthesisResult.metadata result
        = [ ("status", VStr "success");
            ("document_count",
             VInt (Z.of_nat (List.length (SynthesisResult.sources result))));
            ("timestamp", VStr (Datetime.isoformat now)) ] /\
        (exists findings : string,
           SynthesisResult.response result
           = "Based on the research documents, here's the synthesis for: '"
             ++ query ++ "'" ++ QueryEngine.newline ++ findings) /\
        SynthesisResult.response result <> "No relevant information found.")).
Proof.
  intros idx query ctx now.
  destruct (context_exists idx query ctx) as [docs Hctx].
  rewrite (synthesize_run _ _ _ _ _ Hctx).
  destruct docs as [|d docs].
  - eexists. split; [reflexivity|]. split; [reflexivity|].
    split; [exact Hctx|]. split.
    + intros _. split; [cbn; lia|constructor].
    + left. split; reflexivity.
  - eexists. split; [reflexivity|]. split; [reflexivity|].
    split; [exact Hctx|]. split.
    + intros ->. cbn [SynthesisResult.sources].
      now apply (query_default_size idx query).
    + right. cbn [SynthesisResult.sources SynthesisResult.metadata
                  SynthesisResult.response].
      split; [discriminate|]. split; [reflexivity|].
      assert (E : exists findings : string,
                 Spec.response_text query (d :: docs)
                 = "Based on the research documents, here's the synthesis for: '"
                   ++ query ++ "'" ++ QueryEngine.newline ++ findings).
      { unfold Spec.response_text. cbn [app Str.join].
        eexists. rewrite !append_assoc. reflexivity. }
      split; [exact E|]. destruct E as [findings ->]. discriminate.
Qed.

(** ** The ingestion endpoints *)

Lemma validate_document_spec (content title : string) :
  DocumentIngestor.validate_document content title
  = match Spec.validate content title with
    | Some e => (false, Some (Spec.message e))
    | None => (true, None)
    end.
Proof.
  unfold DocumentIngestor.validate_document, Spec.validate, Spec.blank,
    DocumentIngestor.max_size.
  rewrite !strip_falsy, !falsy_all_space, Z.gtb_ltb.
  destruct (Str.all_space content); [reflexivity|].
  destruct (Str.all_space title); [reflexivity|].
  now destruct (10000000 <? _)%Z.
Qed.

(** X13.  [POST /ingest] validates before it writes.  A request that fails
    validation raises the 400 exception with the message of the first
    failing check, and the store is as it was.  A request that passes is
    stored under the digest of its content with its title, source and
    metadata; the response echoes id, title, source and creation time, and
    [GET /documents/{id}] with the id of the response returns the
    document. *)
Theorem ingest_endpoint_validates_before_writing :
  forall (idx : KG.t) (request : Main.DocumentIngestRequest.t)
         (now : Datetime.t),
    match Requests.failure request with
    | Some e =>
        Py.run (Main.ingest_document request now) idx
        = (Raise (HTTPException 400 (Spec.message e)), idx)
    | None =>
        let doc :=
          Document.mk
            (MD5.hexdigest (Main.DocumentIngestRequest.content request))
            (Main.DocumentIngestRequest.content request)
            (Main.DocumentIngestRequest.title request)
            (Main.DocumentIngestRequest.source request)
            (Main.DocumentIngestRequest.metadata request) now in
        let idx' := Py.after (KG.add_documents [doc]) idx in
        Py.run (Main.ingest_document request now) idx
        = (Return
             (Main.DocumentIngestResponse.mk (Document.id doc)
                (Main.DocumentIngestRequest.title request)
                (Main.DocumentIngestRequest.source request)
                (Datetime.isoformat now) "Document ingested successfully"),
           idx') /\
        Py.run (Main.get_document (Document.id doc)) idx'
        = (Return (Main.document_response doc), idx')
    end.
Proof.
  intros idx [content title source metadata] now.
  unfold Requests.failure. cbn [Main.DocumentIngestRequest.content
    Main.DocumentIngestRequest.title Main.DocumentIngestRequest.source
    Main.DocumentIngestRequest.metadata].
  unfold Py.run, Main.ingest_document.
  cbn [Main.DocumentIngestRequest.content
    Main.DocumentIngestRequest.title Main.DocumentIngestRequest.source
    Main.DocumentIngestRequest.metadata].
  rewrite validate_document_spec.
  destruct (Spec.validate content title) as [e|]; [reflexivity|].
  cbn [negb]. cbv zeta.
  pose proof (ingest_text_run content title (Some source) (Some metadata) now
                idx) as E.
  cbv zeta in E. unfold Py.run in E. unfold Py.bind at 1. rewrite E.
  assert (D : Document.new "" content title
                (DocumentIngestor.get_default (Some source) "manual")
                (DocumentIngestor.or_empty (Some metadata)) now
              = Document.mk (MD5.hexdigest content) content title source
                  metadata now).
  { unfold Document.new, Document.post_init. cbn. now destruct metadata. }
  rewrite D. rewrite add_documents_after. cbn [Spec.store_all fold_left Document.id].
  split; [reflexivity|].
  unfold Main.get_document, Py.bind.
  pose proof (get_document_run (MD5.hexdigest content)
                (KG.mk (Dict.set (MD5.hexdigest content)
                          (Document.mk (MD5.hexdigest content) content title
                             source metadata now) (KG.documents idx)) true))
    as G.
  unfold Py.run in G. rewrite G. cbn [KG.documents].
  now rewrite dict_get_set.
Qed.

Lemma validate_at_run i request idx :
  Main.validate_at i request idx
  = match Requests.failure request with
    | Some e =>
        (Raise (HTTPException 400
                  ("Document " ++ Str.of_nat (i + 1) ++ ": " ++ Spec.message e)),
         idx)
    | None => (Return tt, idx)
    end.
Proof.
  unfold Main.validate_at, Requests.failure. rewrite validate_document_spec.
  now destruct (Spec.validate _ _).
Qed.

Lemma validation_loop_passes requests : forall start idx,
  Forall (fun r => Requests.failure r = None) requests ->
  Py.for_each (combine (seq start (List.length requests)) requests)
    (fun '(i, doc_request) => Main.validate_at i doc_request) idx
  = (Return tt, idx).
Proof.
  induction requests as [|r requests IH]; intros start idx H; [reflexivity|].
  inversion H as [|? ? Hr Hrest]; subst.
  cbn [List.length seq combine Py.for_each]. unfold Py.bind.
  rewrite validate_at_run, Hr. now apply IH.
Qed.

Lemma validation_loop_stops pre r post e : forall start idx,
  Forall (fun r => Requests.failure r = None) pre ->
  Requests.failure r = Some e ->
  Py.for_each
    (combine (seq start (List.length (pre ++ r :: post))) (pre ++ r :: post))
    (fun '(i, doc_request) => Main.validate_at i doc_request) idx
  = (Raise (HTTPException 400
              ("Document " ++ Str.of_nat (start + List.length pre + 1) ++ ": "
               ++ Spec.message e)),
     idx).
Proof.
  induction pre as [|r0 pre IH]; intros start idx Hpre Hr.
  - cbn [app List.length seq combine Py.for_each]. unfold Py.bind.
    rewrite validate_at_run, Hr. now rewrite Nat.add_0_r.
  - inversion Hpre as [|? ? H0 Hrest]; subst.
    cbn [app List.length seq combine Py.for_each]. unfold Py.bind.
    rewrite validate_at_run, H0.
    rewrite (IH (S start) idx Hrest Hr).
    replace (S start + List.length pre + 1)
      with (start + List.length (r0 :: pre) + 1)
      by (cbn [List.length]; lia).
    reflexivity.
Qed.

(** X14.  [POST /ingest/batch] writes all of a batch or nothing.  An empty
    batch raises the 400 exception [No documents provided].  When a
    request fails validation and all before it pass, the call raises the
    400 exception that names the position of that request, counted from
    one, and the message of its failing check; the store is as it was,
    whatever comes after the failing request.  When every request of a
    non-empty batch passes, the response counts the requests and the store
    is the one after a single [add_documents] of one document per request,
    in order. *)
Theorem batch_endpoint_is_all_or_nothing :
  (forall (clock : nat -> Datetime.t) (idx : KG.t),
     Py.run (Main.ingest_batch [] clock) idx
     = (Raise (HTTPException 400 "No documents provided"), idx)) /\
  (forall (pre post : list Main.DocumentIngestRequest.t)
          (r : Main.DocumentIngestRequest.t) (e : Spec.validation_error)
          (clock : nat -> Datetime.t) (idx : KG.t),
     Forall (fun r => Requests.failure r = None) pre ->
     Requests.failure r = Some e ->
     Py.run (Main.ingest_batch (pre ++ r :: post)%list clock) idx
     = (Raise (HTTPException 400
                 ("Document " ++ Str.of_nat (List.length pre + 1) ++ ": "
                  ++ Spec.message e)),
        idx)) /\
  (forall (requests : list Main.DocumentIngestRequest.t)
          (clock : nat -> Datetime.t) (idx : KG.t),
     requests <> [] ->
     Forall (fun r => Requests.failure r = None) requests ->
     let ingested :=
       Spec.documents_of clock 0 (map Requests.item_of requests) in
     Py.run (Main.ingest_batch requests clock) idx
     = (Return
          (Main.BatchIngestResponse.mk (Z.of_nat (List.length requests))
             (map Main.ingest_response ingested)),
        Py.after (KG.add_documents ingested) idx) /\
     List.length ingested = List.length requests).
Proof.
  split; [reflexivity|]. split.
  - intros pre post r e clock idx Hpre Hr.
    assert (F : PyList.falsy (pre ++ r :: post)%list = false)
      by now destruct pre.
    unfold Py.run, Main.ingest_batch. rewrite F. unfold Py.bind at 1.
    now rewrite (validation_loop_stops pre r post e 0 idx Hpre Hr).
  - intros requests clock idx Hne Hall ingested.
    assert (L : List.length ingested = List.length requests).
    { unfold ingested. now rewrite documents_of_length, length_map. }
    split; [|exact L].
    assert (F : PyList.falsy requests = false)
      by (destruct requests; [contradiction|reflexivity]).
    unfold Py.run, Main.ingest_batch. rewrite F. unfold Py.bind at 1.
    rewrite (validation_loop_passes requests 0 idx Hall).
    unfold Py.bind at 1.
    assert (D : map Main.to_dict requests
                = map Spec.to_data (map Requests.item_of requests)).
    { rewrite map_map. apply map_ext. now intros []. }
    rewrite D.
    pose proof (ingest_batch_run (map Spec.to_data (map Requests.item_of requests))
                  clock idx) as R.
    unfold Py.run in R. rewrite R, build_all_complete. cbn [app List.length].
    fold ingested. rewrite add_documents_after. unfold Py.ret.
    now rewrite L.
Qed.

(** A batch whose second request has a blank title; nothing is written. *)
Lemma batch_endpoint_is_all_or_nothing_witness :
  let good := Main.DocumentIngestRequest.mk "Content 1" "Title 1" "api" [] in
  let bad := Main.DocumentIngestRequest.mk "Content 2" "  " "api" [] in
  Forall (fun r => Requests.failure r = None) [good] /\
  Requests.failure bad = Some Spec.EmptyTitle /\
  Py.run (Main.ingest_batch [good; bad; good] (fun _ => Examples.epoch))
    Examples.populated
  = (Raise (HTTPException 400 "Document 2: Document title cannot be empty"),
     Examples.populated).
Proof.
  cbv zeta.
  assert (H1 : Forall (fun r => Requests.failure r = None)
                 [Main.DocumentIngestRequest.mk "Content 1" "Title 1" "api" []])
    by (repeat constructor).
  split; [exact H1|]. split; [reflexivity|].
  exact (proj1 (proj2 batch_endpoint_is_all_or_nothing)
           [Main.DocumentIngestRequest.mk "Content 1" "Title 1" "api" []]
           [Main.DocumentIngestRequest.mk "Content 1" "Title 1" "api" []]
           (Main.DocumentIngestRequest.mk "Content 2" "  " "api" [])
           Spec.EmptyTitle (fun _ => Examples.epoch) Examples.populated
           H1 eq_refl).
Defined.

(** ** Responses of the read endpoints *)

Lemma append_length (a b : string) :
  String.length (a ++ b) = String.length a + String.length b.
Proof. induction a as [|c a IH]; cbn; [reflexivity|]. now rewrite IH. Qed.

Lemma content_preview_length content :
  String.length (Main.content_preview content) <= 203.
Proof.
  unfold Main.content_preview.
  destruct (Z.gtb_spec (Z.of_nat (String.length content)) 200).
  - rewrite append_length, take_substring, substring_length.
    change (String.length "...") with 3. lia.
  - lia.
Qed.

(** X15.  The preview of a content is the content itself when it has at
    most 200 characters, and otherwise its first 200 characters followed by
    [...]; it never has more than 203 characters.  [POST /query] returns
    one response per document of the query result, in order, with
    [total_results] their number, which a non-negative [top_k] bounds;
    every preview in it has at most 203 characters. *)
Theorem previews_are_bounded :
  (forall content : string,
     (String.length content <= 200 ->
      Main.content_preview content = content) /\
     (200 < String.length content ->
      Main.content_preview content = substring 0 200 content ++ "..." /\
      String.length (Main.content_preview content) = 203) /\
     String.length (Main.content_preview content) <= 203) /\
  (forall (idx : KG.t) (query : string) (top_k : Z),
     exists docs : list Document.t,
       Py.result (KG.query query top_k) idx = Return docs /\
       Py.run (Main.query_documents query top_k) idx
       = (Return
            (Main.QueryResponse.mk query (map Main.document_response docs)
               (Z.of_nat (List.length docs))),
          idx) /\
       (0 <= top_k -> Z.of_nat (List.length docs) <= top_k)%Z /\
       Forall
         (fun r =>
            String.length (Main.DocumentResponse.content_preview r) <= 203)
         (map Main.document_response docs)).
Proof.
  split.
  - intro content. split; [|split].
    + intro H. unfold Main.content_preview.
      destruct (Z.gtb_spec (Z.of_nat (String.length content)) 200);
        [lia|reflexivity].
    + intro H. unfold Main.content_preview.
      destruct (Z.gtb_spec (Z.of_nat (String.length content)) 200); [|lia].
      rewrite take_substring. split; [reflexivity|].
      rewrite append_length, substring_length.
      change (String.length "...") with 3. lia.
    + apply content_preview_length.
  - intros idx query top_k.
    unfold Py.result, Py.run, Main.query_documents, Py.bind.
    rewrite query_run. eexists. split; [reflexivity|].
    split; [reflexivity|]. split.
    + intro Hk. destruct (KG.indexed idx); [|cbn; lia].
      rewrite slice_to_length. apply Z.leb_le in Hk. rewrite Hk. lia.
    + apply Forall_forall. intros r Hin.
      apply in_map_iff in Hin as [doc [<- _]]. apply content_preview_length.
Qed.

(** X16.  On a store reached from a fresh one, [GET /documents] returns one
    response per stored document, as many as [document_count] counts, with
    pairwise distinct ids, and [GET /documents/{id}] with the id of any of
    them returns that same response. *)
Theorem listed_documents_can_be_fetched :
  forall idx : KG.t,
    Reach.reachable idx ->
    exists listed : list Main.DocumentResponse.t,
      Py.run Main.list_documents idx = (Return listed, idx) /\
      Py.result KG.document_count idx = Return (Z.of_nat (List.length listed)) /\
      NoDup (map Main.DocumentResponse.id listed) /\
      forall r : Main.DocumentResponse.t,
        In r listed ->
        Py.run (Main.get_document (Main.DocumentResponse.id r)) idx
        = (Return r, idx).
Proof.
  intros idx Hr.
  destruct (reachable_sound idx Hr) as [Hwf [Hf _]].
  unfold Reach.filed_by_id in Hf. rewrite Forall_forall in Hf.
  assert (Hids : map Document.id (Dict.values (KG.documents idx))
                 = Dict.keys (KG.documents idx)).
  { unfold Dict.values, Dict.keys. rewrite map_map.
    apply map_ext_in. intros kv Hin. symmetry. now apply Hf. }
  exists (map Main.document_response (Dict.values (KG.documents idx))).
  split; [reflexivity|]. split; [|split].
  - rewrite result_run, document_count_run. cbn [fst]. unfold Dict.len, Dict.values.
    now rewrite !length_map.
  - rewrite map_map.
    change (map (fun x => Main.DocumentResponse.id (Main.document_response x))
              (Dict.values (KG.documents idx)))
      with (map Document.id (Dict.values (KG.documents idx))).
    now rewrite Hids.
  - intros r Hin. apply in_map_iff in Hin as [doc [<- Hin]].
    assert (Hget : Dict.get (Document.id doc) (KG.documents idx) = Some doc).
    { apply in_map_iff in Hin as [[k v] [E Hin]]. cbn in E. subst v.
      pose proof (Hf _ Hin) as Hk. cbn in Hk. subst k.
      now apply dict_get_of_entry. }
    unfold Py.run, Main.get_document, Py.bind.
    pose proof (get_document_run (Document.id doc) idx) as G.
    unfold Py.run in G. cbn [Main.document_response Main.DocumentResponse.id].
    now rewrite G, Hget.
Qed.

(** The four documents of the populated index. *)
Lemma listed_documents_can_be_fetched_witness :
  Reach.reachable Examples.populated /\
  exists listed : list Main.DocumentResponse.t,
    Py.run Main.list_documents Examples.populated
    = (Return listed, Examples.populated) /\
    Py.result KG.document_count Examples.populated
    = Return (Z.of_nat (List.length listed)) /\
    NoDup (map Main.DocumentResponse.id listed).
Proof.
  assert (Hr : Reach.reachable Examples.populated).
  { exists [Calls.AddDocuments [Examples.doc1; Examples.doc2; Examples.doc3];
            Calls.AddDocuments [Examples.doc4]].
    reflexivity. }
  split; [exact Hr|].
  destruct (listed_documents_can_be_fetched Examples.populated Hr)
    as [listed [Hrun [Hcount [Hnd _]]]].
  exists listed. split; [exact Hrun|]. split; [exact Hcount|exact Hnd].
Defined.

(** ** The synthesis endpoint *)

#[local] Set Warnings "-inexact-float".

(** X17.  [POST /synthesize] returns normally and leaves the store alone.
    Its sources are the id, title and source of the documents the query
    returns with the default bound, in order, at most five.  With no such
    document the confidence is [0.0] and the response the no-results
    sentence; otherwise the confidence lies between [0.5] and [0.95] and
    the response is the numbered synthesis of those documents. *)
Theorem synthesize_endpoint_reports_the_engine_result :
  forall (idx : KG.t) (query : string) (now : Datetime.t),
    exists (docs : list Document.t) (resp : Main.SynthesizeResponse.t),
      Py.result (KG.query query KG.default_top_k) idx = Return docs /\
      Py.run (Main.synthesize query now) idx = (Return resp, idx) /\
      Main.SynthesizeResponse.query resp = query /\
      Main.SynthesizeResponse.sources resp
      = map (fun doc =>
               Main.SourceReference.mk (Document.id doc) (Document.title doc)
                 (Document.source doc)) docs /\
      List.length (Main.SynthesizeResponse.sources resp) <= 5 /\
      (docs = [] ->
       Main.SynthesizeResponse.confidence resp = 0%float /\
       Main.SynthesizeResponse.response resp
       = "No relevant documents found for this query.") /\
      (docs <> [] ->
       (0.5 <=? Main.SynthesizeResponse.confidence resp)%float = true /\
       (Main.SynthesizeResponse.confidence resp <=? 0.95)%float = true /\
       Main.SynthesizeResponse.response resp = Spec.response_text query docs).
Proof.
  intros idx query now.
  destruct (context_exists idx query None) as [docs Hctx].
  pose proof (synthesize_run query None now idx docs Hctx) as E.
  exists docs. unfold Py.run in E. unfold Py.run, Main.synthesize, Py.bind.
  rewrite E. eexists. split; [exact Hctx|]. split; [reflexivity|].
  destruct (query_default_size idx query docs Hctx) as [Hlen _].
  destruct docs as [|d docs].
  - cbn [Main.SynthesizeResponse.query Main.SynthesizeResponse.sources
         Main.SynthesizeResponse.confidence Main.SynthesizeResponse.response
         SynthesisResult.query SynthesisResult.sources
         SynthesisResult.confidence SynthesisResult.response
         Spec.no_results map List.length].
    split; [reflexivity|]. split; [reflexivity|]. split; [lia|].
    split; [intros _; split; reflexivity|]. now intros [].
  - cbn [Main.SynthesizeResponse.query Main.SynthesizeResponse.sources
         Main.SynthesizeResponse.confidence Main.SynthesizeResponse.response
         SynthesisResult.query SynthesisResult.sources
         SynthesisResult.confidence SynthesisResult.response].
    split; [reflexivity|]. split; [reflexivity|].
    split; [now rewrite length_map|]. split; [discriminate|]. intros _.
    destruct (Confidence.confidence_of_bounds (List.length (d :: docs)))
      as [Hlo Hhi].
    split; [exact Hlo|]. split; [exact Hhi|reflexivity].
Qed.

(** ** Adding the same documents again *)

Lemma dict_ext {V} (d1 : Dict.t V) : forall d2 : Dict.t V,
  Dict.wf d1 -> Dict.keys d1 = Dict.keys d2 ->
  (forall k, Dict.get k d1 = Dict.get k d2) -> d1 = d2.
Proof.
  unfold Dict.wf.
  induction d1 as [|[k v] d1 IH]; intros [|[k' v'] d2] Hwf Hk Hg;
    try discriminate; [reflexivity|].
  cbn in Hk. injection Hk as Hkk Hk. subst k'.
  inversion Hwf as [|? ? Hout Hd]; subst.
  pose proof (Hg k) as Hv. cbn in Hv. rewrite String.eqb_refl in Hv.
  injection Hv as <-. f_equal. apply IH; try assumption.
  intro k0. specialize (Hg k0). cbn in Hg.
  destruct (String.eqb_spec k k0) as [E|Hne]; [subst k0|exact Hg].
  assert (N1 : Dict.get k d1 = None).
  { destruct (Dict.get k d1) eqn:G; [|reflexivity].
    exfalso. apply Hout. apply dict_get_in. congruence. }
  assert (N2 : Dict.get k d2 = None).
  { destruct (Dict.get k d2) eqn:G; [|reflexivity].
    exfalso. apply Hout. unfold Dict.keys in *. rewrite Hk.
    apply (dict_get_in k d2). congruence. }
  congruence.
Qed.

Lemma new_ids_known docs : forall known,
  (forall doc, In doc docs -> In (Document.id doc) known) ->
  Reach.new_ids known docs = [].
Proof.
  induction docs as [|d docs IH]; intros known H; [reflexivity|].
  cbn. destruct (in_dec string_dec (Document.id d) known) as [Hin|Hout].
  - apply IH. intros doc Hd. apply H. now right.
  - exfalso. apply Hout, H. now left.
Qed.

Lemma last_with_id_in i docs doc :
  Reach.last_with_id i docs = Some doc -> In doc docs /\ Document.id doc = i.
Proof.
  induction docs as [|d docs IH]; cbn; [discriminate|].
  destruct (Reach.last_with_id i docs) as [later|].
  - intros [= <-]. destruct (IH eq_refl). auto.
  - destruct (String.eqb_spec (Document.id d) i); [|discriminate].
    intros [= <-]. auto.
Qed.

Lemma store_all_has_ids docs : forall d doc,
  In doc docs -> In (Document.id doc) (Dict.keys (Spec.store_all docs d)).
Proof.
  intros d doc Hin. apply dict_get_in. rewrite store_all_get.
  destruct (Reach.last_with_id (Document.id doc) docs) eqn:L; [discriminate|].
  exfalso. clear -Hin L.
  induction docs as [|x docs IH]; [contradiction|]. cbn in L.
  destruct (Reach.last_with_id (Document.id doc) docs); [discriminate|].
  destruct Hin as [->|Hin]; [|now apply IH].
  now rewrite String.eqb_refl in L.
Qed.

(** X18.  On a store with distinct keys, adding a list of documents a
    second time changes nothing: the documents, their order and the flag
    are those after the first addition. *)
Theorem adding_again_changes_nothing :
  forall (idx : KG.t) (docs : list Document.t),
    Dict.wf (KG.documents idx) ->
    Py.after (KG.add_documents docs) (Py.after (KG.add_documents docs) idx)
    = Py.after (KG.add_documents docs) idx.
Proof.
  intros idx docs Hwf. rewrite !add_documents_after. cbn [KG.documents].
  f_equal. set (d' := Spec.store_all docs (KG.documents idx)).
  assert (Hwf' : Dict.wf d') by now apply store_all_wf.
  assert (K : Dict.keys (Spec.store_all docs d') = Dict.keys d').
  { rewrite store_all_keys, new_ids_known, app_nil_r; [reflexivity|].
    intros doc Hin. now apply store_all_has_ids. }
  apply dict_ext; [now apply store_all_wf|exact K|].
  intro k. rewrite store_all_get. unfold d'. rewrite store_all_get.
  now destruct (Reach.last_with_id k docs).
Qed.

(** The three documents of the test suite, added twice to a fresh
    store. *)
Lemma adding_again_changes_nothing_witness :
  Dict.wf (KG.documents KG.init) /\
  Py.after (KG.add_documents [Examples.doc1; Examples.doc2; Examples.doc3])
    (Py.after (KG.add_documents [Examples.doc1; Examples.doc2; Examples.doc3])
       KG.init)
  = Py.after (KG.add_documents [Examples.doc1; Examples.doc2; Examples.doc3])
      KG.init.
Proof.
  assert (Hwf : Dict.wf (KG.documents KG.init)) by constructor.
  split; [exact Hwf|].
  exact (adding_again_changes_nothing KG.init
           [Examples.doc1; Examples.doc2; Examples.doc3] Hwf).
Defined.
